(** * The proxy subsystem of enemy: line parser, pool, framed timed I/O,
      SOCKS4 / SOCKS5 / HTTP CONNECT handshakes and the validation sweep.

    The definitions below are a shallow embedding of [proxy.c] (the variant
    that carries [safe_read_with_timeout] and [safe_write_with_timeout]) and
    of [proxy_loader.c] (the threaded validator).

    Conventions.
    - A C string is a [string]; a [char *] that may be [NULL] is an
      [option string].
    - A C [int] is a [Z]; the 0/1 flags of [struct proxy_t] are [bool].
    - The intrusive doubly linked list of proxies is a [list proxy]; a pointer
      to a node is the position of the node in that list.
    - Wire bytes are [Z] values in 0..255.
    - What the environment does (name resolution, the file system, the peer
      behind a socket, the passing of time) is given by explicit oracles and
      event scripts. *)

From Stdlib Require Import ZArith List String Ascii Bool Lia DecimalString FinFun.
Import ListNotations.

Open Scope string_scope.
Open Scope Z_scope.

(** ** C strings *)

Module CStr.

(** [isspace] in the C locale: space, and the controls 9 (TAB) to 13 (CR). *)
Definition isspace (c : ascii) : bool :=
  let n := nat_of_ascii c in
  Nat.eqb n 32 || (Nat.leb 9 n && Nat.leb n 13).

Definition isdigit (c : ascii) : bool :=
  let n := nat_of_ascii c in
  Nat.leb 48 n && Nat.leb n 57.

Definition tolower (c : ascii) : ascii :=
  let n := nat_of_ascii c in
  if Nat.leb 65 n && Nat.leb n 90 then ascii_of_nat (n + 32) else c.

Definition NUL : ascii := "000"%char.
Definition LF : ascii := "010"%char.
Definition CR : ascii := "013"%char.

(** The characters of [s] that a C function sees: up to the first NUL. *)
Fixpoint c_str (s : string) : string :=
  match s with
  | EmptyString => EmptyString
  | String c r => if Ascii.eqb c NUL then EmptyString else String c (c_str r)
  end.

Fixpoint str_take (n : nat) (s : string) : string :=
  match n, s with
  | O, _ => EmptyString
  | _, EmptyString => EmptyString
  | S k, String c r => String c (str_take k r)
  end.

Fixpoint str_drop (n : nat) (s : string) : string :=
  match n, s with
  | O, _ => s
  | _, EmptyString => EmptyString
  | S k, String _ r => str_drop k r
  end.

(** First character, NUL for the empty string ([*s] in C). *)
Definition deref (s : string) : ascii :=
  match s with
  | EmptyString => NUL
  | String c _ => c
  end.

Definition is_empty (s : string) : bool :=
  match s with
  | EmptyString => true
  | String _ _ => false
  end.

(** [strchr s c]: offset of the first [c] in [s]. *)
Fixpoint strchr (s : string) (c : ascii) : option nat :=
  match s with
  | EmptyString => None
  | String d r =>
      if Ascii.eqb d c then Some O
      else match strchr r c with
           | Some i => Some (S i)
           | None => None
           end
  end.

(** [strrchr s c]: offset of the last [c] in [s]. *)
Fixpoint strrchr (s : string) (c : ascii) : option nat :=
  match s with
  | EmptyString => None
  | String d r =>
      match strrchr r c with
      | Some i => Some (S i)
      | None => if Ascii.eqb d c then Some O else None
      end
  end.

(** [strstr s pat]: offset of the first occurrence of [pat] in [s]. *)
Fixpoint strstr (s pat : string) : option nat :=
  if String.prefix pat s then Some O
  else match s with
       | EmptyString => None
       | String _ r =>
           match strstr r pat with
           | Some i => Some (S i)
           | None => None
           end
       end.

(** The two strings obtained by writing a NUL at offset [i] of [s] and
    continuing [skip] characters further. *)
Definition split_at (i skip : nat) (s : string) : string * string :=
  (str_take i s, str_drop (i + skip) s).

(** Leading part of [trim_whitespace]: the pointer moves over the white
    space at the start. *)
Fixpoint skip_space (s : string) : string :=
  match s with
  | EmptyString => EmptyString
  | String c r => if isspace c then skip_space r else s
  end.

(** Trailing part of [trim_whitespace]: NULs are written over the white
    space at the end, from the last character backwards. *)
Fixpoint chop_space (s : string) : string :=
  match s with
  | EmptyString => EmptyString
  | String c r =>
      match chop_space r with
      | EmptyString => if isspace c then EmptyString else String c EmptyString
      | r' => String c r'
      end
  end.

Definition trim_whitespace (s : string) : string :=
  chop_space (skip_space s).

(** Modelled from the spec: [x_strcasecmp] is declared outside the proxy
    sources; section 4.1 of the specification says that the scheme is
    compared case-insensitively.  The result is 0 when the strings are equal
    up to the case of letters, and 1 otherwise. *)
Fixpoint x_strcasecmp (a b : string) : Z :=
  match a, b with
  | EmptyString, EmptyString => 0
  | String x a', String y b' =>
      if Ascii.eqb (tolower x) (tolower y) then x_strcasecmp a' b' else 1
  | _, _ => 1
  end.

(** Value of a run of decimal digits, with the rest of the string. *)
Fixpoint digits (acc : Z) (s : string) : Z * string :=
  match s with
  | EmptyString => (acc, EmptyString)
  | String c r =>
      if isdigit c
      then digits (10 * acc + Z.of_nat (nat_of_ascii c) - 48) r
      else (acc, s)
  end.

(** [strtol(s, &endptr, 10)]: the value and the string at [endptr].  When no
    digit follows the optional sign, the value is 0 and [endptr] is [s].
    The value is the mathematical one: [parse_proxy_line], the only caller
    that keeps it as a [long], rejects whatever exceeds 65535, clamped to
    [LONG_MAX] or not; [atoi] below does the clamping. *)
Definition strtol (s : string) : Z * string :=
  let t := skip_space s in
  let '(neg, u) :=
    match t with
    | String "-" r => (true, r)
    | String "+" r => (false, r)
    | _ => (false, t)
    end in
  if isdigit (deref u)
  then let '(v, e) := digits 0 u in ((if neg then - v else v), e)
  else (0, s).

(** What [strtol] returns for a value outside the range of [long] (64 bits
    here): [LONG_MIN] or [LONG_MAX]. *)
Definition clamp_long (v : Z) : Z :=
  Z.max (-9223372036854775808) (Z.min 9223372036854775807 v).

(** [(int) v] for a [long] [v]: the low 32 bits, read as a signed number. *)
Definition int_of_long (v : Z) : Z :=
  (v + 2147483648) mod 4294967296 - 2147483648.

(** [atoi(s)] as the C library computes it, [(int) strtol(s, NULL, 10)]: a
    number of the range of [int], equal to the digits read only when they
    fit 32 bits.  The text [4294967496] is read as 200. *)
Definition atoi (s : string) : Z := int_of_long (clamp_long (fst (strtol s))).

(** [printf("%d", n)] *)
Definition fmt_d (n : Z) : string := NilZero.string_of_int (Z.to_int n).

Definition strlen (s : string) : Z := Z.of_nat (String.length s).

End CStr.

Import CStr.

(** ** Data model ([command.h]) *)

Inductive proxy_type : Type :=
  | PROXY_NONE
  | PROXY_HTTP
  | PROXY_HTTPS
  | PROXY_SOCKS4
  | PROXY_SOCKS5.

Definition proxy_type_eqb (a b : proxy_type) : bool :=
  match a, b with
  | PROXY_NONE, PROXY_NONE
  | PROXY_HTTP, PROXY_HTTP
  | PROXY_HTTPS, PROXY_HTTPS
  | PROXY_SOCKS4, PROXY_SOCKS4
  | PROXY_SOCKS5, PROXY_SOCKS5 => true
  | _, _ => false
  end.

(** A socket address: the address as a number and the port.  [calloc] leaves
    both at zero. *)
Record sockaddr : Type := mkSockaddr { sa_addr : Z; sa_port : Z }.

Definition sockaddr_zero : sockaddr := mkSockaddr 0 0.

(** [struct proxy_t], without the list links. *)
Record proxy : Type := mkProxy {
  host : string;
  port : Z;
  username : option string;
  password : option string;
  type : proxy_type;
  detected_type : proxy_type;
  is_ipv6 : bool;
  is_active : bool;
  has_auth : bool;
  validated : bool;
  last_rtt_ms : Z;
  addr : sockaddr;
  addr6 : sockaddr
}.

(** The proxy part of the global [xconnect]. *)
Record xaddress : Type := mkXaddress {
  proxy_list : list proxy;
  current_proxy : option nat;
  proxy_count : Z;
  proxy_default_type : proxy_type;
  proxy_file : option string;
  proxy_loader_concurrency : Z
}.

(** [username && password && *username && *password] *)
Definition has_credentials (u p : option string) : bool :=
  match u, p with
  | Some a, Some b => negb (is_empty a) && negb (is_empty b)
  | _, _ => false
  end.

(** ** Line parser ([parse_proxy_line], proxy.c) *)

Inductive ai_family : Type :=
  | AF_UNSPEC
  | AF_INET
  | AF_INET6.

(** First entry of the list that [getaddrinfo] returns.  A family that is
    neither [AF_INET] nor [AF_INET6] is written [AF_UNSPEC]. *)
Record addrinfo : Type := mkAddrinfo {
  ai_fam : ai_family;
  ai_addr : sockaddr
}.

Definition MAX_PROXY_LINE : nat := 512.

(** [calloc(1, sizeof(proxy))] *)
Definition proxy_calloc : proxy :=
  mkProxy "" 0 None None PROXY_NONE PROXY_NONE false false false false 0
          sockaddr_zero sockaddr_zero.

(** The text of [buffer] after [strncpy] and after the loop that overwrites
    every CR and LF with NUL. *)
Fixpoint cut_crlf (s : string) : string :=
  match s with
  | EmptyString => EmptyString
  | String c r =>
      if Ascii.eqb c LF || Ascii.eqb c CR then EmptyString
      else String c (cut_crlf r)
  end.

Definition line_buffer (line : string) : string :=
  cut_crlf (str_take (MAX_PROXY_LINE - 1) (c_str line)).

(** The loop that cuts [work] at colons into at most [n] parts.  The second
    component is [tmp] when the loop ends: [None] for [NULL]. *)
Fixpoint split_colon (n : nat) (tmp : string) : list string * option string :=
  match n with
  | O => ([], Some tmp)
  | S k =>
      match strchr tmp ":" with
      | None => ([tmp], None)
      | Some i =>
          let '(part, rest) := split_at i 1 tmp in
          let '(ps, t) := split_colon k rest in
          (part :: ps, t)
      end
  end.

(** The tokens that the two branches of the parser hand to the common
    tail: host, port, and the credentials written after the port. *)
Record tokens : Type := mkTokens {
  host_token : string;
  port_token : string;
  suffix_user : option string;
  suffix_pass : option string;
  tok_ipv6 : bool
}.

(** The branch for [*work == '[']. *)
Definition bracket_tokens (work : string) : option tokens :=
  match strchr work "]" with
  | None => None
  | Some i =>
      let '(inside, after) := split_at i 1 work in
      let host_token := trim_whitespace (str_drop 1 inside) in
      let rest := trim_whitespace after in
      if Ascii.eqb (deref rest) ":" then
        let rest := trim_whitespace (str_drop 1 rest) in
        if is_empty rest then None
        else
          match strchr rest ":" with
          | None =>
              Some (mkTokens host_token (trim_whitespace rest) None None true)
          | Some j =>
              let '(rest, after_port) := split_at j 1 rest in
              let suffix_user := trim_whitespace after_port in
              if is_empty suffix_user then
                Some (mkTokens host_token (trim_whitespace rest)
                               (Some suffix_user) None true)
              else
                match strchr suffix_user ":" with
                | None =>
                    Some (mkTokens host_token (trim_whitespace rest)
                                   (Some suffix_user) None true)
                | Some k =>
                    let '(u, after_user) := split_at k 1 suffix_user in
                    Some (mkTokens host_token (trim_whitespace rest)
                                   (Some u)
                                   (Some (trim_whitespace after_user)) true)
                end
          end
      else None
  end.

(** The branch for a host that is not bracketed.  When text is left after
    the fourth colon, the code puts the colon back and copies the trimmed
    rest behind it with [strcpy], source and destination in the same
    buffer.  The text below is what that copy gives when the rest had no
    white space to skip at its start (the source is the destination); when
    it had, the two regions overlap at different addresses and C leaves the
    result of [strcpy] undefined: the definition then gives the text that a
    copy without overlap gives. *)
Definition plain_tokens (work : string) : option tokens :=
  let '(parts, tmp) := split_colon 4 work in
  let parts :=
    match tmp, parts with
    | Some t, [p0; p1; p2; p3] =>
        if is_empty t then parts
        else
          let t := trim_whitespace t in
          if is_empty t then parts
          else [p0; p1; p2; p3 ++ ":" ++ t]
    | _, _ => parts
    end in
  match parts with
  | p0 :: p1 :: more =>
      let host_token := trim_whitespace p0 in
      let port_token := trim_whitespace p1 in
      if is_empty host_token || is_empty port_token then None
      else
        let suffix_user :=
          match more with
          | p2 :: _ => Some (trim_whitespace p2)
          | [] => None
          end in
        let suffix_pass :=
          match more with
          | _ :: p3 :: _ => Some (trim_whitespace p3)
          | _ => None
          end in
        Some (mkTokens host_token port_token suffix_user suffix_pass false)
  | _ => None
  end.

(** [s && *s] *)
Definition nonempty (s : option string) : bool :=
  match s with
  | Some t => negb (is_empty t)
  | None => false
  end.

Section Parser.

(** [getaddrinfo(host, port_str, hints, &result)] with [hints.ai_family] as
    third argument: [None] when the call fails or returns no entry. *)
Variable getaddrinfo : string -> string -> ai_family -> option addrinfo.

Definition parse_proxy_line (line : string) (default_type : proxy_type)
  : option proxy :=
  if is_empty (c_str line) then None
  else
    let work := trim_whitespace (line_buffer line) in
    if is_empty work || Ascii.eqb (deref work) "#" then None
    else
      (* one pair of brackets around a token that holds an '@' *)
      let wlen := String.length work in
      let peeled :=
        if Nat.ltb 2 wlen
           && Ascii.eqb (deref work) "["
           && Ascii.eqb (deref (str_drop (wlen - 1) work)) "]"
           && (match strchr (str_drop 1 work) "@" with
               | Some _ => true
               | None => false
               end)
        then trim_whitespace (str_drop 1 (str_take (wlen - 1) work))
        else work in
      if is_empty peeled then None
      else
        let work := peeled in
        (* scheme *)
        let '(ptype, work) :=
          match strstr work "://" with
          | Some i =>
              let '(scheme, rest) := split_at i 3 work in
              let ptype :=
                if x_strcasecmp scheme "http" =? 0 then PROXY_HTTP
                else if x_strcasecmp scheme "https" =? 0 then PROXY_HTTPS
                else if x_strcasecmp scheme "socks4" =? 0 then PROXY_SOCKS4
                else if x_strcasecmp scheme "socks5" =? 0 then PROXY_SOCKS5
                else default_type in
              (ptype, trim_whitespace rest)
          | None => (default_type, work)
          end in
        (* credentials before the rightmost '@' *)
        let '(prefix_user, prefix_pass, work) :=
          match strrchr work "@" with
          | Some i =>
              let '(before, after) := split_at i 1 work in
              let user_pass := trim_whitespace before in
              let work := trim_whitespace after in
              if is_empty user_pass then (None, None, work)
              else
                match strchr user_pass ":" with
                | Some j =>
                    let '(u, p) := split_at j 1 user_pass in
                    (Some (trim_whitespace u), Some (trim_whitespace p), work)
                | None => (Some user_pass, None, work)
                end
          | None => (None, None, trim_whitespace work)
          end in
        if is_empty work then None
        else
          match (if Ascii.eqb (deref work) "[" then bracket_tokens work
                 else plain_tokens work) with
          | None => None
          | Some tk =>
              if is_empty (host_token tk) || is_empty (port_token tk) then None
              else
                let '(port, endptr) := strtol (port_token tk) in
                let endptr := skip_space endptr in
                if negb (is_empty endptr) || (port <=? 0) || (65535 <? port)
                then None
                else
                  let username :=
                    if nonempty prefix_user then prefix_user
                    else if nonempty (suffix_user tk) then suffix_user tk
                    else None in
                  let password :=
                    if nonempty prefix_pass then prefix_pass
                    else if nonempty (suffix_pass tk) then suffix_pass tk
                    else None in
                  let family := if tok_ipv6 tk then AF_INET6 else AF_UNSPEC in
                  match getaddrinfo (host_token tk) (fmt_d port) family with
                  | Some (mkAddrinfo AF_INET6 a) =>
                      Some (mkProxy (host_token tk) port username password
                                    ptype PROXY_NONE true false false false 0
                                    sockaddr_zero a)
                  | Some (mkAddrinfo AF_INET a) =>
                      Some (mkProxy (host_token tk) port username password
                                    ptype PROXY_NONE false false false false 0
                                    a sockaddr_zero)
                  | _ => None
                  end
          end.

End Parser.

(** ** Pool ([load_proxies], [del_proxy_all], [next_proxy], proxy.c) *)

Definition set_pool (x : xaddress) (l : list proxy) (cur : option nat)
  (n : Z) : xaddress :=
  mkXaddress l cur n (proxy_default_type x) (proxy_file x)
             (proxy_loader_concurrency x).

(** Every node is freed; list, tail, cursor and count are reset. *)
Definition del_proxy_all (x : xaddress) : xaddress :=
  set_pool x [] None 0.

(** The node is linked after [proxy_tail], or becomes the head of an empty
    list. *)
Definition append_proxy (p : proxy) (x : xaddress) : xaddress :=
  set_pool x (proxy_list x ++ [p])%list (current_proxy x) (proxy_count x).

(** The lines that successive calls of [fgets(line, 512, fp)] return for a
    file with the given content: a line ends after its LF, or when 511
    characters are stored.  [acc] is the line read so far and [room] the
    number of characters that still fit. *)
Fixpoint fgets_lines (acc : string) (room : nat) (content : string)
  : list string :=
  match content with
  | EmptyString => if is_empty acc then [] else [acc]
  | String c r =>
      let acc' := acc ++ String c EmptyString in
      if Ascii.eqb c LF || Nat.eqb room 1
      then acc' :: fgets_lines EmptyString (MAX_PROXY_LINE - 1) r
      else fgets_lines acc' (room - 1) r
  end.

Section Pool.

Variable getaddrinfo : string -> string -> ai_family -> option addrinfo.

(** [fopen(filename, "r")]: the content of the file, [None] when it cannot
    be opened. *)
Variable fopen_r : string -> option string.

(** The reading loop of [load_proxies], on the pool and the local [count]. *)
Fixpoint load_lines (lines : list string) (default_type : proxy_type)
  (x : xaddress) (count : Z) : xaddress * Z :=
  match lines with
  | [] => (x, count)
  | line :: rest =>
      match parse_proxy_line getaddrinfo line default_type with
      | Some p => load_lines rest default_type (append_proxy p x) (count + 1)
      | None => load_lines rest default_type x count
      end
  end.

Definition load_proxies (filename : string) (default_type : proxy_type)
  (x : xaddress) : Z * xaddress :=
  match fopen_r filename with
  | None => (-1, x)
  | Some content =>
      let x := del_proxy_all x in
      let '(x, count) :=
        load_lines (fgets_lines EmptyString (MAX_PROXY_LINE - 1) content)
                   default_type x 0 in
      let x := set_pool x (proxy_list x) (current_proxy x) count in
      if 0 <? count then
        (count,
         mkXaddress (proxy_list x) None (proxy_count x) default_type
                    (Some filename) (proxy_loader_concurrency x))
      else (0, x)
  end.

End Pool.

(** [next_proxy]: the result is the pointer stored in [current_proxy], that
    is the position of the node, [None] for [NULL].  The cursor has no
    successor when it is the last node. *)
Definition next_proxy (x : xaddress) : option nat * xaddress :=
  match proxy_list x with
  | [] => (None, x)
  | _ :: _ =>
      let cur :=
        match current_proxy x with
        | None => O
        | Some i =>
            if Nat.ltb (S i) (List.length (proxy_list x)) then S i else O
        end in
      (Some cur, set_pool x (proxy_list x) (Some cur) (proxy_count x))
  end.


(** [remove_proxy_from_list], proxy_loader.c: the node at position [i] is
    unlinked and freed.  A cursor on the node moves to its successor, or to
    the head when the node was the last one; the positions after [i] shift
    down by one. *)
Definition remove_proxy_from_list (i : nat) (x : xaddress) : xaddress :=
  let l := proxy_list x in
  if Nat.ltb i (List.length l) then
    let l' := (firstn i l ++ skipn (S i) l)%list in
    let cur' :=
      match current_proxy x with
      | None => None
      | Some c =>
          if Nat.eqb c i then
            if Nat.ltb (S i) (List.length l) then Some i
            else match l' with
                 | [] => None
                 | _ :: _ => Some O
                 end
          else if Nat.ltb i c then Some (c - 1)%nat
          else Some c
      end in
    set_pool x l' cur' (proxy_count x - 1)
  else x.

(** ** Sockets, time and the console

    A socket is what its peer and the kernel will do, as two scripts: [rx]
    for the reading side and [tx] for the writing side.  Each event says
    after how many milliseconds the descriptor becomes ready and what the
    system call that follows returns.  Time passes inside [select] and
    [poll], and inside the [gethostbyname] of [socks4_connect], the one call
    of these functions that blocks without a timeout; an empty script is a
    descriptor that never becomes ready. *)

Inductive errno_t : Type :=
  | ENONE
  | EINTR
  | EAGAIN
  | EWOULDBLOCK
  | ETIMEDOUT
  | ECONNRESET
  | EINVAL
  | EOTHER (code : Z).

Definition is_EINTR (e : errno_t) : bool :=
  match e with EINTR => true | _ => false end.

Definition is_EAGAIN (e : errno_t) : bool :=
  match e with EAGAIN | EWOULDBLOCK => true | _ => false end.

Definition is_ETIMEDOUT (e : errno_t) : bool :=
  match e with ETIMEDOUT => true | _ => false end.

Inductive rx_event : Type :=
  | RxData (delay : Z) (bytes : list Z)       (* [read] returns these bytes *)
  | RxEof (delay : Z)                         (* [read] returns 0 *)
  | RxSelectFail (delay : Z) (e : errno_t)    (* [select] returns -1 *)
  | RxReadFail (delay : Z) (e : errno_t).     (* [read] returns -1 *)

Inductive tx_event : Type :=
  | TxRoom (delay : Z) (room : Z)             (* [write] takes [room] bytes *)
  | TxSelectFail (delay : Z) (e : errno_t)    (* [select] returns -1 *)
  | TxWriteFail (delay : Z) (e : errno_t).    (* [write] returns -1 *)

Definition rx_delay (ev : rx_event) : Z :=
  match ev with
  | RxData d _ | RxEof d | RxSelectFail d _ | RxReadFail d _ => Z.max 0 d
  end.

Definition tx_delay (ev : tx_event) : Z :=
  match ev with
  | TxRoom d _ | TxSelectFail d _ | TxWriteFail d _ => Z.max 0 d
  end.

(** The event as it stands after a wait of [t] milliseconds that ended
    before it. *)
Definition rx_later (t : Z) (ev : rx_event) : rx_event :=
  match ev with
  | RxData d b => RxData (Z.max 0 d - t) b
  | RxEof d => RxEof (Z.max 0 d - t)
  | RxSelectFail d e => RxSelectFail (Z.max 0 d - t) e
  | RxReadFail d e => RxReadFail (Z.max 0 d - t) e
  end.

Definition tx_later (t : Z) (ev : tx_event) : tx_event :=
  match ev with
  | TxRoom d k => TxRoom (Z.max 0 d - t) k
  | TxSelectFail d e => TxSelectFail (Z.max 0 d - t) e
  | TxWriteFail d e => TxWriteFail (Z.max 0 d - t) e
  end.

(** A line that [err_printf] writes, by the place that writes it. *)
Inductive err_line : Type :=
  | ErrTimeout (site : string)
  | ErrErrno (site : string) (e : errno_t)
  | ErrEOF (site : string)
  | ErrResolve (site : string)
  | ErrSocks4Rejected (code : Z)
  | ErrSocks5Version (got : Z)
  | ErrSocks5AuthFailed
  | ErrSocks5NoMethod
  | ErrSocks5Failed (code : Z)
  | ErrHttpInvalid
  | ErrHttpStatus (status_code : Z).

(** One readiness poll of the framed I/O: the timeout handed to [select],
    in milliseconds, and the time of the call. *)
Record poll_rec : Type := mkPoll { poll_timeout : Z; poll_at : Z }.

Record world : Type := mkWorld {
  rx : list rx_event;
  tx : list tx_event;
  sent : list Z;              (* the bytes that [write] has taken, in order *)
  clock : Z;                  (* milliseconds *)
  errno : errno_t;
  console : list err_line;
  polls : list poll_rec       (* the polls of the framed I/O, in order *)
}.

Definition set_rx (w : world) (r : list rx_event) : world :=
  mkWorld r (tx w) (sent w) (clock w) (errno w) (console w) (polls w).

Definition set_tx (w : world) (t : list tx_event) : world :=
  mkWorld (rx w) t (sent w) (clock w) (errno w) (console w) (polls w).

Definition push_sent (w : world) (b : list Z) : world :=
  mkWorld (rx w) (tx w) (sent w ++ b)%list (clock w) (errno w) (console w)
          (polls w).

Definition tick (w : world) (dt : Z) : world :=
  mkWorld (rx w) (tx w) (sent w) (clock w + dt) (errno w) (console w)
          (polls w).

Definition set_errno (w : world) (e : errno_t) : world :=
  mkWorld (rx w) (tx w) (sent w) (clock w) e (console w) (polls w).

Definition err_printf (l : err_line) (w : world) : world :=
  mkWorld (rx w) (tx w) (sent w) (clock w) (errno w) (console w ++ [l])%list
          (polls w).

Definition note_poll (w : world) (timeout_ms : Z) : world :=
  mkWorld (rx w) (tx w) (sent w) (clock w) (errno w) (console w)
          (polls w ++ [mkPoll timeout_ms (clock w)])%list.

Definition Zlength_ {A} (l : list A) : Z := Z.of_nat (List.length l).

(** ** Framed timed I/O ([safe_read_with_timeout],
       [safe_write_with_timeout], proxy.c) *)

(** The loop of [safe_read_with_timeout].  [total] and [buf] are the bytes
    read so far.  Each turn sets [tv] to [timeout_sec] seconds and calls
    [select]; the result is the return value, the buffer, the rest of the
    script and the world. *)
Fixpoint safe_read_loop (evs : list rx_event) (count timeout_sec : Z)
  (total : Z) (buf : list Z) (w : world)
  : Z * list Z * list rx_event * world :=
  if count <=? total then (total, buf, evs, w)
  else
    let tmo := timeout_sec * 1000 in
    let w := note_poll w tmo in
    if timeout_sec <? 0 then (-1, buf, evs, set_errno w EINVAL)
    else
      match evs with
      | [] => (-1, buf, [], set_errno (tick w tmo) ETIMEDOUT)
      | ev :: rest =>
          if tmo <? rx_delay ev then
            (-1, buf, rx_later tmo ev :: rest,
             set_errno (tick w tmo) ETIMEDOUT)
          else
            let w := tick w (rx_delay ev) in
            match ev with
            | RxSelectFail _ e =>
                if is_EINTR e
                then safe_read_loop rest count timeout_sec total buf
                                    (set_errno w e)
                else (-1, buf, rest, set_errno w e)
            | RxReadFail _ e =>
                if is_EAGAIN e
                then safe_read_loop rest count timeout_sec total buf
                                    (set_errno w e)
                else (-1, buf, rest, set_errno w e)
            | RxEof _ =>
                ((if 0 <? total then total else -1), buf, RxEof 0 :: rest,
                 set_errno w ECONNRESET)
            | RxData _ bytes =>
                let want := Z.to_nat (count - total) in
                let got := firstn want bytes in
                let left := skipn want bytes in
                match got with
                | [] =>
                    ((if 0 <? total then total else -1), buf, rest,
                     set_errno w ECONNRESET)
                | _ :: _ =>
                    let total := total + Zlength_ got in
                    let buf := (buf ++ got)%list in
                    match left with
                    | [] =>
                        safe_read_loop rest count timeout_sec total buf w
                    | _ :: _ => (total, buf, RxData 0 left :: rest, w)
                    end
                end
            end
      end.

Definition safe_read_with_timeout (count timeout_sec : Z) (w : world)
  : (Z * list Z) * world :=
  let '(n, buf, evs, w') :=
    safe_read_loop (rx w) count timeout_sec 0 [] w in
  ((n, buf), set_rx w' evs).

(** The loop of [safe_write_with_timeout] on the bytes [data] of [buf];
    [count] is their number. *)
Fixpoint safe_write_loop (evs : list tx_event) (data : list Z)
  (timeout_sec : Z) (total : Z) (w : world) : Z * list tx_event * world :=
  let count := Zlength_ data in
  if count <=? total then (total, evs, w)
  else
    let tmo := timeout_sec * 1000 in
    let w := note_poll w tmo in
    if timeout_sec <? 0 then (-1, evs, set_errno w EINVAL)
    else
      match evs with
      | [] => (-1, [], set_errno (tick w tmo) ETIMEDOUT)
      | ev :: rest =>
          if tmo <? tx_delay ev then
            (-1, tx_later tmo ev :: rest, set_errno (tick w tmo) ETIMEDOUT)
          else
            let w := tick w (tx_delay ev) in
            match ev with
            | TxSelectFail _ e =>
                if is_EINTR e
                then safe_write_loop rest data timeout_sec total
                                     (set_errno w e)
                else (-1, rest, set_errno w e)
            | TxWriteFail _ e =>
                if is_EAGAIN e
                then safe_write_loop rest data timeout_sec total
                                     (set_errno w e)
                else (-1, rest, set_errno w e)
            | TxRoom _ room =>
                let n := Z.min room (count - total) in
                if n <=? 0 then (-1, rest, set_errno w ECONNRESET)
                else
                  let chunk :=
                    firstn (Z.to_nat n) (skipn (Z.to_nat total) data) in
                  safe_write_loop rest data timeout_sec (total + n)
                                  (push_sent w chunk)
            end
      end.

Definition safe_write_with_timeout (data : list Z) (timeout_sec : Z)
  (w : world) : Z * world :=
  let '(n, evs, w') := safe_write_loop (tx w) data timeout_sec 0 w in
  (n, set_tx w' evs).

(** ** Handshakes ([socks4_connect], [socks5_connect], [http_connect],
       proxy.c)

    A handshake is a computation on the world.  [None] stands for undefined
    behaviour of the C code: a write past the end of a local buffer or
    [strlen(NULL)]. *)

Definition M (A : Type) : Type := world -> option (A * world).

Definition ret {A} (a : A) : M A := fun w => Some (a, w).

Definition bind {A B} (m : M A) (k : A -> M B) : M B :=
  fun w =>
    match m w with
    | Some (a, w') => k a w'
    | None => None
    end.

Definition undefined {A} : M A := fun _ => None.

Definition lift {A} (f : world -> A * world) : M A := fun w => Some (f w).

Definition get_errno : M errno_t := fun w => Some (errno w, w).

Definition log (l : err_line) : M unit := fun w => Some (tt, err_printf l w).

Declare Scope io_scope.
Delimit Scope io_scope with io.
Notation "x <- m ;; k" := (bind m (fun x => k))
  (at level 61, m at next level, right associativity) : io_scope.
Notation "' p <- m ;; k" := (bind m (fun p => k))
  (at level 61, p pattern, m at next level, right associativity) : io_scope.
Notation "m ;;; k" := (bind m (fun _ => k))
  (at level 61, right associativity) : io_scope.
Open Scope io_scope.

Definition bytes_of_string (s : string) : list Z :=
  map (fun c => Z.of_nat (nat_of_ascii c)) (list_ascii_of_string s).

Definition string_of_bytes (b : list Z) : string :=
  string_of_list_ascii (map (fun z => ascii_of_nat (Z.to_nat z)) b).

(** [buf[i]] for a buffer whose first bytes are [b]. *)
Definition byte_at (b : list Z) (i : nat) : Z := nth i b 0.

(** The message for a failed read or write: by [errno]. *)
Definition log_io_failure (site : string) : M unit :=
  e <- get_errno ;;
  if is_ETIMEDOUT e then log (ErrTimeout site) else log (ErrErrno site e).

(** The message for a short read: error or end of file. *)
Definition log_read_failure (site : string) (n : Z) : M unit :=
  if n <? 0 then log_io_failure site else log (ErrEOF site).

Definition HANDSHAKE_TIMEOUT_SEC : Z := 10.

Definition port_hi (dest_port : Z) : Z := Z.land (Z.shiftr dest_port 8) 255.
Definition port_lo (dest_port : Z) : Z := Z.land dest_port 255.

Definition opt_bytes (s : option string) : list Z :=
  match s with
  | Some t => bytes_of_string t
  | None => []
  end.

Section Socks4.

(** [inet_pton(AF_INET, host, &dest_addr)]: the four bytes of a dotted quad,
    [None] when the call does not return 1. *)
Variable inet_pton4 : string -> option (list Z).

(** [gethostbyname(host)]: the milliseconds for which the call blocks, and
    [h_addr], four bytes, [None] when the call returns [NULL].  The call
    has no timeout. *)
Variable gethostbyname : string -> Z * option (list Z).

Definition socks4_request (ip : list Z) (dest_port : Z)
  (userid : option string) : list Z :=
  ([4; 1; port_hi dest_port; port_lo dest_port] ++ firstn 4 ip
   ++ (if nonempty userid then opt_bytes userid else []) ++ [0])%list.

(** The start of [socks4_connect]: [dest_host] is read as a dotted quad,
    and looked up only when it is not one.  The lookup takes the time that
    the resolver takes; nothing else in the function waits outside
    [select]. *)
Definition socks4_resolve (dest_host : string) : M (option (list Z)) :=
  match inet_pton4 dest_host with
  | Some a => ret (Some a)
  | None =>
      fun w =>
        Some (snd (gethostbyname dest_host),
              tick w (Z.max 0 (fst (gethostbyname dest_host))))
  end.

(** The rest of [socks4_connect], once [dest_addr] holds [ip]. *)
Definition socks4_exchange (ip : list Z) (dest_port : Z)
  (userid : option string) : M Z :=
  if nonempty userid && (503 <? Zlength_ (opt_bytes userid))
  then undefined
  else
    let req := socks4_request ip dest_port userid in
    written <- lift (safe_write_with_timeout req HANDSHAKE_TIMEOUT_SEC) ;;
    if negb (written =? Zlength_ req) then
      log_io_failure "socks4_connect()->write()" ;;; ret (-1)
    else
      ' (n, buf) <- lift (safe_read_with_timeout 8 HANDSHAKE_TIMEOUT_SEC) ;;
      if negb (n =? 8) then
        log_read_failure "socks4_connect()->read()" n ;;; ret (-1)
      else if negb (byte_at buf 0 =? 0) || negb (byte_at buf 1 =? 90) then
        log (ErrSocks4Rejected (byte_at buf 1)) ;;; ret (-1)
      else ret 0.

Definition socks4_connect (dest_host : string) (dest_port : Z)
  (userid : option string) : M Z :=
  r <- socks4_resolve dest_host ;;
  match r with
  | None => log (ErrResolve "socks4_connect()->gethostbyname()") ;;; ret (-1)
  | Some ip => socks4_exchange ip dest_port userid
  end.

End Socks4.

(** The greeting of SOCKS5: two methods when credentials are given. *)
Definition socks5_greeting (username password : option string) : list Z :=
  if has_credentials username password then [5; 2; 0; 2] else [5; 1; 0].

(** The username/password request of RFC 1929 as the code lays it out;
    the two length bytes are [unsigned char]. *)
Definition socks5_auth (u p : string) : list Z :=
  ([1; strlen u mod 256] ++ bytes_of_string u
   ++ [strlen p mod 256] ++ bytes_of_string p)%list.

(** The CONNECT request: address type 3 and [dest_host] as it is. *)
Definition socks5_request (dest_host : string) (dest_port : Z) : list Z :=
  ([5; 1; 0; 3; strlen dest_host mod 256] ++ bytes_of_string dest_host
   ++ [port_hi dest_port; port_lo dest_port])%list.

(** The end of [socks5_connect]: the bound address is read and dropped. *)
Definition socks5_drain (atyp : Z) : M Z :=
  ' (ok, skip) <-
    (if atyp =? 1 then ret (true, 6)
     else if atyp =? 3 then
       ' (n, alen) <- lift (safe_read_with_timeout 1 HANDSHAKE_TIMEOUT_SEC) ;;
       if negb (n =? 1) then ret (false, 0)
       else ret (true, byte_at alen 0 + 2)
     else if atyp =? 4 then ret (true, 18)
     else ret (true, 0)) ;;
  if negb ok then ret (-1)
  else if 0 <? skip then
    let skip := if 256 <? skip then 256 else skip in
    ' (n, _) <- lift (safe_read_with_timeout skip HANDSHAKE_TIMEOUT_SEC) ;;
    if negb (n =? skip) then ret (-1) else ret 0
  else ret 0.

(** The part of [socks5_connect] after the choice of the method. *)
Definition socks5_tunnel (dest_host : string) (dest_port : Z) : M Z :=
  if 512 <? 7 + strlen dest_host then undefined
  else
    let req := socks5_request dest_host dest_port in
    written <- lift (safe_write_with_timeout req HANDSHAKE_TIMEOUT_SEC) ;;
    if negb (written =? Zlength_ req) then
      log_io_failure "socks5_connect()->write(connect)" ;;; ret (-1)
    else
      ' (n, buf) <- lift (safe_read_with_timeout 4 HANDSHAKE_TIMEOUT_SEC) ;;
      if n <? 4 then
        log_read_failure "socks5_connect()->read(connect)" n ;;; ret (-1)
      else if negb (byte_at buf 1 =? 0) then
        log (ErrSocks5Failed (byte_at buf 1)) ;;; ret (-1)
      else socks5_drain (byte_at buf 3).

Definition socks5_connect (dest_host : string) (dest_port : Z)
  (username password : option string) : M Z :=
  let greeting := socks5_greeting username password in
  written <- lift (safe_write_with_timeout greeting HANDSHAKE_TIMEOUT_SEC) ;;
  if negb (written =? Zlength_ greeting) then
    log_io_failure "socks5_connect()->write()" ;;; ret (-1)
  else
    ' (n, buf) <- lift (safe_read_with_timeout 2 HANDSHAKE_TIMEOUT_SEC) ;;
    if negb (n =? 2) then
      log_read_failure "socks5_connect()->read()" n ;;; ret (-1)
    else if negb (byte_at buf 0 =? 5) then
      log (ErrSocks5Version (byte_at buf 0)) ;;; ret (-1)
    else if byte_at buf 1 =? 2 then
      match username, password with
      | Some u, Some p =>
          if 512 <? 3 + strlen u + strlen p then undefined
          else
            let req := socks5_auth u p in
            written <-
              lift (safe_write_with_timeout req HANDSHAKE_TIMEOUT_SEC) ;;
            if negb (written =? Zlength_ req) then
              log_io_failure "socks5_connect()->write(auth)" ;;; ret (-1)
            else
              ' (n, buf) <-
                lift (safe_read_with_timeout 2 HANDSHAKE_TIMEOUT_SEC) ;;
              if negb (n =? 2) then
                log_read_failure "socks5_connect()->read(auth)" n ;;; ret (-1)
              else if negb (byte_at buf 1 =? 0) then
                log ErrSocks5AuthFailed ;;; ret (-1)
              else socks5_tunnel dest_host dest_port
      | _, _ => undefined
      end
    else if negb (byte_at buf 1 =? 0) then
      log ErrSocks5NoMethod ;;; ret (-1)
    else socks5_tunnel dest_host dest_port.

(** *** HTTP CONNECT *)

Definition base64 : string :=
  "ABCDEFGHIJKLMNOPQRSTUVWXYZabcdefghijklmnopqrstuvwxyz0123456789+/".

(** [base64[i]] *)
Definition b64 (i : Z) : Z := byte_at (bytes_of_string base64) (Z.to_nat i).

Definition PAD : Z := 61.

(** The encoding loop of [http_connect]: three bytes of [credentials] per
    turn, the missing ones read as 0 and written as the pad character. *)
Fixpoint b64_encode (cs : list Z) : list Z :=
  match cs with
  | [] => []
  | [a] =>
      [b64 (Z.shiftr a 2);
       b64 (Z.lor (Z.shiftl (Z.land a 3) 4) (Z.shiftr 0 4));
       PAD; PAD]
  | [a; b] =>
      [b64 (Z.shiftr a 2);
       b64 (Z.lor (Z.shiftl (Z.land a 3) 4) (Z.shiftr b 4));
       b64 (Z.lor (Z.shiftl (Z.land b 15) 2) (Z.shiftr 0 6));
       PAD]
  | a :: b :: c :: rest =>
      [b64 (Z.shiftr a 2);
       b64 (Z.lor (Z.shiftl (Z.land a 3) 4) (Z.shiftr b 4));
       b64 (Z.lor (Z.shiftl (Z.land b 15) 2) (Z.shiftr c 6));
       b64 (Z.land c 63)] ++ b64_encode rest
  end%list.

Definition CRLF : string := String CR (String LF EmptyString).

(** [snprintf(credentials, 256, "%s:%s", username, password)] *)
Definition http_credentials (u p : string) : string :=
  str_take 255 (u ++ ":" ++ p).

Definition http_auth_header (u p : string) : string :=
  "Proxy-Authorization: Basic "
  ++ string_of_bytes (b64_encode (bytes_of_string (http_credentials u p)))
  ++ CRLF.

(** The text that the three [snprintf] calls lay out in [buf]. *)
Definition http_request (dest_host : string) (dest_port : Z)
  (username password : option string) : string :=
  "CONNECT " ++ dest_host ++ ":" ++ fmt_d dest_port ++ " HTTP/1.1" ++ CRLF
  ++ "Host: " ++ dest_host ++ ":" ++ fmt_d dest_port ++ CRLF
  ++ (match username, password with
      | Some u, Some p =>
          if negb (is_empty u) && negb (is_empty p)
          then http_auth_header u p else ""
      | _, _ => ""
      end)
  ++ CRLF.

(** [len >= 4 && strncmp(buf + len - 4, "\r\n\r\n", 4) == 0] *)
Definition ends_with_blank_line (buf : list Z) : bool :=
  let len := List.length buf in
  Nat.leb 4 len
  && match skipn (len - 4) buf with
     | [13; 10; 13; 10] => true
     | _ => false
     end.

(** The reading loop of [http_connect]: one byte per call, until the blank
    line or until [room] more bytes are stored (2047 at the start).  The
    boolean is false when the function has returned -1 inside the loop. *)
Fixpoint http_read_response (room : nat) (buf : list Z)
  : M (bool * list Z) :=
  match room with
  | O => ret (true, buf)
  | S k =>
      ' (n, b) <- lift (safe_read_with_timeout 1 HANDSHAKE_TIMEOUT_SEC) ;;
      if n <=? 0 then
        log_read_failure "http_connect()->read()" n ;;; ret (false, buf)
      else
        let buf := (buf ++ b)%list in
        if ends_with_blank_line buf then ret (true, buf)
        else http_read_response k buf
  end.

(** The decision taken on the response once it is in [buf]; [status_code]
    is an [int]. *)
Definition http_check_response (buf : list Z) : M Z :=
  let resp := c_str (string_of_bytes buf) in
  if negb (String.prefix "HTTP/1." resp) then
    log ErrHttpInvalid ;;; ret (-1)
  else
    let status_code := atoi (c_str (string_of_bytes (skipn 9 buf))) in
    if negb (status_code =? 200) then
      log (ErrHttpStatus status_code) ;;; ret (-1)
    else ret 0.

(** What [buf] holds from offset 0 to [len] when [safe_write_with_timeout]
    is called: the request when it has at most 2047 characters.  When it has
    exactly 2048, the last [snprintf] has room for two bytes, stores the CR
    and a NUL, and returns 2: [len] is 2048 and the last byte handed to the
    socket is the NUL in place of the LF. *)
Definition http_request_bytes (dest_host : string) (dest_port : Z)
  (username password : option string) : list Z :=
  let req := http_request dest_host dest_port username password in
  if strlen req =? 2048
  then (bytes_of_string (str_take 2047 req) ++ [0])%list
  else bytes_of_string req.

(** A request of more than 2048 characters leaves [len] beyond the size of
    [buf]: the write reads past its end. *)
Definition http_connect (dest_host : string) (dest_port : Z)
  (username password : option string) : M Z :=
  let req := http_request dest_host dest_port username password in
  if 2048 <? strlen req then undefined
  else
    let data := http_request_bytes dest_host dest_port username password in
    written <- lift (safe_write_with_timeout data HANDSHAKE_TIMEOUT_SEC) ;;
    if negb (written =? Zlength_ data) then
      log_io_failure "http_connect()->write()" ;;; ret (-1)
    else
      ' (ok, buf) <- http_read_response 2047 [] ;;
      if negb ok then ret (-1) else http_check_response buf.

(** ** Validator ([proxy_loader.c]) *)

Definition PROXY_VALIDATOR_DEFAULT_TIMEOUT_MS : Z := 5000.
Definition PROXY_VALIDATOR_DEFAULT_CONCURRENCY : Z := 10.
Definition PROXY_VALIDATOR_MAX_CONCURRENCY : Z := 128.

(** What [poll] on a connecting socket returns after [delay] milliseconds:
    an error, or readiness with the [revents] test of the code
    ([POLLOUT | POLLERR | POLLHUP]) and the value that [getsockopt] stores
    for [SO_ERROR] ([None] when [getsockopt] itself fails). *)
Inductive poll_event : Type :=
  | PollReady (delay : Z) (revents_hit : bool) (so_error : option Z)
  | PollFail (delay : Z) (e : errno_t).

Definition poll_delay (ev : poll_event) : Z :=
  match ev with
  | PollReady d _ _ | PollFail d _ => Z.max 0 d
  end.

(** How the calls [socket], [fcntl] and [connect] of one attempt end. *)
Inductive connect_script : Type :=
  | ConnNoSocket (e : errno_t)
  | ConnNoFcntl (e : errno_t)
  | ConnFail (e : errno_t)
  | ConnNow
  | ConnInProgress (evs : list poll_event).

(** The network as one attempt on one proxy meets it. *)
Record attempt_net : Type := mkAttempt {
  a_conn : connect_script;
  a_rx : list rx_event;
  a_tx : list tx_event
}.

(** The descriptor that the handshake talks to is replaced. *)
Definition plug (a : attempt_net) (w : world) : world :=
  mkWorld (a_rx a) (a_tx a) [] (clock w) (errno w) (console w) (polls w).

(** The waiting loop of [open_proxy_socket]: every [poll] gets what is left
    of [timeout_ms] since [start_ms].  The result is the measured round trip
    time, [None] when the function returns -1. *)
Fixpoint open_poll_loop (evs : list poll_event) (timeout_ms start_ms : Z)
  (w : world) : option Z * world :=
  let remaining := timeout_ms - (clock w - start_ms) in
  if remaining <=? 0 then (None, set_errno w ETIMEDOUT)
  else
    match evs with
    | [] => (None, set_errno (tick w remaining) ETIMEDOUT)
    | ev :: rest =>
        if remaining <? poll_delay ev then
          (None, set_errno (tick w remaining) ETIMEDOUT)
        else
          let w := tick w (poll_delay ev) in
          match ev with
          | PollFail _ e =>
              if is_EINTR e
              then open_poll_loop rest timeout_ms start_ms (set_errno w e)
              else (None, set_errno w e)
          | PollReady _ true None => (None, w)
          | PollReady _ true (Some err) =>
              if negb (err =? 0) then (None, set_errno w (EOTHER err))
              else (Some (clock w - start_ms), w)
          | PollReady _ false _ => open_poll_loop rest timeout_ms start_ms w
          end
    end.

(** [open_proxy_socket]: [Some rtt] when a connected descriptor is
    returned. *)
Definition open_proxy_socket (a : attempt_net) (timeout_ms : Z) (w : world)
  : option Z * world :=
  let start_ms := clock w in
  match a_conn a with
  | ConnNoSocket e | ConnNoFcntl e | ConnFail e => (None, set_errno w e)
  | ConnNow => (Some (clock w - start_ms), plug a w)
  | ConnInProgress evs =>
      let '(r, w') := open_poll_loop evs timeout_ms start_ms w in
      (r, plug a w')
  end.

(** The aggregate counters of [proxy_validator_ctx]. *)
Record stats : Type := mkStats {
  working : Z;
  removed : Z;
  socks5_count : Z;
  socks4_count : Z;
  http_count : Z
}.

Definition stats_zero : stats := mkStats 0 0 0 0 0.

Definition count_success (detected : proxy_type) (s : stats) : stats :=
  match detected with
  | PROXY_SOCKS5 =>
      mkStats (working s + 1) (removed s) (socks5_count s + 1)
              (socks4_count s) (http_count s)
  | PROXY_SOCKS4 =>
      mkStats (working s + 1) (removed s) (socks5_count s)
              (socks4_count s + 1) (http_count s)
  | PROXY_HTTP | PROXY_HTTPS =>
      mkStats (working s + 1) (removed s) (socks5_count s)
              (socks4_count s) (http_count s + 1)
  | PROXY_NONE =>
      mkStats (working s + 1) (removed s) (socks5_count s)
              (socks4_count s) (http_count s)
  end.

Definition count_removed (s : stats) : stats :=
  mkStats (working s) (removed s + 1) (socks5_count s) (socks4_count s)
          (http_count s).

(** The outcome recorded on a proxy that passed. *)
Definition mark_validated (p : proxy) (detected : proxy_type) (rtt : Z)
  : proxy :=
  mkProxy (host p) (port p) (username p) (password p) detected detected
          (is_ipv6 p) true (has_credentials (username p) (password p)) true
          rtt (addr p) (addr6 p).

(** The outcome recorded on a proxy that failed; also what the sweep writes
    on every proxy before the workers start. *)
Definition mark_failed (p : proxy) : proxy :=
  mkProxy (host p) (port p) (username p) (password p) (type p) PROXY_NONE
          (is_ipv6 p) false false false 0 (addr p) (addr6 p).

(** The attempt order of the worker. *)
Definition attempt_order (p : proxy) : list proxy_type :=
  match type p with
  | PROXY_NONE => [PROXY_SOCKS5; PROXY_SOCKS4; PROXY_HTTP]
  | t => [t]
  end.

Section Validator.

Variable inet_pton4 : string -> option (list Z).
Variable gethostbyname : string -> Z * option (list Z).

Definition perform_proxy_handshake (p : proxy) (t : proxy_type)
  (test_host : string) (test_port : Z) : M Z :=
  match t with
  | PROXY_SOCKS5 =>
      socks5_connect test_host test_port (username p) (password p)
  | PROXY_SOCKS4 =>
      socks4_connect inet_pton4 gethostbyname test_host test_port (username p)
  | PROXY_HTTP | PROXY_HTTPS =>
      http_connect test_host test_port (username p) (password p)
  | PROXY_NONE => fun w => Some (-1, set_errno w EINVAL)
  end.

(** The [for] loop of the worker over [order], from attempt number [i].
    The result is [(detected, keep_proxy, connect_rtt_ms)]. *)
Fixpoint try_order (order : list proxy_type) (i : nat)
  (net : nat -> attempt_net) (p : proxy) (timeout_ms : Z)
  (test_host : string) (test_port : Z) (connect_rtt_ms : Z)
  : M (proxy_type * bool * Z) :=
  match order with
  | [] => ret (PROXY_NONE, false, connect_rtt_ms)
  | attempt_type :: rest =>
      r <- lift (open_proxy_socket (net i) timeout_ms) ;;
      match r with
      | None => ret (PROXY_NONE, false, connect_rtt_ms)
      | Some rtt =>
          h <- perform_proxy_handshake p attempt_type test_host test_port ;;
          if h =? 0 then ret (attempt_type, true, rtt)
          else try_order rest (S i) net p timeout_ms test_host test_port rtt
      end
  end.

(** What a worker does with one claimed proxy.  The lines that the worker
    prints are left out. *)
Definition validate_proxy (p : proxy) (net : nat -> attempt_net)
  (timeout_ms : Z) (test_host : string) (test_port : Z) (s : stats)
  : M (proxy * stats) :=
  ' (detected, keep_proxy, rtt) <-
    try_order (attempt_order p) 0 net p timeout_ms test_host test_port 0 ;;
  if keep_proxy && negb (proxy_type_eqb detected PROXY_NONE)
  then ret (mark_validated p detected rtt, count_success detected s)
  else ret (mark_failed p, count_removed s).

(** The workers, one claimed index after the other.  Each index of [items]
    is claimed once, by the worker that increments [next_index] past it; the
    network of item [idx] is [net idx]. *)
Fixpoint run_workers (items : list proxy) (idx : nat)
  (net : nat -> nat -> attempt_net) (timeout_ms : Z) (test_host : string)
  (test_port : Z) (s : stats) : M (list proxy * stats) :=
  match items with
  | [] => ret ([], s)
  | p :: rest =>
      ' (p', s) <- validate_proxy p (net idx) timeout_ms test_host test_port s ;;
      ' (rest', s) <-
        run_workers rest (S idx) net timeout_ms test_host test_port s ;;
      ret (p' :: rest', s)
  end.

(** The last loop of the sweep: [todo] is the chain of nodes from [p] on,
    and [i] the position of [p] in the pool as it stands. *)
Fixpoint remove_unvalidated (todo : list proxy) (i : nat) (x : xaddress)
  : xaddress :=
  match todo with
  | [] => x
  | p :: rest =>
      if validated p then remove_unvalidated rest (S i) x
      else remove_unvalidated rest i (remove_proxy_from_list i x)
  end.

(** [check_and_validate_proxies].  [created] is the number of calls of
    [pthread_create] that succeed before the first one that fails.  A pool
    whose [proxy_count] is not the length of the list makes the code index
    [items] out of bounds or dereference [NULL]. *)
Definition check_and_validate_proxies (test_host : string) (test_port : Z)
  (timeout_ms : Z) (created : Z) (net : nat -> nat -> attempt_net)
  (x : xaddress) : M (Z * xaddress) :=
  match proxy_list x with
  | [] => ret (-1, x)
  | _ :: _ =>
      let timeout_ms :=
        if timeout_ms <=? 0 then PROXY_VALIDATOR_DEFAULT_TIMEOUT_MS
        else timeout_ms in
      let concurrency :=
        if 0 <? proxy_loader_concurrency x then proxy_loader_concurrency x
        else PROXY_VALIDATOR_DEFAULT_CONCURRENCY in
      let concurrency := if concurrency <? 1 then 1 else concurrency in
      let concurrency :=
        if PROXY_VALIDATOR_MAX_CONCURRENCY <? concurrency
        then PROXY_VALIDATOR_MAX_CONCURRENCY else concurrency in
      let total := proxy_count x in
      if total <=? 0 then ret (-1, x)
      else if negb (total =? Zlength_ (proxy_list x)) then undefined
      else
        let items := map mark_failed (proxy_list x) in
        let thread_count := if total <? concurrency then total else concurrency in
        let thread_count := Z.min thread_count (Z.max 0 created) in
        ' (items, s) <-
          (if 0 <? thread_count
           then run_workers items 0 net timeout_ms test_host test_port
                            stats_zero
           else ret (items, stats_zero)) ;;
        let x := set_pool x items (current_proxy x) (proxy_count x) in
        let x := remove_unvalidated (proxy_list x) 0 x in
        ret (working s, x)
  end.

End Validator.

(** [save_validated_proxies]: the return value and, when the file could be
    opened for writing, the text written to it. *)
Definition scheme_of (t : proxy_type) : string :=
  match t with
  | PROXY_HTTP => "http://"
  | PROXY_HTTPS => "https://"
  | PROXY_SOCKS4 => "socks4://"
  | PROXY_SOCKS5 => "socks5://"
  | PROXY_NONE => ""
  end.

Definition LFs : string := String LF EmptyString.

Definition saved_line (p : proxy) : string :=
  match username p, password p with
  | Some u, Some pw =>
      if negb (is_empty u) && negb (is_empty pw)
      then scheme_of (type p) ++ u ++ ":" ++ pw ++ "@" ++ host p ++ ":"
           ++ fmt_d (port p) ++ LFs
      else scheme_of (type p) ++ host p ++ ":" ++ fmt_d (port p) ++ LFs
  | _, _ => scheme_of (type p) ++ host p ++ ":" ++ fmt_d (port p) ++ LFs
  end.

Fixpoint save_loop (l : list proxy) (out : string) (count : Z)
  : string * Z :=
  match l with
  | [] => (out, count)
  | p :: rest => save_loop rest (out ++ saved_line p) (count + 1)
  end.

Definition save_validated_proxies (fopen_w : string -> bool)
  (filename : string) (x : xaddress) : Z * option string :=
  if fopen_w filename then
    let '(out, count) := save_loop (proxy_list x) "" 0 in
    (count, Some out)
  else (-1, None).

(** ** Timeout settings ([clamp_timeout_ms], proxy.c) *)

Definition PROXY_DEFAULT_CONNECT_TIMEOUT_MS : Z := 7000.
Definition PROXY_DEFAULT_HANDSHAKE_TIMEOUT_MS : Z := 7000.
Definition PROXY_MIN_TIMEOUT_MS : Z := 100.
Definition PROXY_MAX_TIMEOUT_MS : Z := 60000.

Definition clamp_timeout_ms (timeout_ms fallback_ms : Z) : Z :=
  let timeout_ms := if timeout_ms <=? 0 then fallback_ms else timeout_ms in
  let timeout_ms :=
    if timeout_ms <? PROXY_MIN_TIMEOUT_MS then PROXY_MIN_TIMEOUT_MS
    else timeout_ms in
  let timeout_ms :=
    if PROXY_MAX_TIMEOUT_MS <? timeout_ms then PROXY_MAX_TIMEOUT_MS
    else timeout_ms in
  timeout_ms.

(** [proxy_connect_timeout_ms_value] and [proxy_handshake_timeout_ms_value],
    as functions of the setting stored in [xconnect]. *)
Definition proxy_connect_timeout_ms_value (setting : Z) : Z :=
  clamp_timeout_ms setting PROXY_DEFAULT_CONNECT_TIMEOUT_MS.

Definition proxy_handshake_timeout_ms_value (setting : Z) : Z :=
  clamp_timeout_ms setting PROXY_DEFAULT_HANDSHAKE_TIMEOUT_MS.

(** ** Dialer ([connect_through_proxy], proxy.c) *)

(** How [connect] on the non-blocking descriptor returns. *)
Inductive dial_connect : Type :=
  | DialConnected                  (* 0 *)
  | DialInProgress                 (* -1 with [EINPROGRESS] *)
  | DialError (e : errno_t).       (* -1 with another [errno] *)

(** The network as the dialer meets it before the handshake: the result of
    [connect], and what [select] for writing finds ([None]: the descriptor
    never becomes writable). *)
Record dial_net : Type := mkDial {
  dial_conn : dial_connect;
  dial_ready : option poll_event
}.

Definition DIAL_TIMEOUT_MS : Z := 30 * 1000.

(** The [select] of 30 s and the [getsockopt] that follows it: [true] when
    the connection stands. *)
Definition dial_wait (d : dial_net) (w : world) : bool * world :=
  match dial_ready d with
  | None => (false, tick w DIAL_TIMEOUT_MS)
  | Some ev =>
      if DIAL_TIMEOUT_MS <? poll_delay ev then (false, tick w DIAL_TIMEOUT_MS)
      else
        let w := tick w (poll_delay ev) in
        match ev with
        | PollFail _ e => (false, set_errno w e)
        | PollReady _ _ None => (false, w)
        | PollReady _ _ (Some err) => (err =? 0, w)
        end
  end.

Section Dialer.

Variable inet_pton4 : string -> option (list Z).
Variable gethostbyname : string -> Z * option (list Z).

(** [connect_through_proxy] on the descriptor whose scripts are in the
    world; the proxy is [None] for [NULL].  The lines that the dialer prints
    itself are left out. *)
Definition connect_through_proxy (p : option proxy) (d : dial_net)
  (dest_host : string) (dest_port : Z) : M Z :=
  match p with
  | None => ret (-1)
  | Some p =>
      match dial_conn d with
      | DialError e => fun w => Some (-1, set_errno w e)
      | _ =>
          ok <- lift (dial_wait d) ;;
          if negb ok then ret (-1)
          else
            match type p with
            | PROXY_SOCKS4 =>
                socks4_connect inet_pton4 gethostbyname dest_host dest_port
                               (username p)
            | PROXY_SOCKS5 =>
                socks5_connect dest_host dest_port (username p) (password p)
            | PROXY_HTTP | PROXY_HTTPS =>
                http_connect dest_host dest_port (username p) (password p)
            | PROXY_NONE => ret (-1)
            end
      end
  end.

End Dialer.

(** * Vocabulary of the properties

    Predicates, iterated calls, the wording of the specification where a
    property compares the code with it, and the concrete environments of the
    runs that are evaluated below. *)

(** The proxies that the lines of a file parse to, in order. *)
Definition parsed_proxies
  (getaddrinfo : string -> string -> ai_family -> option addrinfo)
  (default_type : proxy_type) (lines : list string) : list proxy :=
  flat_map
    (fun line =>
       match parse_proxy_line getaddrinfo line default_type with
       | Some p => [p]
       | None => []
       end) lines.

(** [n] calls in a row: the pointers returned, and the state left. *)
Fixpoint next_proxy_n (n : nat) (x : xaddress) : list (option nat) * xaddress :=
  match n with
  | O => ([], x)
  | S k =>
      let '(r, x1) := next_proxy x in
      let '(rs, x2) := next_proxy_n k x1 in
      (r :: rs, x2)
  end.

(** What the sweep promises about a proxy that stays in the pool. *)
Definition validated_ok (p : proxy) : Prop :=
  validated p = true /\ is_active p = true /\ detected_type p <> PROXY_NONE.

(** What a worker leaves on a proxy, passed or failed. *)
Definition outcome_ok (p : proxy) : Prop :=
  validated p = true ->
  is_active p = true /\ detected_type p <> PROXY_NONE
  /\ type p = detected_type p.

(** A proxy that passed: its [type] is the detected one as well. *)
Definition passed_ok (p : proxy) : Prop :=
  validated_ok p /\ type p = detected_type p.

(** The states in which validation has run: what a sweep that did not
    return -1 leaves, and what calls of [next_proxy] make of it. *)
Inductive post_validation : xaddress -> Prop :=
  | pv_sweep :
      forall inet_pton4 gethostbyname test_host test_port timeout_ms created
             net x w r x' w',
        check_and_validate_proxies inet_pton4 gethostbyname test_host
                                   test_port timeout_ms created net x w
        = Some ((r, x'), w') ->
        r <> -1 ->
        post_validation x'
  | pv_next :
      forall x, post_validation x -> post_validation (snd (next_proxy x)).

Definition active_at (l : list proxy) (i : nat) : bool :=
  match nth_error l i with
  | Some p => validated p && is_active p
  | None => false
  end.

(** The rotation as the specification words it (4.2): the positions after
    the cursor, then those from the head up to the cursor, are searched for
    the first entry that is validated and active; entries that are not are
    skipped; there is no result when no such entry exists. *)
Definition next_active_spec (x : xaddress) : option nat :=
  let l := proxy_list x in
  let k := List.length l in
  let order :=
    match current_proxy x with
    | Some c =>
        if Nat.ltb (S c) k then (seq (S c) (k - S c) ++ seq 0 (S c))%list
        else seq 0 k
    | None => seq 0 k
    end in
  find (active_at l) order.

Fixpoint cat (l : list string) : string :=
  match l with
  | [] => EmptyString
  | s :: r => s ++ cat r
  end.

(** [user:pass@], written only when both are set and not empty. *)
Definition credentials_block (p : proxy) : string :=
  if has_credentials (username p) (password p)
  then match username p, password p with
       | Some u, Some pw => u ++ ":" ++ pw ++ "@"
       | _, _ => ""
       end
  else "".

(** The canonical form with the scheme of [t]. *)
Definition canonical_line (t : proxy_type) (p : proxy) : string :=
  scheme_of t ++ credentials_block p ++ host p ++ ":" ++ fmt_d (port p)
  ++ LFs.

(** A proxy as the parser leaves it for the line
    [socks5://198.51.100.4:1080]: the declared type is SOCKS5 and nothing is
    detected yet. *)
Definition fresh_socks5_proxy : proxy :=
  mkProxy "198.51.100.4" 1080 None None PROXY_SOCKS5 PROXY_NONE false false
          false false 0 (mkSockaddr 3325256708 1080) sockaddr_zero.

(** From [w] to [w'] some polls were made, each with the timeout [tmo]
    (milliseconds), and the time that passed is at most [tmo] per poll. *)
Definition io_cost (tmo : Z) (w w' : world) : Prop :=
  exists new,
    polls w' = (polls w ++ new)%list
    /\ Forall (fun p => poll_timeout p = tmo /\ clock w <= poll_at p) new
    /\ clock w <= clock w'
    /\ clock w' <= clock w + tmo * Zlength_ new.

(** The bound that a poll would respect if it were given what is left of
    the timeout of the call that started at [start]. *)
Definition within_remaining_budget (timeout_sec start : Z) (p : poll_rec)
  : Prop :=
  poll_timeout p <= timeout_sec * 1000 - (poll_at p - start).

(** The status code that [http_check_response] reads in the response. *)
Definition http_status (buf : list Z) : Z :=
  atoi (c_str (string_of_bytes (skipn 9 buf))).

Definition http_starts_ok (buf : list Z) : bool :=
  String.prefix "HTTP/1." (c_str (string_of_bytes buf)).

(** The two fixtures of the specification: a proxy that takes the request at
    once and answers in one segment. *)
Definition http_fixture (response : string) : world :=
  mkWorld [RxData 20 (bytes_of_string (response ++ CRLF ++ CRLF))]
          [TxRoom 0 4096] [] 0 ENONE [] [].

Definition HANDSHAKE_TIMEOUT_MS : Z := HANDSHAKE_TIMEOUT_SEC * 1000.

(** A handshake step makes polls of 10 s each and lasts at most 10 s per
    poll. *)
Definition timed {A} (m : M A) : Prop :=
  forall w a w', m w = Some (a, w') -> io_cost HANDSHAKE_TIMEOUT_MS w w'.

(** The time that one call of [socks4_connect] spends in the resolver for
    [host]: nothing for a dotted quad. *)
Definition resolver_ms (inet_pton4 : string -> option (list Z))
  (gethostbyname : string -> Z * option (list Z)) (host : string) : Z :=
  match inet_pton4 host with
  | Some _ => 0
  | None => Z.max 0 (fst (gethostbyname host))
  end.

(** The number of SOCKS4 attempts in an attempt order. *)
Definition socks4_attempts (order : list proxy_type) : Z :=
  Zlength_ (filter (fun t => proxy_type_eqb t PROXY_SOCKS4) order).

(** From [w] to [w'] at most [n] connect phases of [timeout_ms] each took
    place, handshake polls of 10 s each, and lookups that lasted
    [lookup_ms] together. *)
Definition worker_cost (n timeout_ms lookup_ms : Z) (w w' : world) : Prop :=
  exists new,
    polls w' = (polls w ++ new)%list
    /\ Forall (fun p => poll_timeout p = HANDSHAKE_TIMEOUT_MS) new
    /\ clock w <= clock w'
    /\ clock w' - clock w
       <= n * Z.max 0 timeout_ms + HANDSHAKE_TIMEOUT_MS * Zlength_ new
          + lookup_ms.

(** A SOCKS5 proxy that accepts the connection at once and then sends its
    answers one byte every 9 s. *)
Definition trickling_socks5 : attempt_net :=
  mkAttempt ConnNow
    [RxData 9000 [5]; RxData 9000 [0];
     RxData 9000 [5]; RxData 9000 [0]; RxData 9000 [0]; RxData 9000 [1];
     RxData 9000 [0; 0; 0; 0; 0; 0]]
    [TxRoom 0 4096; TxRoom 0 4096].

(** A resolver for literal addresses: a host with a colon is an IPv6
    address, any other host an IPv4 address unless IPv6 is asked for. *)
Definition literal_resolver (h p : string) (f : ai_family) : option addrinfo :=
  match strchr h ":" with
  | Some _ => Some (mkAddrinfo AF_INET6 (mkSockaddr 1 (atoi p)))
  | None =>
      match f with
      | AF_INET6 => None
      | _ => Some (mkAddrinfo AF_INET (mkSockaddr 2 (atoi p)))
      end
  end.

(** A SOCKS5 proxy that answers at once and grants the request. *)
Definition granting_socks5 : attempt_net :=
  mkAttempt ConnNow
    [RxData 5 [5; 0]; RxData 5 [5; 0; 0; 1; 0; 0; 0; 0; 0; 0]]
    [TxRoom 0 4096; TxRoom 0 4096].

(** A proxy that refuses the connection. *)
Definition refusing : attempt_net := mkAttempt (ConnFail (EOTHER 111)) [] [].

(** A proxy as the parser leaves it for the line [198.51.100.4:1080] when
    no type is given: the worker tries SOCKS5, SOCKS4 and HTTP. *)
Definition fresh_plain_proxy : proxy :=
  mkProxy "198.51.100.4" 1080 None None PROXY_NONE PROXY_NONE false false
          false false 0 (mkSockaddr 3325256708 1080) sockaddr_zero.

(** A SOCKS4 proxy: it answers the SOCKS5 greeting of the first attempt with
    "no acceptable method" and grants the SOCKS4 request of the second. *)
Definition socks4_only (attempt : nat) : attempt_net :=
  match attempt with
  | O => mkAttempt ConnNow [RxData 5 [5; 255]] [TxRoom 0 4096]
  | _ => mkAttempt ConnNow [RxData 5 [0; 90; 0; 0; 0; 0; 0; 0]]
                   [TxRoom 0 4096]
  end.

(** A resolver that needs 7 s for every name. *)
Definition slow_resolver (host : string) : Z * option (list Z) :=
  (7000, Some [192; 0; 2; 1]).

Definition demo_pool : xaddress :=
  mkXaddress [fresh_socks5_proxy; fresh_socks5_proxy; fresh_socks5_proxy]
             None 3 PROXY_NONE None 0.

(** The first and the third proxy answer, the second one does not. *)
Definition demo_net (idx attempt : nat) : attempt_net :=
  match idx with
  | 1%nat => refusing
  | _ => granting_socks5
  end.

Definition quiet_world : world := mkWorld [] [] [] 0 ENONE [] [].

Definition demo_sweep : option (Z * xaddress * world) :=
  check_and_validate_proxies (fun _ => None) (fun _ => (0, None))
                             "irc.libera.chat" 6667 5000 10 demo_net
                             demo_pool quiet_world.

Definition demo_after : xaddress :=
  match demo_sweep with
  | Some ((_, x'), _) => x'
  | None => demo_pool
  end.


(** The mock server of the SOCKS5 fixture. *)
Definition socks5_fixture : world :=
  mkWorld [RxData 5 [5; 0]; RxData 5 ([5; 0; 0; 1] ++ [0; 0; 0; 0; 0; 0])]
          [TxRoom 0 4096; TxRoom 0 4096] [] 0 ENONE [] [].

(** Last character of a string, NUL for the empty string. *)
Fixpoint str_last (s : string) : ascii :=
  match s with
  | EmptyString => NUL
  | String c EmptyString => c
  | String _ r => str_last r
  end.

(** The bytes that a reading script still holds, in order. *)
Definition rx_bytes (ev : rx_event) : list Z :=
  match ev with
  | RxData _ b => b
  | _ => []
  end.

Definition rx_stream (evs : list rx_event) : list Z := flat_map rx_bytes evs.

Definition is_byte (z : Z) : Prop := 0 <= z < 256.

(** No character of the string is NUL, LF or CR. *)
Fixpoint no_eol (s : string) : bool :=
  match s with
  | EmptyString => true
  | String c r =>
      negb (Ascii.eqb c NUL || Ascii.eqb c LF || Ascii.eqb c CR) && no_eol r
  end.

(** Two states that differ at most in the cursor. *)
Definition same_pool (x y : xaddress) : Prop :=
  proxy_list x = proxy_list y
  /\ proxy_count x = proxy_count y
  /\ proxy_default_type x = proxy_default_type y
  /\ proxy_file x = proxy_file y
  /\ proxy_loader_concurrency x = proxy_loader_concurrency y.

(** The cursor is unset or designates a node of the list. *)
Definition cursor_ok (x : xaddress) : Prop :=
  match current_proxy x with
  | None => True
  | Some c => (c < List.length (proxy_list x))%nat
  end.

(** Two records of the same proxy: validation may differ, and the type. *)
Definition same_identity (p q : proxy) : Prop :=
  host p = host q /\ port p = port q /\ username p = username q
  /\ password p = password q /\ is_ipv6 p = is_ipv6 q
  /\ addr p = addr q /\ addr6 p = addr6 q.

(** The position of a character in the alphabet of [base64]; 0 for a
    character that is not in it. *)
Definition b64_index (c : Z) : Z :=
  if (65 <=? c) && (c <=? 90) then c - 65
  else if (97 <=? c) && (c <=? 122) then c - 71
  else if (48 <=? c) && (c <=? 57) then c + 4
  else if c =? 43 then 62
  else if c =? 47 then 63
  else 0.

(** The decoder of RFC 4648 for padded text, as a reference: the source has
    the encoder only. *)
Fixpoint b64_decode (l : list Z) : list Z :=
  match l with
  | c1 :: c2 :: c3 :: c4 :: rest =>
      let s1 := b64_index c1 in
      let s2 := b64_index c2 in
      let s3 := b64_index c3 in
      let s4 := b64_index c4 in
      ((s1 * 4 + s2 / 16)
       :: (if c3 =? PAD then []
           else ((s2 mod 16) * 16 + s3 / 4)
                :: (if c4 =? PAD then [] else [(s3 mod 4) * 64 + s4])))
      ++ b64_decode rest
  | _ => []
  end%list.

Definition byte_range : list Z := map Z.of_nat (seq 0 256).

Definition sextet_range : list Z := map Z.of_nat (seq 0 64).

(** A character that a host, a user name or a password of a saved line may
    hold without changing how the line is cut: no white space, no NUL, and
    none of [:], [@] and the opening bracket. *)
Definition token_char (c : ascii) : bool :=
  negb (isspace c || Ascii.eqb c NUL || Ascii.eqb c ":" || Ascii.eqb c "@"
        || Ascii.eqb c "[").

Fixpoint token (s : string) : bool :=
  match s with
  | EmptyString => true
  | String c r => token_char c && token r
  end.

(** The decimal text of a port is read back as the port, and is a token
    that starts with a digit. *)
Definition port_text_ok (n : Z) : bool :=
  let s := fmt_d n in
  let '(v, e) := strtol s in
  (v =? n) && is_empty e && token s && isdigit (deref s).

(** The [n] integers from [lo] on. *)
Fixpoint z_upto (n : nat) (lo : Z) : list Z :=
  match n with
  | O => []
  | S k => lo :: z_upto k (lo + 1)
  end.

Definition port_range : list Z := z_upto (Z.to_nat 65535) 1.

(** A proxy that [save_validated_proxies] writes on a line that
    [parse_proxy_line] cuts at the same places: a type that has a scheme, a
    host, a user name and a password without separators, a port in range,
    and a line that one call of [fgets] in [load_proxies] reads whole. *)
Definition saveable (p : proxy) : Prop :=
  type p <> PROXY_NONE
  /\ is_empty (host p) = false /\ token (host p) = true
  /\ 1 <= port p <= 65535
  /\ (forall u pw, username p = Some u -> password p = Some pw ->
      token u = true /\ token pw = true)
  /\ (String.length (saved_line p) <= 511)%nat.

(** The record that loading makes of a saved proxy whose host resolves to
    the IPv4 address [a]: the credentials are kept when both were set, and
    nothing of the validation is. *)
Definition reloaded (p : proxy) (a : sockaddr) : proxy :=
  mkProxy (host p) (port p)
          (if has_credentials (username p) (password p) then username p
           else None)
          (if has_credentials (username p) (password p) then password p
           else None)
          (type p) PROXY_NONE false false false false 0 a sockaddr_zero.

(** The bound address that ends a SOCKS5 reply of address type [atyp], as
    [socks5_connect] takes it from the socket: six bytes for IPv4, eighteen
    for IPv6, and for a domain name the length byte followed by at most 256
    bytes. *)
Definition socks5_bound (atyp : Z) (bound : list Z) : Prop :=
  if atyp =? 1 then Zlength_ bound = 6
  else if atyp =? 3 then
    exists alen rest,
      bound = alen :: rest
      /\ Zlength_ rest = Z.max 0 (Z.min 256 (alen + 2))
  else if atyp =? 4 then Zlength_ bound = 18
  else bound = [].

(** * Properties *)

(** ** Loading ([load_proxies]) *)

Lemma load_lines_spec :
  forall getaddrinfo lines t x count,
    load_lines getaddrinfo lines t x count =
    (set_pool x (proxy_list x ++ parsed_proxies getaddrinfo t lines)%list
              (current_proxy x) (proxy_count x),
     count + Zlength_ (parsed_proxies getaddrinfo t lines)).
Proof.
  intros getaddrinfo lines t.
  induction lines as [|line rest IH]; intros x count; simpl.
  - rewrite app_nil_r. unfold Zlength_; simpl.
    destruct x; unfold set_pool; simpl. f_equal. lia.
  - destruct (parse_proxy_line getaddrinfo line t) as [p|]; simpl.
    + rewrite IH. unfold append_proxy, set_pool; simpl.
      rewrite <- app_assoc. simpl. f_equal.
      unfold Zlength_. simpl List.length. lia.
    + apply IH.
Qed.

(** C10.  When the file cannot be opened, [load_proxies] returns -1 and the
    pool is the one it was.  When the file opens, the old entries are gone
    whatever the file holds: the pool is exactly the list of the proxies
    parsed from the file (empty when no line is valid), the cursor is unset,
    and the count and the return value are the length of that list. *)
Theorem load_proxies_clears_only_after_open :
  forall getaddrinfo fopen_r filename default_type x,
    match fopen_r filename with
    | None =>
        load_proxies getaddrinfo fopen_r filename default_type x = (-1, x)
    | Some content =>
        let ps :=
          parsed_proxies getaddrinfo default_type
            (fgets_lines EmptyString (MAX_PROXY_LINE - 1) content) in
        let r := load_proxies getaddrinfo fopen_r filename default_type x in
        fst r = Zlength_ ps
        /\ proxy_list (snd r) = ps
        /\ current_proxy (snd r) = None
        /\ proxy_count (snd r) = Zlength_ ps
    end.
Proof.
  intros getaddrinfo fopen_r filename t x.
  unfold load_proxies.
  destruct (fopen_r filename) as [content|]; [|reflexivity].
  rewrite load_lines_spec. cbv zeta.
  set (ps := parsed_proxies getaddrinfo t _).
  unfold del_proxy_all, set_pool; simpl.
  replace (0 + Zlength_ ps) with (Zlength_ ps) by lia.
  destruct (0 <? Zlength_ ps) eqn:E; simpl.
  - repeat split; reflexivity.
  - apply Z.ltb_ge in E.
    assert (Hps : ps = []).
    { destruct ps; [reflexivity|].
      unfold Zlength_ in E; simpl List.length in E; lia. }
    rewrite Hps. repeat split; reflexivity.
Qed.

(** ** Round robin ([next_proxy]) *)

Lemma next_proxy_list :
  forall x, proxy_list (snd (next_proxy x)) = proxy_list x.
Proof.
  intros x. unfold next_proxy. destruct (proxy_list x) eqn:E; simpl; auto.
Qed.

Lemma next_proxy_from_cursor :
  forall x c,
    current_proxy x = Some c ->
    (S c < List.length (proxy_list x))%nat ->
    fst (next_proxy x) = Some (S c)
    /\ current_proxy (snd (next_proxy x)) = Some (S c).
Proof.
  intros x c Hc Hlt. unfold next_proxy.
  destruct (proxy_list x) as [|p l] eqn:E; [simpl in Hlt; lia|].
  rewrite Hc. apply Nat.ltb_lt in Hlt. rewrite Hlt. simpl. auto.
Qed.

Lemma next_proxy_wraps :
  forall x c,
    current_proxy x = Some c ->
    proxy_list x <> [] ->
    (List.length (proxy_list x) <= S c)%nat ->
    fst (next_proxy x) = Some O
    /\ current_proxy (snd (next_proxy x)) = Some O.
Proof.
  intros x c Hc Hne Hge. unfold next_proxy.
  destruct (proxy_list x) as [|p l] eqn:E; [congruence|].
  rewrite Hc. apply Nat.ltb_ge in Hge. rewrite Hge. simpl. auto.
Qed.

Lemma next_proxy_unset :
  forall x,
    current_proxy x = None ->
    proxy_list x <> [] ->
    fst (next_proxy x) = Some O
    /\ current_proxy (snd (next_proxy x)) = Some O.
Proof.
  intros x Hc Hne. unfold next_proxy.
  destruct (proxy_list x) as [|p l] eqn:E; [congruence|].
  rewrite Hc. simpl. auto.
Qed.

Lemma next_proxy_n_from_cursor :
  forall n x c,
    current_proxy x = Some c ->
    (c + n < List.length (proxy_list x))%nat ->
    fst (next_proxy_n n x) = map Some (seq (S c) n)
    /\ current_proxy (snd (next_proxy_n n x)) = Some (c + n)%nat
    /\ proxy_list (snd (next_proxy_n n x)) = proxy_list x.
Proof.
  induction n as [|n IH]; intros x c Hc Hlt; simpl.
  - rewrite Nat.add_0_r. auto.
  - destruct (next_proxy_from_cursor x c Hc) as [Hr Hcur]; [lia|].
    pose proof (next_proxy_list x) as Hl.
    destruct (next_proxy x) as [r x1]; simpl in *.
    destruct (IH x1 (S c) Hcur) as (H1 & H2 & H3); [rewrite Hl; lia|].
    destruct (next_proxy_n n x1) as [rs x2]; simpl in *.
    subst r rs. rewrite H2, H3, Hl.
    repeat split; try reflexivity. f_equal. lia.
Qed.

(** C4.  On a pool of [k] proxies, [k >= 1], with the cursor unset, [k]
    calls of [next_proxy] return the [k] nodes in order, each one once, and
    the call after them returns the node of the first call. *)
Theorem next_proxy_round_robin :
  forall x k,
    List.length (proxy_list x) = k ->
    (1 <= k)%nat ->
    current_proxy x = None ->
    let '(rs, x') := next_proxy_n k x in
    rs = map Some (seq 0 k)
    /\ NoDup rs
    /\ (forall i, (i < k)%nat -> In (Some i) rs)
    /\ fst (next_proxy x') = hd None rs.
Proof.
  intros x k Hlen Hk Hc.
  destruct k as [|k]; [lia|].
  assert (Hne : proxy_list x <> []).
  { intro E. rewrite E in Hlen. discriminate. }
  simpl.
  destruct (next_proxy_unset x Hc Hne) as [Hr Hcur].
  pose proof (next_proxy_list x) as Hl.
  destruct (next_proxy x) as [r x1]; simpl in *.
  destruct (next_proxy_n_from_cursor k x1 O Hcur) as (H1 & H2 & H3);
    [rewrite Hl; lia|].
  destruct (next_proxy_n k x1) as [rs x2]; simpl in *.
  subst r rs.
  assert (Hrs : Some O :: map Some (seq 1 k) = map Some (seq 0 (S k)))
    by reflexivity.
  rewrite Hrs.
  split; [reflexivity|].
  split.
  { apply Injective_map_NoDup; [|apply seq_NoDup].
    intros a b E. congruence. }
  split.
  { intros i Hi. change (In (Some i) (map Some (seq 0 (S k)))).
    apply in_map. apply in_seq. lia. }
  simpl.
  apply (next_proxy_wraps x2 k).
  - rewrite H2. reflexivity.
  - rewrite H3, Hl. exact Hne.
  - rewrite H3, Hl. lia.
Qed.

(** ** Validation sweep ([check_and_validate_proxies]) *)

Lemma bind_Some :
  forall {A B} (m : M A) (k : A -> M B) w b w',
    bind m k w = Some (b, w') ->
    exists a w1, m w = Some (a, w1) /\ k a w1 = Some (b, w').
Proof.
  intros A B m k w b w' H. unfold bind in H.
  destruct (m w) as [[a w1]|]; [|discriminate].
  exists a, w1. auto.
Qed.

Lemma ret_Some :
  forall {A} (a b : A) w w', ret a w = Some (b, w') -> a = b /\ w = w'.
Proof.
  intros A a b w w' H. unfold ret in H. inversion H. auto.
Qed.

Ltac bind_inv H :=
  let a := fresh "a" in
  let w1 := fresh "w" in
  let H1 := fresh "Hm" in
  apply bind_Some in H; destruct H as (a & w1 & H1 & H).

Lemma proxy_type_eqb_NONE :
  forall t, proxy_type_eqb t PROXY_NONE = false -> t <> PROXY_NONE.
Proof.
  intros t H E. subst t. discriminate.
Qed.

Section SweepFacts.

Variable inet_pton4 : string -> option (list Z).
Variable gethostbyname : string -> Z * option (list Z).

Lemma validate_proxy_outcome :
  forall p net timeout_ms test_host test_port s w p' s' w',
    validate_proxy inet_pton4 gethostbyname p net timeout_ms test_host
                   test_port s w = Some ((p', s'), w') ->
    outcome_ok p'
    /\ working s' = working s + (if validated p' then 1 else 0).
Proof.
  intros p net tmo h pt s w p' s' w' H.
  unfold validate_proxy in H. bind_inv H.
  destruct a as [[detected keep] rtt].
  destruct (keep && negb (proxy_type_eqb detected PROXY_NONE)) eqn:E;
    apply ret_Some in H; destruct H as [H _]; inversion H; subst p' s'.
  - apply andb_prop in E. destruct E as [_ E].
    apply negb_true_iff in E. apply proxy_type_eqb_NONE in E.
    split.
    + intros _. simpl. auto.
    + destruct detected; simpl; reflexivity.
  - split.
    + intros Hv. simpl in Hv. discriminate.
    + simpl. lia.
Qed.

Lemma run_workers_outcome :
  forall items idx net timeout_ms test_host test_port s w items' s' w',
    run_workers inet_pton4 gethostbyname items idx net timeout_ms test_host
                test_port s w = Some ((items', s'), w') ->
    Forall outcome_ok items'
    /\ working s' = working s + Zlength_ (filter validated items')
    /\ List.length items' = List.length items.
Proof.
  induction items as [|p rest IH];
    intros idx net tmo h pt s w items' s' w' H; simpl in H.
  - apply ret_Some in H. destruct H as [H _]. inversion H; subst.
    repeat split; [constructor | unfold Zlength_; simpl; lia].
  - bind_inv H. destruct a as [p1 s1].
    bind_inv H. destruct a as [rest1 s2].
    apply ret_Some in H. destruct H as [H _]. inversion H; subst.
    apply validate_proxy_outcome in Hm. destruct Hm as [Hp Hs1].
    apply IH in Hm0. destruct Hm0 as (Hr & Hs2 & Hlen).
    split; [constructor; assumption|].
    split; [|simpl; congruence].
    rewrite Hs2, Hs1. simpl.
    destruct (validated p1); unfold Zlength_; simpl List.length; lia.
Qed.

End SweepFacts.

Lemma remove_proxy_from_list_at :
  forall pre p rest x,
    proxy_list x = (pre ++ p :: rest)%list ->
    proxy_list (remove_proxy_from_list (List.length pre) x)
    = (pre ++ rest)%list
    /\ proxy_count (remove_proxy_from_list (List.length pre) x)
       = proxy_count x - 1.
Proof.
  intros pre p rest x Hl. unfold remove_proxy_from_list.
  assert (Hlt : Nat.ltb (List.length pre) (List.length (proxy_list x)) = true).
  { apply Nat.ltb_lt. rewrite Hl, length_app. simpl. lia. }
  rewrite Hlt. unfold set_pool. cbn [proxy_list proxy_count].
  split; [|reflexivity].
  rewrite Hl.
  rewrite firstn_app, firstn_all, Nat.sub_diag, firstn_0, app_nil_r.
  f_equal.
  rewrite skipn_app.
  rewrite skipn_all2 by lia.
  replace (S (List.length pre) - List.length pre)%nat with 1%nat by lia.
  reflexivity.
Qed.

Lemma remove_unvalidated_spec :
  forall todo pre x,
    proxy_list x = (pre ++ todo)%list ->
    let x' := remove_unvalidated todo (List.length pre) x in
    proxy_list x' = (pre ++ filter validated todo)%list
    /\ proxy_count x'
       = proxy_count x - Zlength_ (filter (fun p => negb (validated p)) todo).
Proof.
  induction todo as [|p rest IH]; intros pre x Hl; simpl.
  - rewrite app_nil_r in *. unfold Zlength_; simpl. split; [assumption|lia].
  - destruct (validated p) eqn:Hv; simpl.
    + specialize (IH (pre ++ [p])%list x).
      rewrite length_app in IH. simpl in IH.
      replace (List.length pre + 1)%nat with (S (List.length pre)) in IH by lia.
      rewrite <- app_assoc in IH. simpl in IH.
      destruct (IH Hl) as [H1 H2].
      rewrite H1, H2, <- app_assoc. simpl. auto.
    + destruct (remove_proxy_from_list_at pre p rest x Hl) as [H1 H2].
      destruct (IH pre _ H1) as [H3 H4].
      rewrite H3, H4, H2. split; [reflexivity|].
      unfold Zlength_. simpl List.length. lia.
Qed.

Lemma filter_split_length :
  forall (l : list proxy),
    Zlength_ (filter validated l)
    + Zlength_ (filter (fun p => negb (validated p)) l) = Zlength_ l.
Proof.
  induction l as [|p l IH]; unfold Zlength_ in *; [reflexivity|].
  cbn [filter]. destruct (validated p); cbn [negb List.length]; lia.
Qed.

Lemma filter_validated_mark_failed :
  forall l, filter validated (map mark_failed l) = [].
Proof.
  induction l as [|p l IH]; simpl; auto.
Qed.

Lemma Forall_filter_validated :
  forall l, Forall outcome_ok l -> Forall passed_ok (filter validated l).
Proof.
  induction l as [|p l IH]; intros H; simpl; [constructor|].
  inversion H; subst.
  destruct (validated p) eqn:Hv; [|auto].
  constructor; [|auto].
  destruct (H2 Hv) as (Ha & Hd & Ht). repeat split; assumption.
Qed.

Lemma passed_validated :
  forall l, Forall passed_ok l -> Forall validated_ok l.
Proof.
  intros l H. eapply Forall_impl; [|exact H]. intros p [Hp _]. exact Hp.
Qed.

Lemma sweep_outcome :
  forall inet_pton4 gethostbyname test_host test_port timeout_ms created net
         x w r x' w',
    check_and_validate_proxies inet_pton4 gethostbyname test_host test_port
                               timeout_ms created net x w
    = Some ((r, x'), w') ->
    ((r = -1 /\ x' = x)
     \/ (0 <= r
         /\ Forall passed_ok (proxy_list x')
         /\ r = Zlength_ (proxy_list x')
         /\ proxy_count x' = Zlength_ (proxy_list x')))
    /\ (proxy_list x = [] -> r = -1)
    /\ (proxy_list x <> [] -> proxy_count x = Zlength_ (proxy_list x) ->
        r <> -1).
Proof.
  intros inet gh h pt tmo created net x w r x' w' H.
  unfold check_and_validate_proxies in H.
  destruct (proxy_list x) as [|p0 l0] eqn:Hl.
  { apply ret_Some in H. destruct H as [H _]. inversion H; subst.
    split; [left; auto|]. split; [auto|congruence]. }
  destruct (proxy_count x <=? 0) eqn:Hc.
  { apply ret_Some in H. destruct H as [H _]. inversion H; subst.
    split; [left; auto|]. split; [discriminate|].
    intros _ Hcnt. apply Z.leb_le in Hc.
    unfold Zlength_ in Hcnt. simpl List.length in Hcnt. lia. }
  destruct (negb (proxy_count x =? Zlength_ (p0 :: l0))) eqn:Hcnt;
    [discriminate|].
  apply negb_false_iff in Hcnt. apply Z.eqb_eq in Hcnt.
  bind_inv H. destruct a as [items s].
  apply ret_Some in H. destruct H as [H _]. inversion H; subst r x'. clear H.
  set (x1 := set_pool x items (current_proxy x) (proxy_count x)).
  assert (Hitems :
    Forall outcome_ok items
    /\ working s = Zlength_ (filter validated items)
    /\ List.length items = List.length (p0 :: l0)).
  { match type of Hm with
    | (if ?c then _ else _) _ = _ => destruct c
    end.
    - apply run_workers_outcome in Hm. destruct Hm as (Ha & Hb & Hc').
      rewrite length_map in Hc'. simpl in Hb. auto.
    - apply ret_Some in Hm. destruct Hm as [Hm _]. inversion Hm; subst.
      change (mark_failed p0 :: map mark_failed l0)
        with (map mark_failed (p0 :: l0)).
      rewrite filter_validated_mark_failed, length_map.
      repeat split; try reflexivity.
      apply Forall_forall. intros q Hq Hv.
      apply in_map_iff in Hq. destruct Hq as (q0 & Hq0 & _).
      subst q. simpl in Hv. discriminate. }
  destruct Hitems as (Hok & Hw & Hlen).
  destruct (remove_unvalidated_spec items [] x1 eq_refl) as [H1 H2].
  simpl in H1, H2.
  change (proxy_list x1) with items.
  split; [right|split; [discriminate|]].
  - rewrite H1, H2, Hw.
    split; [unfold Zlength_; lia|].
    split; [apply Forall_filter_validated; assumption|].
    split; [reflexivity|].
    change (proxy_count x1) with (proxy_count x). rewrite Hcnt.
    pose proof (filter_split_length items) as Hs.
    unfold Zlength_ in *. rewrite Hlen in Hs. lia.
  - intros _ _. rewrite Hw. unfold Zlength_. lia.
Qed.

(** C3.  When [check_and_validate_proxies] returns, either the result is -1
    and the pool is untouched, or every proxy left in the pool is validated,
    active and has a detected type, and the result counts them: it is the
    number of proxies that passed, which is the length of the pool (and
    [proxy_count]).  On an empty pool the result is -1; on a pool that is
    not empty and whose count is its length it is not. *)
Theorem sweep_leaves_validated_proxies :
  forall inet_pton4 gethostbyname test_host test_port timeout_ms created net
         x w r x' w',
    check_and_validate_proxies inet_pton4 gethostbyname test_host test_port
                               timeout_ms created net x w
    = Some ((r, x'), w') ->
    ((r = -1 /\ x' = x)
     \/ (0 <= r
         /\ Forall validated_ok (proxy_list x')
         /\ r = Zlength_ (proxy_list x')
         /\ proxy_count x' = Zlength_ (proxy_list x')))
    /\ (proxy_list x = [] -> r = -1)
    /\ (proxy_list x <> [] -> proxy_count x = Zlength_ (proxy_list x) ->
        r <> -1).
Proof.
  intros inet gh h pt tmo created net x w r x' w' H.
  destruct (sweep_outcome inet gh h pt tmo created net x w r x' w' H)
    as [[Hfail|(Hr & Hok & Hlen & Hcnt)] Hrest].
  - split; [left; exact Hfail|exact Hrest].
  - split; [right|exact Hrest].
    repeat split; try assumption. apply passed_validated. exact Hok.
Qed.

(** ** Round robin after a sweep *)

Lemma post_validation_ok :
  forall x, post_validation x -> Forall validated_ok (proxy_list x).
Proof.
  intros x H. induction H as [inet gh h pt tmo created net x w r x' w' H Hr|x H IH].
  - destruct (sweep_outcome _ _ _ _ _ _ _ _ _ _ _ _ H) as [[[E _]|(_ & Hok & _)] _].
    + congruence.
    + apply passed_validated. exact Hok.
  - rewrite next_proxy_list. exact IH.
Qed.

Lemma active_at_ok :
  forall l i,
    Forall validated_ok l -> (i < List.length l)%nat -> active_at l i = true.
Proof.
  intros l i Hok Hi. unfold active_at.
  destruct (nth_error l i) as [p|] eqn:E.
  - apply nth_error_In in E.
    rewrite Forall_forall in Hok. destruct (Hok p E) as (Hv & Ha & _).
    rewrite Hv, Ha. reflexivity.
  - apply nth_error_None in E. lia.
Qed.

(** In the states that a sweep leaves, and that [next_proxy] keeps, every
    entry is validated and active, so that the rotation of the specification
    has no entry to skip: there, and only for that reason, [next_proxy]
    returns what that rotation returns. *)
Lemma next_proxy_after_validation :
  forall x,
    post_validation x ->
    let '(r, x') := next_proxy x in
    r = next_active_spec x
    /\ (forall i, r = Some i ->
         exists p, nth_error (proxy_list x) i = Some p
                   /\ validated p = true /\ is_active p = true)
    /\ (r = None <-> forall p, In p (proxy_list x) -> is_active p = false)
    /\ current_proxy x'
       = match r with Some i => Some i | None => current_proxy x end
    /\ proxy_list x' = proxy_list x.
Proof.
  intros x Hpv. apply post_validation_ok in Hpv.
  unfold next_proxy, next_active_spec.
  destruct (proxy_list x) as [|p0 l0] eqn:Hl.
  - split.
    { destruct (current_proxy x) as [c|]; reflexivity. }
    split; [intros i Hi; discriminate|].
    split; [split; [intros _ p []|reflexivity]|].
    split; [reflexivity|assumption].
  - set (l := p0 :: l0) in *.
    set (cur := match current_proxy x with
                | Some i => if Nat.ltb (S i) (List.length l) then S i else O
                | None => O
                end).
    assert (Hcur : (cur < List.length l)%nat).
    { unfold cur. destruct (current_proxy x) as [c|]; [|simpl; lia].
      destruct (Nat.ltb (S c) (List.length l)) eqn:E.
      - apply Nat.ltb_lt in E. exact E.
      - simpl. lia. }
    assert (Hact : active_at l cur = true) by (apply active_at_ok; assumption).
    split.
    { unfold cur in *. destruct (current_proxy x) as [c|].
      - destruct (Nat.ltb (S c) (List.length l)) eqn:E.
        + apply Nat.ltb_lt in E.
          replace (List.length l - S c)%nat
            with (S (List.length l - S (S c))) by lia.
          cbn [seq app find]. rewrite Hact. reflexivity.
        + change (seq 0 (List.length l))
            with (O :: seq 1 (List.length l0)).
          cbn [find]. rewrite Hact. reflexivity.
      - change (seq 0 (List.length l)) with (O :: seq 1 (List.length l0)).
        cbn [find]. rewrite Hact. reflexivity. }
    split.
    { intros i Hi. inversion Hi; subst i.
      unfold active_at in Hact.
      destruct (nth_error l cur) as [p|]; [|discriminate].
      apply andb_prop in Hact. exists p. tauto. }
    split.
    { split; [discriminate|].
      intros Hnone. exfalso.
      rewrite Forall_forall in Hpv.
      destruct (Hpv p0 (or_introl eq_refl)) as (_ & Ha & _).
      rewrite (Hnone p0 (or_introl eq_refl)) in Ha. discriminate. }
    split; reflexivity.
Qed.

(** Outside these states the two differ: [next_proxy] has no test of
    [is_active] of its own.  On a pool whose second entry failed, with the
    cursor on the first entry, it returns the second entry, which the
    rotation of the specification skips. *)
Remark next_proxy_has_no_activity_test :
  let x := mkXaddress [mark_validated fresh_socks5_proxy PROXY_SOCKS5 12;
                       mark_failed fresh_socks5_proxy]
                      (Some O) 2 PROXY_NONE None 0 in
  fst (next_proxy x) = Some 1%nat
  /\ active_at (proxy_list x) 1 = false
  /\ next_active_spec x = Some O.
Proof.
  cbv zeta. repeat split; vm_compute; reflexivity.
Qed.


(** ** Saving ([save_validated_proxies]) *)

Lemma str_app_assoc :
  forall a b c : string, ((a ++ b) ++ c = a ++ (b ++ c))%string.
Proof.
  induction a as [|ch a IH]; intros b c; simpl; [reflexivity|].
  rewrite IH. reflexivity.
Qed.

Lemma str_app_nil_r : forall a : string, (a ++ "" = a)%string.
Proof.
  induction a as [|ch a IH]; simpl; [reflexivity|]. rewrite IH. reflexivity.
Qed.

Lemma saved_line_canonical :
  forall p, saved_line p = canonical_line (type p) p.
Proof.
  intros p. unfold saved_line, canonical_line, credentials_block,
    has_credentials.
  destruct (username p) as [u|]; [|reflexivity].
  destruct (password p) as [pw|]; [|reflexivity].
  destruct (negb (is_empty u) && negb (is_empty pw)); [|reflexivity].
  rewrite !str_app_assoc. reflexivity.
Qed.

Lemma save_loop_spec :
  forall l out count,
    save_loop l out count
    = (out ++ cat (map (fun p => canonical_line (type p) p) l),
       count + Zlength_ l).
Proof.
  induction l as [|p l IH]; intros out count; simpl.
  - rewrite str_app_nil_r. unfold Zlength_; simpl. f_equal. lia.
  - rewrite IH, saved_line_canonical, str_app_assoc. f_equal.
    unfold Zlength_. simpl List.length. lia.
Qed.

(** C8, as amended.  [save_validated_proxies] writes one line per proxy, in
    the canonical form, and returns their number; the scheme of a line is the
    one of the [type] field of the proxy.  A sweep stores the detected type in
    [type] as well, so on a pool in which every [type] is the
    [detected_type] (every pool that a sweep leaves) the scheme is the one of
    [detected_type]. *)
Theorem save_validated_proxies_lines :
  forall fopen_w filename x,
    save_validated_proxies fopen_w filename x
    = (if fopen_w filename
       then (Zlength_ (proxy_list x),
             Some (cat (map (fun p => canonical_line (type p) p)
                            (proxy_list x))))
       else (-1, None))
    /\ (Forall (fun p => type p = detected_type p) (proxy_list x) ->
        cat (map (fun p => canonical_line (type p) p) (proxy_list x))
        = cat (map (fun p => canonical_line (detected_type p) p)
                   (proxy_list x))).
Proof.
  intros fopen_w filename x. split.
  - unfold save_validated_proxies.
    destruct (fopen_w filename); [|reflexivity].
    rewrite save_loop_spec. simpl. reflexivity.
  - intros H. induction H as [|p l Hp Hl IH]; simpl; [reflexivity|].
    rewrite IH, Hp. reflexivity.
Qed.

(** After a sweep the hypothesis of the second part holds. *)
Lemma sweep_type_is_detected :
  forall inet_pton4 gethostbyname test_host test_port timeout_ms created net
         x w r x' w',
    check_and_validate_proxies inet_pton4 gethostbyname test_host test_port
                               timeout_ms created net x w
    = Some ((r, x'), w') ->
    r <> -1 ->
    Forall (fun p => type p = detected_type p) (proxy_list x').
Proof.
  intros inet gh h pt tmo created net x w r x' w' H Hr.
  destruct (sweep_outcome _ _ _ _ _ _ _ _ _ _ _ _ H)
    as [[[E _]|(_ & Hok & _)] _]; [congruence|].
  eapply Forall_impl; [|exact Hok]. intros p [_ Hp]. exact Hp.
Qed.

(** C8, counterexample.  For a pool that holds this proxy the file gets the
    line with the scheme [socks5://], while the scheme of its
    [detected_type], NONE, is empty. *)
Lemma save_scheme_is_not_from_detected_type :
  let x := mkXaddress [fresh_socks5_proxy] None 1 PROXY_NONE None 0 in
  save_validated_proxies (fun _ => true) "validated.txt" x
  = (1, Some ("socks5://198.51.100.4:1080" ++ LFs))
  /\ cat (map (fun p => canonical_line (detected_type p) p) (proxy_list x))
     = "198.51.100.4:1080" ++ LFs
  /\ snd (save_validated_proxies (fun _ => true) "validated.txt" x)
     <> Some (cat (map (fun p => canonical_line (detected_type p) p)
                       (proxy_list x))).
Proof.
  cbv zeta. split; [vm_compute; reflexivity|].
  split; [vm_compute; reflexivity|].
  vm_compute. discriminate.
Qed.

(** ** Line parser ([parse_proxy_line]) *)

Lemma isspace_not_NUL : forall c, isspace c = true -> Ascii.eqb c NUL = false.
Proof.
  intros c. destruct c as [[] [] [] [] [] [] [] []]; vm_compute; congruence.
Qed.

Lemma hash_char : forall c, c = "#"%char ->
  isspace c = false /\ Ascii.eqb c NUL = false
  /\ Ascii.eqb c LF = false /\ Ascii.eqb c CR = false.
Proof.
  intros c E. subst c. vm_compute. auto.
Qed.

(** A line that is blank, or that starts with [#] after white space, leaves
    nothing or a [#] at the head of the trimmed buffer. *)
Lemma skip_space_buffer :
  forall line n,
    skip_space line = EmptyString \/ deref (skip_space line) = "#"%char ->
    let b := skip_space (cut_crlf (str_take n (c_str line))) in
    b = EmptyString \/ deref b = "#"%char.
Proof.
  induction line as [|c r IH]; intros n H; simpl.
  - destruct n; simpl; auto.
  - simpl in H. destruct (isspace c) eqn:Hs.
    + rewrite (isspace_not_NUL c Hs).
      destruct n as [|k]; simpl; [auto|].
      destruct (Ascii.eqb c LF || Ascii.eqb c CR); simpl; [auto|].
      rewrite Hs. apply IH. exact H.
    + destruct H as [H|H]; [discriminate|].
      simpl in H. destruct (hash_char c H) as (_ & H0 & H1 & H2).
      rewrite H0. destruct n as [|k]; simpl; [auto|].
      rewrite H1, H2. simpl. rewrite Hs. simpl. auto.
Qed.

Lemma chop_space_head :
  forall s, deref s = "#"%char -> deref (chop_space s) = "#"%char.
Proof.
  intros s H. destruct s as [|c r]; simpl in *; [exact H|].
  destruct (hash_char c H) as (Hs & _).
  destruct (chop_space r); [rewrite Hs|]; simpl; exact H.
Qed.

Lemma blank_or_comment_rejected :
  forall getaddrinfo line default_type,
    skip_space line = EmptyString \/ deref (skip_space line) = "#"%char ->
    parse_proxy_line getaddrinfo line default_type = None.
Proof.
  intros g line t H. unfold parse_proxy_line.
  destruct (is_empty (c_str line)); [reflexivity|].
  unfold trim_whitespace, line_buffer.
  destruct (skip_space_buffer line (MAX_PROXY_LINE - 1) H) as [E|E].
  - rewrite E. reflexivity.
  - apply chop_space_head in E. rewrite E.
    rewrite orb_true_r. reflexivity.
Qed.

(** C7.  With a resolver that answers for the two literal addresses, the
    line [socks5://u:p@198.51.100.4:1080] parses to host 198.51.100.4, port
    1080, user [u], password [p], type SOCKS5 and [is_ipv6 = 0], and the line
    [[2001:db8::1]:1080:alice:s3cret] parses to host 2001:db8::1, port 1080,
    user [alice], password [s3cret], the default type of the caller and
    [is_ipv6 = 1].  A line that is blank, or whose first character after
    white space is [#], gives no record. *)
Theorem parse_proxy_line_scenarios :
  forall getaddrinfo default_type a4 a6,
    getaddrinfo "198.51.100.4" "1080" AF_UNSPEC
    = Some (mkAddrinfo AF_INET a4) ->
    getaddrinfo "2001:db8::1" "1080" AF_INET6
    = Some (mkAddrinfo AF_INET6 a6) ->
    parse_proxy_line getaddrinfo "socks5://u:p@198.51.100.4:1080" default_type
    = Some (mkProxy "198.51.100.4" 1080 (Some "u") (Some "p") PROXY_SOCKS5
                    PROXY_NONE false false false false 0 a4 sockaddr_zero)
    /\ parse_proxy_line getaddrinfo "[2001:db8::1]:1080:alice:s3cret"
                        default_type
       = Some (mkProxy "2001:db8::1" 1080 (Some "alice") (Some "s3cret")
                       default_type PROXY_NONE true false false false 0
                       sockaddr_zero a6)
    /\ (forall line,
          skip_space line = EmptyString
          \/ deref (skip_space line) = "#"%char ->
          parse_proxy_line getaddrinfo line default_type = None).
Proof.
  intros g t a4 a6 H4 H6.
  split; [|split].
  - vm_compute. vm_compute in H4. rewrite H4. reflexivity.
  - vm_compute. vm_compute in H6. rewrite H6. reflexivity.
  - intros line H. apply blank_or_comment_rejected. exact H.
Qed.

(** ** Framed timed I/O ([safe_read_with_timeout],
       [safe_write_with_timeout]) *)

Lemma io_cost_same :
  forall tmo w w',
    polls w' = polls w -> clock w' = clock w -> io_cost tmo w w'.
Proof.
  intros tmo w w' Hp Hc. exists []. rewrite app_nil_r.
  unfold Zlength_; simpl. repeat split; [assumption|constructor|lia|lia].
Qed.

Lemma io_cost_trans :
  forall tmo w w1 w2,
    io_cost tmo w w1 -> io_cost tmo w1 w2 -> io_cost tmo w w2.
Proof.
  intros tmo w w1 w2 (n1 & Hp1 & Hf1 & Hl1 & Hu1) (n2 & Hp2 & Hf2 & Hl2 & Hu2).
  exists (n1 ++ n2)%list.
  split; [rewrite Hp2, Hp1, app_assoc; reflexivity|].
  split.
  { apply Forall_app. split; [exact Hf1|].
    eapply Forall_impl; [|exact Hf2]. intros p [Ha Hb]. split; [exact Ha|lia]. }
  split; [lia|].
  unfold Zlength_ in *. rewrite length_app, Nat2Z.inj_add. lia.
Qed.

Lemma io_cost_one_poll :
  forall tmo d w w',
    polls w' = (polls w ++ [mkPoll tmo (clock w)])%list ->
    clock w' = clock w + d ->
    0 <= d <= tmo ->
    io_cost tmo w w'.
Proof.
  intros tmo d w w' Hp Hc Hd.
  exists [mkPoll tmo (clock w)].
  split; [exact Hp|].
  split; [constructor; [simpl; lia|constructor]|].
  unfold Zlength_; simpl. lia.
Qed.

Lemma io_cost_poll :
  forall tmo d w w1 w',
    io_cost tmo w1 w' ->
    polls w1 = (polls w ++ [mkPoll tmo (clock w)])%list ->
    clock w1 = clock w + d ->
    0 <= d <= tmo ->
    io_cost tmo w w'.
Proof.
  intros tmo d w w1 w' H Hp Hc Hd.
  apply (io_cost_trans tmo w w1 w'); [|exact H].
  apply (io_cost_one_poll tmo d); assumption.
Qed.

Lemma rx_delay_nonneg : forall ev, 0 <= rx_delay ev.
Proof. intros []; simpl; lia. Qed.

Lemma tx_delay_nonneg : forall ev, 0 <= tx_delay ev.
Proof. intros []; simpl; lia. Qed.

Ltac cost_leaf d :=
  apply (io_cost_one_poll _ d); [reflexivity | reflexivity | lia].

Lemma safe_read_loop_cost :
  forall evs count timeout_sec total buf w,
    0 <= timeout_sec ->
    io_cost (timeout_sec * 1000) w
            (snd (safe_read_loop evs count timeout_sec total buf w)).
Proof.
  induction evs as [|ev rest IH]; intros count t total buf w Ht;
    cbn [safe_read_loop].
  - destruct (count <=? total); [apply io_cost_same; reflexivity|].
    destruct (t <? 0) eqn:E; [apply Z.ltb_lt in E; lia|].
    cbn [snd]. cost_leaf (t * 1000).
  - destruct (count <=? total); [apply io_cost_same; reflexivity|].
    destruct (t <? 0) eqn:E; [apply Z.ltb_lt in E; lia|].
    pose proof (rx_delay_nonneg ev) as Hd.
    destruct (t * 1000 <? rx_delay ev) eqn:Hw.
    { cbn [snd]. cost_leaf (t * 1000). }
    apply Z.ltb_ge in Hw.
    destruct ev as [d bytes|d|d e|d e].
    + destruct (firstn (Z.to_nat (count - total)) bytes) as [|b got] eqn:Hg.
      { cbn [snd]. cost_leaf (rx_delay (RxData d bytes)). }
      destruct (skipn (Z.to_nat (count - total)) bytes) as [|b' left].
      * eapply (io_cost_poll _ (rx_delay (RxData d bytes)));
          [apply IH; exact Ht|reflexivity|reflexivity|lia].
      * cbn [snd]. cost_leaf (rx_delay (RxData d bytes)).
    + cbn [snd]. cost_leaf (rx_delay (RxEof d)).
    + destruct (is_EINTR e).
      * eapply (io_cost_poll _ (rx_delay (RxSelectFail d e)));
          [apply IH; exact Ht|reflexivity|reflexivity|lia].
      * cbn [snd]. cost_leaf (rx_delay (RxSelectFail d e)).
    + destruct (is_EAGAIN e).
      * eapply (io_cost_poll _ (rx_delay (RxReadFail d e)));
          [apply IH; exact Ht|reflexivity|reflexivity|lia].
      * cbn [snd]. cost_leaf (rx_delay (RxReadFail d e)).
Qed.

Lemma safe_write_loop_cost :
  forall evs data timeout_sec total w,
    0 <= timeout_sec ->
    io_cost (timeout_sec * 1000) w
            (snd (safe_write_loop evs data timeout_sec total w)).
Proof.
  induction evs as [|ev rest IH]; intros data t total w Ht;
    cbn [safe_write_loop].
  - destruct (Zlength_ data <=? total); [apply io_cost_same; reflexivity|].
    destruct (t <? 0) eqn:E; [apply Z.ltb_lt in E; lia|].
    cbn [snd]. cost_leaf (t * 1000).
  - destruct (Zlength_ data <=? total); [apply io_cost_same; reflexivity|].
    destruct (t <? 0) eqn:E; [apply Z.ltb_lt in E; lia|].
    pose proof (tx_delay_nonneg ev) as Hd.
    destruct (t * 1000 <? tx_delay ev) eqn:Hw.
    { cbn [snd]. cost_leaf (t * 1000). }
    apply Z.ltb_ge in Hw.
    destruct ev as [d room|d e|d e].
    + destruct (Z.min room (Zlength_ data - total) <=? 0).
      * cbn [snd]. cost_leaf (tx_delay (TxRoom d room)).
      * eapply (io_cost_poll _ (tx_delay (TxRoom d room)));
          [apply IH; exact Ht|reflexivity|reflexivity|lia].
    + destruct (is_EINTR e).
      * eapply (io_cost_poll _ (tx_delay (TxSelectFail d e)));
          [apply IH; exact Ht|reflexivity|reflexivity|lia].
      * cbn [snd]. cost_leaf (tx_delay (TxSelectFail d e)).
    + destruct (is_EAGAIN e).
      * eapply (io_cost_poll _ (tx_delay (TxWriteFail d e)));
          [apply IH; exact Ht|reflexivity|reflexivity|lia].
      * cbn [snd]. cost_leaf (tx_delay (TxWriteFail d e)).
Qed.

Lemma safe_read_cost :
  forall count timeout_sec w,
    0 <= timeout_sec ->
    io_cost (timeout_sec * 1000) w
            (snd (safe_read_with_timeout count timeout_sec w)).
Proof.
  intros count t w Ht. unfold safe_read_with_timeout.
  pose proof (safe_read_loop_cost (rx w) count t 0 [] w Ht) as H.
  destruct (safe_read_loop (rx w) count t 0 [] w) as [[[n buf] evs] w'].
  simpl in *. eapply io_cost_trans; [exact H|].
  apply io_cost_same; reflexivity.
Qed.

Lemma safe_write_cost :
  forall data timeout_sec w,
    0 <= timeout_sec ->
    io_cost (timeout_sec * 1000) w
            (snd (safe_write_with_timeout data timeout_sec w)).
Proof.
  intros data t w Ht. unfold safe_write_with_timeout.
  pose proof (safe_write_loop_cost (tx w) data t 0 w Ht) as H.
  destruct (safe_write_loop (tx w) data t 0 w) as [[n evs] w'].
  simpl in *. eapply io_cost_trans; [exact H|].
  apply io_cost_same; reflexivity.
Qed.

(** C1, as amended.  In a call of [safe_read_with_timeout] or of
    [safe_write_with_timeout] with a timeout of [t >= 0] seconds, every
    readiness poll is given the whole timeout [t], whatever time the call
    has used already; the call lasts at most [t] per poll it makes. *)
Theorem framed_io_polls_use_full_timeout :
  forall count data timeout_sec w,
    0 <= timeout_sec ->
    io_cost (timeout_sec * 1000) w
            (snd (safe_read_with_timeout count timeout_sec w))
    /\ io_cost (timeout_sec * 1000) w
               (snd (safe_write_with_timeout data timeout_sec w)).
Proof.
  intros count data t w Ht. split.
  - apply safe_read_cost. exact Ht.
  - apply safe_write_cost. exact Ht.
Qed.

(** C1, counterexample.  Two bytes are asked for with a timeout of 10 s and
    the peer sends one byte every 9 s.  The read succeeds; its second poll,
    made 9 s into the call, is again given 10 s and not the remaining 1 s,
    and the call lasts 18 s.  The same holds for a write of three bytes that
    the kernel takes one at a time. *)
Lemma trickle_outlasts_timeout :
  let w := mkWorld [RxData 9000 [5]; RxData 9000 [0]]
                   [TxRoom 9000 1; TxRoom 9000 1; TxRoom 9000 1]
                   [] 0 ENONE [] [] in
  let r := safe_read_with_timeout 2 10 w in
  let r' := safe_write_with_timeout [5; 1; 0] 10 w in
  fst r = (2, [5; 0])
  /\ polls (snd r) = [mkPoll 10000 0; mkPoll 10000 9000]
  /\ ~ Forall (within_remaining_budget 10 (clock w)) (polls (snd r))
  /\ ~ clock (snd r) - clock w <= 10 * 1000
  /\ fst r' = 3
  /\ ~ Forall (within_remaining_budget 10 (clock w)) (polls (snd r'))
  /\ ~ clock (snd r') - clock w <= 10 * 1000.
Proof.
  cbv zeta.
  split; [vm_compute; reflexivity|].
  split; [vm_compute; reflexivity|].
  split.
  { intros H. vm_compute in H.
    inversion H as [|p l H1 H2]; subst.
    inversion H2 as [|p' l' H3 H4]; subst.
    apply H3. reflexivity. }
  split; [vm_compute; intros H; apply H; reflexivity|].
  split; [vm_compute; reflexivity|].
  split.
  { intros H. vm_compute in H.
    inversion H as [|p l H1 H2]; subst.
    inversion H2 as [|p' l' H3 H4]; subst.
    apply H3. reflexivity. }
  vm_compute. intros H. apply H. reflexivity.
Qed.

(** ** Handshake byte sequences *)

(** A write that the kernel takes at once. *)
Lemma safe_write_one_room :
  forall data d room rest t w,
    0 <= t ->
    0 < Zlength_ data ->
    Zlength_ data <= room ->
    Z.max 0 d <= t * 1000 ->
    tx w = TxRoom d room :: rest ->
    safe_write_with_timeout data t w
    = (Zlength_ data,
       mkWorld (rx w) rest (sent w ++ data)%list (clock w + Z.max 0 d)
               (errno w) (console w)
               (polls w ++ [mkPoll (t * 1000) (clock w)])%list).
Proof.
  intros data d room rest t w Ht Hlen Hroom Hd Htx.
  unfold safe_write_with_timeout. rewrite Htx. cbn [safe_write_loop].
  replace (Zlength_ data <=? 0) with false by (symmetry; apply Z.leb_gt; lia).
  replace (t <? 0) with false by (symmetry; apply Z.ltb_ge; lia).
  cbn [tx_delay].
  replace (t * 1000 <? Z.max 0 d) with false
    by (symmetry; apply Z.ltb_ge; lia).
  replace (Z.min room (Zlength_ data - 0)) with (Zlength_ data) by lia.
  replace (Zlength_ data <=? 0) with false by (symmetry; apply Z.leb_gt; lia).
  assert (Hdone :
    forall w0,
      safe_write_loop rest data t (0 + Zlength_ data) w0
      = (0 + Zlength_ data, rest, w0)).
  { intros w0. destruct rest; cbn [safe_write_loop];
      replace (Zlength_ data <=? 0 + Zlength_ data) with true
        by (symmetry; apply Z.leb_le; lia); reflexivity. }
  rewrite Hdone.
  replace (Z.to_nat (Zlength_ data)) with (List.length data)
    by (unfold Zlength_; rewrite Nat2Z.id; reflexivity).
  cbn [skipn Z.to_nat]. rewrite firstn_all.
  unfold set_tx, push_sent, tick, note_poll; simpl. reflexivity.
Qed.

(** A read that finds all its bytes in the first segment; what is left of
    the segment stays for the next read. *)
Lemma safe_read_one_chunk :
  forall count bytes d rest t w,
    0 <= t ->
    0 < count ->
    count <= Zlength_ bytes ->
    Z.max 0 d <= t * 1000 ->
    rx w = RxData d bytes :: rest ->
    safe_read_with_timeout count t w
    = ((count, firstn (Z.to_nat count) bytes),
       mkWorld (match skipn (Z.to_nat count) bytes with
                | [] => rest
                | b :: more => RxData 0 (b :: more) :: rest
                end)
               (tx w) (sent w) (clock w + Z.max 0 d) (errno w) (console w)
               (polls w ++ [mkPoll (t * 1000) (clock w)])%list).
Proof.
  intros count bytes d rest t w Ht Hc Hlen Hd Hrx.
  unfold safe_read_with_timeout. rewrite Hrx. cbn [safe_read_loop].
  replace (count <=? 0) with false by (symmetry; apply Z.leb_gt; lia).
  replace (t <? 0) with false by (symmetry; apply Z.ltb_ge; lia).
  cbn [rx_delay].
  replace (t * 1000 <? Z.max 0 d) with false
    by (symmetry; apply Z.ltb_ge; lia).
  replace (count - 0) with count by lia.
  assert (Hgot : Zlength_ (firstn (Z.to_nat count) bytes) = count).
  { unfold Zlength_ in *. rewrite length_firstn. lia. }
  destruct (firstn (Z.to_nat count) bytes) as [|b got] eqn:Hf.
  { unfold Zlength_ in Hgot. simpl in Hgot. lia. }
  rewrite Hgot.
  destruct (skipn (Z.to_nat count) bytes) as [|b' left].
  - assert (Hdone :
      forall buf w0,
        safe_read_loop rest count t (0 + count) buf w0
        = (0 + count, buf, rest, w0)).
    { intros buf w0. destruct rest; cbn [safe_read_loop];
        replace (count <=? 0 + count) with true
          by (symmetry; apply Z.leb_le; lia); reflexivity. }
    rewrite Hdone. unfold set_rx, tick, note_poll; simpl. reflexivity.
  - unfold set_rx, tick, note_poll; simpl. reflexivity.
Qed.

(** A read that finds its bytes at the head of the first segment. *)
Lemma safe_read_prefix :
  forall count pre post d rest t w,
    0 <= t ->
    count = Zlength_ pre ->
    0 < count ->
    Z.max 0 d <= t * 1000 ->
    rx w = RxData d (pre ++ post) :: rest ->
    safe_read_with_timeout count t w
    = ((count, pre),
       mkWorld (match post with
                | [] => rest
                | _ :: _ => RxData 0 post :: rest
                end)
               (tx w) (sent w) (clock w + Z.max 0 d) (errno w) (console w)
               (polls w ++ [mkPoll (t * 1000) (clock w)])%list).
Proof.
  intros count pre post d rest t w Ht Hc Hpos Hd Hrx.
  rewrite (safe_read_one_chunk count (pre ++ post) d rest t w);
    try assumption.
  - subst count. unfold Zlength_. rewrite Nat2Z.id.
    rewrite firstn_app, firstn_all, Nat.sub_diag, firstn_0, app_nil_r.
    rewrite skipn_app, skipn_all, Nat.sub_diag, skipn_0. simpl.
    destruct post; reflexivity.
  - subst count. unfold Zlength_. rewrite length_app. lia.
Qed.

Lemma length_bytes_of_string :
  forall s, Zlength_ (bytes_of_string s) = strlen s.
Proof.
  intros s. unfold Zlength_, strlen, bytes_of_string. rewrite length_map.
  f_equal. induction s as [|c r IH]; simpl; [reflexivity|]. rewrite IH.
  reflexivity.
Qed.

Ltac step := unfold bind at 1, lift at 1.

Lemma socks5_no_auth_run :
  forall dest_host dest_port u p w d1 k1 d2 k2 txrest d3 d4 tail rxrest,
    has_credentials u p = false ->
    strlen dest_host <= 255 ->
    tx w = TxRoom d1 k1 :: TxRoom d2 k2 :: txrest ->
    3 <= k1 ->
    7 + strlen dest_host <= k2 ->
    0 <= d1 <= 10000 ->
    0 <= d2 <= 10000 ->
    rx w = RxData d3 [5; 0] :: RxData d4 ([5; 0; 0; 1] ++ tail) :: rxrest ->
    List.length tail = 6%nat ->
    0 <= d3 <= 10000 ->
    0 <= d4 <= 10000 ->
    exists w',
      socks5_connect dest_host dest_port u p w = Some (0, w')
      /\ sent w'
         = (sent w ++ [5; 1; 0]
            ++ ([5; 1; 0; 3; strlen dest_host] ++ bytes_of_string dest_host
                ++ [port_hi dest_port; port_lo dest_port]))%list
      /\ rx w' = rxrest
      /\ console w' = console w.
Proof.
  intros h pt u p w d1 k1 d2 k2 txrest d3 d4 tail rxrest
         Hcred Hh Htx Hk1 Hk2 Hd1 Hd2 Hrx Htail Hd3 Hd4.
  assert (Ht : 0 <= HANDSHAKE_TIMEOUT_SEC) by (unfold HANDSHAKE_TIMEOUT_SEC; lia).
  assert (Hms : HANDSHAKE_TIMEOUT_SEC * 1000 = 10000) by reflexivity.
  unfold socks5_connect, socks5_greeting. rewrite Hcred.
  step.
  rewrite (safe_write_one_room [5;1;0] d1 k1 (TxRoom d2 k2 :: txrest)
             HANDSHAKE_TIMEOUT_SEC w Ht);
    [ | reflexivity | exact Hk1 | lia | exact Htx ].
  change (negb (Zlength_ [5; 1; 0] =? Zlength_ [5; 1; 0])) with false.
  cbv iota. step.
  match goal with |- context [safe_read_with_timeout 2 _ ?w1] =>
    rewrite (safe_read_prefix 2 [5;0] [] d3
               (RxData d4 ([5; 0; 0; 1] ++ tail) :: rxrest)
               HANDSHAKE_TIMEOUT_SEC w1 Ht);
    [ | reflexivity | lia | lia | exact Hrx ]
  end.
  cbv iota beta.
  change (negb (2 =? 2)) with false.
  change (negb (byte_at [5; 0] 0 =? 5)) with false.
  change (byte_at [5; 0] 1 =? 2) with false.
  change (negb (byte_at [5; 0] 1 =? 0)) with false.
  cbv iota.
  unfold socks5_tunnel.
  replace (512 <? 7 + strlen h) with false by (symmetry; apply Z.ltb_ge; lia).
  step.
  assert (Hreq : Zlength_ (socks5_request h pt) = 7 + strlen h).
  { pose proof (length_bytes_of_string h) as Hb.
    unfold socks5_request, Zlength_ in *.
    rewrite length_app, length_app. simpl List.length. lia. }
  match goal with |- context [safe_write_with_timeout _ _ ?w1] =>
    rewrite (safe_write_one_room (socks5_request h pt) d2 k2 txrest
               HANDSHAKE_TIMEOUT_SEC w1 Ht);
    [ | rewrite Hreq; unfold strlen; lia | rewrite Hreq; exact Hk2 | lia
      | reflexivity ]
  end.
  rewrite Z.eqb_refl. cbn [negb]. cbv iota. step.
  match goal with |- context [safe_read_with_timeout 4 _ ?w1] =>
    rewrite (safe_read_prefix 4 [5;0;0;1] tail d4 rxrest
               HANDSHAKE_TIMEOUT_SEC w1 Ht);
    [ | reflexivity | lia | lia | reflexivity ]
  end.
  cbv iota beta.
  change (4 <? 4) with false.
  change (negb (byte_at [5; 0; 0; 1] 1 =? 0)) with false.
  change (byte_at [5; 0; 0; 1] 3) with 1.
  cbv iota.
  unfold socks5_drain.
  change (1 =? 1) with true. cbv iota.
  unfold bind at 1, ret at 1. cbv iota beta.
  change (negb true) with false. change (0 <? 6) with true.
  change (256 <? 6) with false. cbv iota. step.
  destruct tail as [|t0 tail']; [discriminate|].
  match goal with |- context [safe_read_with_timeout 6 _ ?w1] =>
    rewrite (safe_read_prefix 6 (t0 :: tail') [] 0 rxrest
               HANDSHAKE_TIMEOUT_SEC w1 Ht);
    [ | unfold Zlength_; rewrite Htail; reflexivity | lia | lia
      | rewrite app_nil_r; reflexivity ]
  end.
  cbv iota beta. change (negb (6 =? 6)) with false. cbv iota.
  unfold ret. eexists. split; [reflexivity|].
  cbn [sent rx console].
  split; [|split; reflexivity].
  rewrite <- app_assoc. unfold socks5_request.
  replace (strlen h mod 256) with (strlen h)
    by (symmetry; apply Z.mod_small; unfold strlen in *; lia).
  reflexivity.
Qed.

(** C5.  Without credentials, against a server that answers [05 00] to the
    greeting and [05 00 00 01] with a tail of six bytes to the request,
    [socks5_connect] returns 0 and has written exactly the greeting
    [05 01 00] and then the request [05 01 00 03 len host port_hi port_lo],
    for every destination host of at most 255 characters.  For every host
    the request starts with [05 01 00 03]: the address type is 3 and the host
    travels as the string it is, a literal IP included.
    For [example.org:6667] the request is
    [05 01 00 03 0B "example.org" 1A 0B]. *)
Theorem socks5_connect_no_auth_bytes :
  (forall dest_host dest_port u p w d1 k1 d2 k2 txrest d3 d4 tail rxrest,
      has_credentials u p = false ->
      strlen dest_host <= 255 ->
      tx w = TxRoom d1 k1 :: TxRoom d2 k2 :: txrest ->
      3 <= k1 ->
      7 + strlen dest_host <= k2 ->
      0 <= d1 <= 10000 ->
      0 <= d2 <= 10000 ->
      rx w = RxData d3 [5; 0] :: RxData d4 ([5; 0; 0; 1] ++ tail) :: rxrest ->
      List.length tail = 6%nat ->
      0 <= d3 <= 10000 ->
      0 <= d4 <= 10000 ->
      exists w',
        socks5_connect dest_host dest_port u p w = Some (0, w')
        /\ sent w'
           = (sent w ++ [5; 1; 0]
              ++ ([5; 1; 0; 3; strlen dest_host] ++ bytes_of_string dest_host
                  ++ [port_hi dest_port; port_lo dest_port]))%list
        /\ rx w' = rxrest
        /\ console w' = console w)
  /\ socks5_greeting None None = [5; 1; 0]
  /\ (forall dest_host dest_port,
        firstn 4 (socks5_request dest_host dest_port) = [5; 1; 0; 3])
  /\ socks5_request "example.org" 6667
     = ([5; 1; 0; 3; 11] ++ bytes_of_string "example.org" ++ [26; 11])%list
  /\ socks5_request "198.51.100.4" 6667
     = ([5; 1; 0; 3; 12] ++ bytes_of_string "198.51.100.4" ++ [26; 11])%list.
Proof.
  split; [exact socks5_no_auth_run|].
  split; [vm_compute; reflexivity|].
  split; [intros h pt; reflexivity|].
  split; vm_compute; reflexivity.
Qed.

Lemma http_check_response_cases :
  forall buf w,
    http_check_response buf w
    = if negb (http_starts_ok buf)
      then Some (-1, err_printf ErrHttpInvalid w)
      else if negb (http_status buf =? 200)
           then Some (-1, err_printf (ErrHttpStatus (http_status buf)) w)
           else Some (0, w).
Proof.
  intros buf w. unfold http_check_response, http_starts_ok, http_status.
  destruct (negb (String.prefix "HTTP/1." (c_str (string_of_bytes buf))));
    [reflexivity|].
  destruct (negb (atoi (c_str (string_of_bytes (skipn 9 buf))) =? 200));
    reflexivity.
Qed.

Lemma http_connect_after_io :
  forall dest_host dest_port u p w w1 buf w2,
    strlen (http_request dest_host dest_port u p) <= 2047 ->
    safe_write_with_timeout
      (bytes_of_string (http_request dest_host dest_port u p))
      HANDSHAKE_TIMEOUT_SEC w
    = (Zlength_ (bytes_of_string (http_request dest_host dest_port u p)), w1) ->
    http_read_response 2047 [] w1 = Some ((true, buf), w2) ->
    http_connect dest_host dest_port u p w = http_check_response buf w2.
Proof.
  intros h pt u p w w1 buf w2 Hlen Hw Hr.
  unfold http_connect, http_request_bytes.
  replace (2048 <? strlen (http_request h pt u p)) with false
    by (symmetry; apply Z.ltb_ge; lia).
  replace (strlen (http_request h pt u p) =? 2048) with false
    by (symmetry; apply Z.eqb_neq; lia).
  unfold bind at 1, lift at 1. rewrite Hw.
  rewrite Z.eqb_refl. cbn [negb].
  unfold bind at 1. rewrite Hr. reflexivity.
Qed.

Lemma digit_char :
  forall d, 48 <= d <= 57 ->
    isdigit (ascii_of_nat (Z.to_nat d)) = true
    /\ isspace (ascii_of_nat (Z.to_nat d)) = false
    /\ Ascii.eqb (ascii_of_nat (Z.to_nat d)) NUL = false
    /\ Z.of_nat (nat_of_ascii (ascii_of_nat (Z.to_nat d))) = d.
Proof.
  intros d Hd.
  assert (H : d = 48 \/ d = 49 \/ d = 50 \/ d = 51 \/ d = 52 \/ d = 53
              \/ d = 54 \/ d = 55 \/ d = 56 \/ d = 57) by lia.
  repeat (destruct H as [H|H]; [subst d; repeat split; reflexivity|]).
  subst d. repeat split; reflexivity.
Qed.

Lemma strtol_digit :
  forall a s,
    isdigit a = true -> strtol (String a s) = digits 0 (String a s).
Proof.
  intros a s Ha. unfold strtol.
  assert (Hsp : isspace a = false).
  { unfold isdigit, isspace in *. apply andb_prop in Ha.
    destruct Ha as [H1 H2]. apply Nat.leb_le in H1.
    apply orb_false_iff. split.
    - apply Nat.eqb_neq. lia.
    - apply andb_false_iff. right. apply Nat.leb_gt. lia. }
  cbn [skip_space]. rewrite Hsp.
  assert (Hsign :
    (match String a s with
     | String "-" r => (true, r)
     | String "+" r => (false, r)
     | _ => (false, String a s)
     end) = (false, String a s)).
  { destruct a as [b0 b1 b2 b3 b4 b5 b6 b7].
    destruct b0, b1, b2, b3, b4, b5, b6, b7; try reflexivity;
      discriminate Ha. }
  rewrite Hsign. cbn [deref]. rewrite Ha.
  destruct (digits 0 (String a s)) as [v e]. reflexivity.
Qed.

Lemma digits_digit :
  forall acc a s,
    isdigit a = true ->
    digits acc (String a s)
    = digits (10 * acc + Z.of_nat (nat_of_ascii a) - 48) s.
Proof. intros acc a s Ha. cbn [digits]. rewrite Ha. reflexivity. Qed.

Lemma digits_stop :
  forall acc rest,
    match rest with
    | [] => True
    | c :: _ => is_byte c /\ ~ 48 <= c <= 57
    end ->
    fst (digits acc (c_str (string_of_bytes rest))) = acc.
Proof.
  intros acc [|c rest] H; [reflexivity|].
  destruct H as [Hb Hc]. unfold string_of_bytes. cbn [map string_of_list_ascii c_str].
  destruct (Ascii.eqb (ascii_of_nat (Z.to_nat c)) NUL); [reflexivity|].
  cbn [digits].
  replace (isdigit (ascii_of_nat (Z.to_nat c))) with false; [reflexivity|].
  symmetry. unfold isdigit. unfold is_byte in Hb.
  rewrite nat_ascii_embedding by lia.
  destruct (Nat.leb 48 (Z.to_nat c)) eqn:E1; [|reflexivity].
  apply Nat.leb_le in E1. cbn [andb]. apply Nat.leb_gt. lia.
Qed.

Lemma int_of_small :
  forall v, 0 <= v <= 999 -> int_of_long (clamp_long v) = v.
Proof.
  intros v Hv. unfold int_of_long, clamp_long.
  rewrite Z.min_r by lia. rewrite Z.max_r by lia.
  rewrite Z.mod_small by lia. lia.
Qed.

(** A status code of three digits is read as it is written. *)
Lemma http_status_three_digits :
  forall pre d1 d2 d3 rest,
    List.length pre = 9%nat ->
    48 <= d1 <= 57 -> 48 <= d2 <= 57 -> 48 <= d3 <= 57 ->
    match rest with
    | [] => True
    | c :: _ => is_byte c /\ ~ 48 <= c <= 57
    end ->
    http_status (pre ++ d1 :: d2 :: d3 :: rest)
    = 100 * (d1 - 48) + 10 * (d2 - 48) + (d3 - 48).
Proof.
  intros pre d1 d2 d3 rest Hpre H1 H2 H3 Hrest.
  unfold http_status, atoi.
  rewrite skipn_app, skipn_all2 by lia.
  replace (9 - List.length pre)%nat with O by lia. cbn [skipn app].
  destruct (digit_char d1 H1) as (A1 & _ & N1 & V1).
  destruct (digit_char d2 H2) as (A2 & _ & N2 & V2).
  destruct (digit_char d3 H3) as (A3 & _ & N3 & V3).
  unfold string_of_bytes. cbn [map string_of_list_ascii c_str].
  rewrite N1, N2, N3.
  rewrite (strtol_digit _ _ A1).
  rewrite (digits_digit _ _ _ A1), (digits_digit _ _ _ A2),
    (digits_digit _ _ _ A3).
  rewrite V1, V2, V3.
  change (string_of_list_ascii
            (map (fun z => ascii_of_nat (Z.to_nat z)) rest))
    with (string_of_bytes rest).
  rewrite (digits_stop _ rest Hrest).
  rewrite int_of_small by lia. lia.
Qed.

(** C6.  Once the request is written and the response is read, [http_connect]
    returns 0 exactly when the response starts with [HTTP/1.] and the status
    code read after it is 200; with that start and another status it returns
    -1 and reports the status.  The status code is the [int] that [atoi]
    reads at offset 9, and for a status code of three digits that is the
    code as it is written.  With user [a] and password [b] the request
    holds the header [Proxy-Authorization: Basic YTpi] and no other one
    besides [Host].  The response [HTTP/1.1 200 OK] gives 0 and a response
    with status 407 gives -1 with 407 reported. *)
Theorem http_connect_status :
  (forall dest_host dest_port u p w w1 buf w2,
      strlen (http_request dest_host dest_port u p) <= 2047 ->
      safe_write_with_timeout
        (bytes_of_string (http_request dest_host dest_port u p))
        HANDSHAKE_TIMEOUT_SEC w
      = (Zlength_ (bytes_of_string (http_request dest_host dest_port u p)),
         w1) ->
      http_read_response 2047 [] w1 = Some ((true, buf), w2) ->
      (http_connect dest_host dest_port u p w = Some (0, w2)
       <-> http_starts_ok buf = true /\ http_status buf = 200)
      /\ (http_starts_ok buf = true -> http_status buf <> 200 ->
          http_connect dest_host dest_port u p w
          = Some (-1, err_printf (ErrHttpStatus (http_status buf)) w2)))
  /\ (forall pre d1 d2 d3 rest,
        List.length pre = 9%nat ->
        48 <= d1 <= 57 -> 48 <= d2 <= 57 -> 48 <= d3 <= 57 ->
        match rest with
        | [] => True
        | c :: _ => is_byte c /\ ~ 48 <= c <= 57
        end ->
        http_status (pre ++ d1 :: d2 :: d3 :: rest)
        = 100 * (d1 - 48) + 10 * (d2 - 48) + (d3 - 48))
  /\ (forall dest_host dest_port,
        http_request dest_host dest_port (Some "a") (Some "b")
        = "CONNECT " ++ dest_host ++ ":" ++ fmt_d dest_port ++ " HTTP/1.1"
          ++ CRLF
          ++ "Host: " ++ dest_host ++ ":" ++ fmt_d dest_port ++ CRLF
          ++ ("Proxy-Authorization: Basic YTpi" ++ CRLF) ++ CRLF)
  /\ (exists w',
        http_connect "example.org" 443 (Some "a") (Some "b")
                     (http_fixture "HTTP/1.1 200 OK") = Some (0, w')
        /\ console w' = [])
  /\ (exists w',
        http_connect "example.org" 443 (Some "a") (Some "b")
                     (http_fixture "HTTP/1.1 407 Proxy Authentication Required")
        = Some (-1, w')
        /\ console w' = [ErrHttpStatus 407]).
Proof.
  split; [|split; [exact http_status_three_digits|split; [|split]]].
  - intros h pt u p w w1 buf w2 Hlen Hw Hr.
    rewrite (http_connect_after_io h pt u p w w1 buf w2 Hlen Hw Hr).
    rewrite http_check_response_cases.
    destruct (http_starts_ok buf) eqn:Hp; cbn [negb].
    + destruct (http_status buf =? 200) eqn:Hs; cbn [negb].
      * apply Z.eqb_eq in Hs. split.
        { split; [intros _; auto|intros _; reflexivity]. }
        intros _ Hne. contradiction.
      * apply Z.eqb_neq in Hs. split.
        { split; [intros H; discriminate|intros [_ H]; contradiction]. }
        intros _ _. reflexivity.
    + split.
      { split; [intros H; discriminate|intros [H _]; discriminate]. }
      intros H. discriminate.
  - intros h pt. unfold http_request. cbn [is_empty negb andb].
    reflexivity.
  - eexists. split; [vm_compute; reflexivity|reflexivity].
  - eexists. split; [vm_compute; reflexivity|reflexivity].
Qed.

(** ** Time spent on one proxy by a worker *)

Lemma timed_ret : forall {A} (a : A), timed (ret a).
Proof.
  intros A a w b w' H. apply ret_Some in H. destruct H as [_ H]. subst w'.
  apply io_cost_same; reflexivity.
Qed.

Lemma timed_undefined : forall {A}, timed (@undefined A).
Proof. intros A w a w' H. discriminate. Qed.

Lemma timed_log : forall l, timed (log l).
Proof.
  intros l w a w' H. unfold log in H. inversion H; subst.
  apply io_cost_same; reflexivity.
Qed.

Lemma timed_get_errno : timed get_errno.
Proof.
  intros w a w' H. unfold get_errno in H. inversion H; subst.
  apply io_cost_same; reflexivity.
Qed.

Lemma timed_bind :
  forall {A B} (m : M A) (k : A -> M B),
    timed m -> (forall a, timed (k a)) -> timed (bind m k).
Proof.
  intros A B m k Hm Hk w b w' H. bind_inv H.
  eapply io_cost_trans; [eapply Hm; eassumption|eapply Hk; eassumption].
Qed.

Lemma timed_read :
  forall count, timed (lift (safe_read_with_timeout count HANDSHAKE_TIMEOUT_SEC)).
Proof.
  intros count w a w' H. unfold lift in H. inversion H as [E].
  pose proof (safe_read_cost count HANDSHAKE_TIMEOUT_SEC w) as Hc.
  rewrite E in Hc. apply Hc. unfold HANDSHAKE_TIMEOUT_SEC. lia.
Qed.

Lemma timed_write :
  forall data, timed (lift (safe_write_with_timeout data HANDSHAKE_TIMEOUT_SEC)).
Proof.
  intros data w a w' H. unfold lift in H. inversion H as [E].
  pose proof (safe_write_cost data HANDSHAKE_TIMEOUT_SEC w) as Hc.
  rewrite E in Hc. apply Hc. unfold HANDSHAKE_TIMEOUT_SEC. lia.
Qed.

Ltac timed_step :=
  first
    [ apply timed_ret
    | apply timed_undefined
    | apply timed_log
    | apply timed_get_errno
    | apply timed_read
    | apply timed_write
    | apply timed_bind; [|intros ?]
    | match goal with
      | |- timed (if ?c then _ else _) => destruct c
      | |- timed (match ?x with _ => _ end) => destruct x
      | |- timed (let '(_, _) := ?x in _) => destruct x
      end ].

Lemma timed_log_io_failure : forall site, timed (log_io_failure site).
Proof. intros site. unfold log_io_failure. repeat timed_step. Qed.

Lemma timed_log_read_failure :
  forall site n, timed (log_read_failure site n).
Proof.
  intros site n. unfold log_read_failure.
  destruct (n <? 0); [apply timed_log_io_failure|apply timed_log].
Qed.

Ltac timed_tac :=
  repeat first
    [ apply timed_log_io_failure
    | apply timed_log_read_failure
    | timed_step ].

Lemma timed_socks5_drain : forall atyp, timed (socks5_drain atyp).
Proof. intros atyp. unfold socks5_drain. timed_tac. Qed.

Lemma timed_socks5_tunnel :
  forall dest_host dest_port, timed (socks5_tunnel dest_host dest_port).
Proof.
  intros h pt. unfold socks5_tunnel.
  repeat first [apply timed_socks5_drain | apply timed_log_io_failure
               | apply timed_log_read_failure | timed_step].
Qed.

Lemma timed_socks5_connect :
  forall dest_host dest_port u p, timed (socks5_connect dest_host dest_port u p).
Proof.
  intros h pt u p. unfold socks5_connect.
  repeat first [apply timed_socks5_tunnel | apply timed_log_io_failure
               | apply timed_log_read_failure | timed_step].
Qed.

Lemma timed_socks4_exchange :
  forall ip dest_port userid, timed (socks4_exchange ip dest_port userid).
Proof.
  intros ip pt uid. unfold socks4_exchange. timed_tac.
Qed.

Lemma timed_worker_cost :
  forall {A} (m : M A) w a w',
    timed m -> m w = Some (a, w') -> worker_cost 0 0 0 w w'.
Proof.
  intros A m w a w' Hm H. destruct (Hm w a w' H) as (new & Hp & Hf & Hl & Hu).
  exists new. split; [exact Hp|].
  split; [eapply Forall_impl; [|exact Hf]; intros q [Hq _]; exact Hq|].
  split; lia.
Qed.

Lemma worker_cost_seq :
  forall n1 n2 timeout_ms e1 e2 w w1 w2,
    worker_cost n1 timeout_ms e1 w w1 ->
    worker_cost n2 timeout_ms e2 w1 w2 ->
    worker_cost (n1 + n2) timeout_ms (e1 + e2) w w2.
Proof.
  intros n1 n2 tmo e1 e2 w w1 w2 (a & Ha & Fa & La & Ua) (b & Hb & Fb & Lb & Ub).
  exists (a ++ b)%list. rewrite Hb, Ha, app_assoc.
  split; [reflexivity|]. split; [apply Forall_app; auto|].
  unfold Zlength_ in *. rewrite length_app, Nat2Z.inj_add.
  split; nia.
Qed.

(** [socks4_connect] waits in [select], 10 s per poll at most, and in the
    resolver. *)
Lemma socks4_connect_cost :
  forall inet_pton4 gethostbyname dest_host dest_port userid w a w',
    socks4_connect inet_pton4 gethostbyname dest_host dest_port userid w
    = Some (a, w') ->
    worker_cost 0 0 (resolver_ms inet_pton4 gethostbyname dest_host) w w'.
Proof.
  intros ip gh h pt uid w a w' H. unfold socks4_connect in H. bind_inv H.
  assert (Hr : worker_cost 0 0 (resolver_ms ip gh h) w w0).
  { unfold socks4_resolve, resolver_ms in *.
    destruct (ip h).
    - apply ret_Some in Hm. destruct Hm as [_ Hm]. subst w0.
      exists []. rewrite app_nil_r. unfold Zlength_. simpl.
      repeat split; [constructor|lia|lia].
    - inversion Hm; subst. exists []. rewrite app_nil_r.
      unfold Zlength_. simpl. repeat split; [constructor|lia|lia]. }
  assert (Hk : worker_cost 0 0 0 w0 w').
  { destruct a0 as [addr|].
    - exact (timed_worker_cost _ _ _ _ (timed_socks4_exchange addr pt uid) H).
    - refine (timed_worker_cost _ _ _ _ _ H). timed_tac. }
  pose proof (worker_cost_seq _ _ _ _ _ _ _ _ Hr Hk) as Hc.
  replace (resolver_ms ip gh h + 0) with (resolver_ms ip gh h) in Hc by lia.
  exact Hc.
Qed.

Lemma timed_http_read_response :
  forall room buf, timed (http_read_response room buf).
Proof.
  induction room as [|k IH]; intros buf; cbn [http_read_response].
  - apply timed_ret.
  - repeat first [apply IH | apply timed_log_read_failure | timed_step].
Qed.

Lemma timed_http_check_response : forall buf, timed (http_check_response buf).
Proof. intros buf. unfold http_check_response. timed_tac. Qed.

Lemma timed_http_connect :
  forall dest_host dest_port u p, timed (http_connect dest_host dest_port u p).
Proof.
  intros h pt u p. unfold http_connect.
  repeat first [apply timed_http_read_response
               | apply timed_http_check_response
               | apply timed_log_io_failure | timed_step].
Qed.

Lemma perform_proxy_handshake_cost :
  forall inet_pton4 gethostbyname p t test_host test_port w a w',
    perform_proxy_handshake inet_pton4 gethostbyname p t test_host test_port w
    = Some (a, w') ->
    worker_cost 0 0
      (socks4_attempts [t] * resolver_ms inet_pton4 gethostbyname test_host)
      w w'.
Proof.
  intros ip gh p t h pt w a w' H.
  destruct t; cbn [perform_proxy_handshake] in H;
    unfold socks4_attempts, Zlength_;
    cbn [filter proxy_type_eqb List.length Z.of_nat];
    rewrite ?Z.mul_0_l, ?Z.mul_1_l.
  - inversion H; subst. exists []. rewrite app_nil_r.
    unfold Zlength_. simpl. repeat split; [constructor|lia|lia].
  - exact (timed_worker_cost _ _ _ _ (timed_http_connect _ _ _ _) H).
  - exact (timed_worker_cost _ _ _ _ (timed_http_connect _ _ _ _) H).
  - exact (socks4_connect_cost _ _ _ _ _ _ _ _ H).
  - exact (timed_worker_cost _ _ _ _ (timed_socks5_connect _ _ _ _) H).
Qed.

Lemma socks4_attempts_cons :
  forall t rest,
    socks4_attempts (t :: rest) = socks4_attempts [t] + socks4_attempts rest
    /\ 0 <= socks4_attempts [t] /\ 0 <= socks4_attempts rest.
Proof.
  intros t rest. unfold socks4_attempts, Zlength_. cbn [filter].
  destruct (proxy_type_eqb t PROXY_SOCKS4); cbn [List.length]; lia.
Qed.

Lemma resolver_ms_nonneg :
  forall inet_pton4 gethostbyname host,
    0 <= resolver_ms inet_pton4 gethostbyname host.
Proof.
  intros ip gh h. unfold resolver_ms. destruct (ip h); lia.
Qed.

Lemma poll_delay_nonneg : forall ev, 0 <= poll_delay ev.
Proof. intros []; simpl; lia. Qed.

(** The connect phase makes no framed I/O poll and ends at the latest
    [timeout_ms] after [start_ms]. *)
Lemma open_poll_loop_cost :
  forall evs timeout_ms start_ms w,
    let w' := snd (open_poll_loop evs timeout_ms start_ms w) in
    polls w' = polls w
    /\ clock w <= clock w'
    /\ clock w' <= Z.max (clock w) (start_ms + timeout_ms).
Proof.
  induction evs as [|ev rest IH]; intros tmo start w; cbn [open_poll_loop].
  - destruct (tmo - (clock w - start) <=? 0) eqn:E; cbn [snd]; simpl.
    + repeat split; lia.
    + apply Z.leb_gt in E. repeat split; lia.
  - destruct (tmo - (clock w - start) <=? 0) eqn:E; cbn [snd].
    { simpl. repeat split; lia. }
    apply Z.leb_gt in E.
    pose proof (poll_delay_nonneg ev) as Hd.
    destruct (tmo - (clock w - start) <? poll_delay ev) eqn:Hw; cbn [snd].
    { simpl. repeat split; lia. }
    apply Z.ltb_ge in Hw.
    destruct ev as [d hit so|d e]; cbn [poll_delay] in *.
    + destruct hit.
      * destruct so as [err|]; [destruct (negb (err =? 0))|];
          cbn [snd]; simpl; repeat split; lia.
      * specialize (IH tmo start (tick w (Z.max 0 d))).
        cbv zeta in IH. destruct IH as (H1 & H2 & H3).
        simpl in H1, H2, H3.
        repeat split; [exact H1|lia|lia].
    + destruct (is_EINTR e).
      * specialize (IH tmo start (set_errno (tick w (Z.max 0 d)) e)).
        cbv zeta in IH. destruct IH as (H1 & H2 & H3).
        simpl in H1, H2, H3.
        repeat split; [exact H1|lia|lia].
      * cbn [snd]. simpl. repeat split; lia.
Qed.

Lemma open_proxy_socket_cost :
  forall a timeout_ms w,
    let w' := snd (open_proxy_socket a timeout_ms w) in
    polls w' = polls w
    /\ clock w <= clock w'
    /\ clock w' <= clock w + Z.max 0 timeout_ms.
Proof.
  intros a tmo w. unfold open_proxy_socket.
  destruct (a_conn a) as [e|e|e| |evs]; cbn [snd]; simpl;
    try (repeat split; lia).
  pose proof (open_poll_loop_cost evs tmo (clock w) w) as H.
  destruct (open_poll_loop evs tmo (clock w) w) as [r w1].
  cbv zeta in H. simpl in *. destruct H as (H1 & H2 & H3).
  repeat split; [exact H1|lia|lia].
Qed.

Lemma try_order_cost :
  forall inet_pton4 gethostbyname order i net p timeout_ms test_host
         test_port rtt w r w',
    try_order inet_pton4 gethostbyname order i net p timeout_ms test_host
              test_port rtt w = Some (r, w') ->
    worker_cost (Zlength_ order) timeout_ms
      (socks4_attempts order * resolver_ms inet_pton4 gethostbyname test_host)
      w w'.
Proof.
  intros ip gh order.
  induction order as [|t rest IH];
    intros i net p tmo h pt rtt w r w' H; cbn [try_order] in H.
  - apply ret_Some in H. destruct H as [_ H]. subst w'.
    exists []. rewrite app_nil_r. unfold socks4_attempts, Zlength_; simpl.
    repeat split; [constructor|lia|lia].
  - bind_inv H. unfold lift in Hm. inversion Hm as [E]. clear Hm.
    pose proof (open_proxy_socket_cost (net i) tmo w) as Hc.
    rewrite E in Hc. cbv zeta in Hc. cbn [snd] in Hc.
    destruct Hc as (Hp & Hl & Hu).
    assert (Hn : Zlength_ (t :: rest) = 1 + Zlength_ rest).
    { unfold Zlength_. simpl List.length. lia. }
    destruct (socks4_attempts_cons t rest) as (Hs & Hs1 & Hs2).
    pose proof (resolver_ms_nonneg ip gh h) as Hr.
    pose proof (Zle_0_nat (List.length rest)) as Hlen.
    assert (Hopen : worker_cost 1 tmo 0 w w0).
    { exists []. rewrite app_nil_r. unfold Zlength_.
      cbn [List.length Z.of_nat].
      split; [exact Hp|]. split; [constructor|]. split; lia. }
    destruct a as [rtt1|].
    + bind_inv H.
      apply perform_proxy_handshake_cost in Hm.
      assert (Hh : worker_cost 0 tmo (socks4_attempts [t] * resolver_ms ip gh h)
                               w0 w1).
      { destruct Hm as (n1 & A1 & A2 & A3 & A4). exists n1.
        repeat split; try assumption; lia. }
      pose proof (worker_cost_seq _ _ _ _ _ _ _ _ Hopen Hh) as H1.
      destruct (a =? 0).
      * apply ret_Some in H. destruct H as [_ H]. subst w'.
        destruct H1 as (n1 & A1 & A2 & A3 & A4). exists n1.
        unfold Zlength_ in *. repeat split; try assumption. nia.
      * apply IH in H.
        pose proof (worker_cost_seq _ _ _ _ _ _ _ _ H1 H) as H2.
        destruct H2 as (n2 & A1 & A2 & A3 & A4). exists n2.
        unfold Zlength_ in *. repeat split; try assumption. nia.
    + apply ret_Some in H. destruct H as [_ H]. subst w'.
      destruct Hopen as (n1 & A1 & A2 & A3 & A4). exists n1.
      unfold Zlength_ in *. repeat split; try assumption. nia.
Qed.

Lemma attempt_order_length :
  forall p, 1 <= Zlength_ (attempt_order p) <= 3.
Proof.
  intros p. unfold attempt_order, Zlength_.
  destruct (type p); simpl; lia.
Qed.

Lemma attempt_order_socks4 :
  forall p, 0 <= socks4_attempts (attempt_order p) <= 1.
Proof.
  intros p. unfold attempt_order, socks4_attempts, Zlength_.
  destruct (type p); simpl; lia.
Qed.

(** C9, as amended.  On one proxy a worker makes at most three attempts (one
    when a type is declared).  The connect phase of an attempt lasts at most
    [timeout_ms]; every readiness poll of the handshake I/O is given 10 s,
    and the handshakes last at most 10 s per poll that they make; the one
    other call that blocks is the [gethostbyname] of the SOCKS4 attempt, made
    at most once per proxy and only for a test host that is not a dotted
    quad.  The time spent on the proxy is therefore bounded by the number of
    attempts times [timeout_ms], plus 10 s times the number of handshake
    polls, plus the time of that lookup; the code limits neither the number
    of polls nor the lookup. *)
Theorem worker_time_per_proxy :
  forall inet_pton4 gethostbyname p net timeout_ms test_host test_port s w
         r w',
    validate_proxy inet_pton4 gethostbyname p net timeout_ms test_host
                   test_port s w = Some (r, w') ->
    worker_cost (Zlength_ (attempt_order p)) timeout_ms
      (socks4_attempts (attempt_order p)
       * resolver_ms inet_pton4 gethostbyname test_host) w w'
    /\ 1 <= Zlength_ (attempt_order p) <= 3
    /\ 0 <= socks4_attempts (attempt_order p) <= 1
    /\ (type p <> PROXY_NONE -> Zlength_ (attempt_order p) = 1).
Proof.
  intros ip gh p net tmo h pt s w r w' H.
  split; [|split; [apply attempt_order_length|
                   split; [apply attempt_order_socks4|]]].
  - unfold validate_proxy in H. bind_inv H.
    apply try_order_cost in Hm.
    destruct a as [[detected keep] rtt].
    destruct (keep && negb (proxy_type_eqb detected PROXY_NONE));
      apply ret_Some in H; destruct H as [_ H]; subst w'; exact Hm.
  - intros Ht. unfold attempt_order. destruct (type p); [congruence| | | |];
      reflexivity.
Qed.

(** C9, counterexample.  With a sweep timeout of 5 s, the worker spends 63 s
    on this proxy (and keeps it): more than 5 s plus three times the 10 s of
    the handshake I/O, and more than 5 s plus three times 5 s. *)
Lemma trickling_proxy_outlasts_bound :
  let w := mkWorld [] [] [] 0 ENONE [] [] in
  let r :=
    validate_proxy (fun _ => Some [192; 0; 2; 1]) (fun _ => (0, None))
                   fresh_socks5_proxy (fun _ => trickling_socks5) 5000
                   "irc.libera.chat" 6667 stats_zero w in
  match r with
  | Some ((p', _), w') =>
      validated p' = true
      /\ clock w' - clock w = 63000
      /\ ~ clock w' - clock w <= 5000 + 3 * HANDSHAKE_TIMEOUT_MS
      /\ ~ clock w' - clock w <= 5000 + 3 * 5000
  | None => False
  end.
Proof.
  vm_compute.
  split; [reflexivity|]. split; [reflexivity|].
  split; intros H; apply H; reflexivity.
Qed.

(** * Concrete runs *)

Lemma demo_post_validation : post_validation demo_after.
Proof.
  unfold demo_after, demo_sweep.
  destruct (check_and_validate_proxies (fun _ => None) (fun _ => (0, None))
              "irc.libera.chat" 6667 5000 10 demo_net demo_pool quiet_world)
    as [[[r x'] w']|] eqn:E.
  - apply (pv_sweep _ _ _ _ _ _ _ _ _ _ _ _ E).
    vm_compute in E. inversion E. discriminate.
  - vm_compute in E. discriminate.
Defined.

Lemma framed_io_polls_use_full_timeout_witness :
  0 <= 10
  /\ io_cost (10 * 1000) (mkWorld [RxData 9000 [5]; RxData 9000 [0]]
                                  [TxRoom 0 1] [] 0 ENONE [] [])
       (snd (safe_read_with_timeout 2 10
               (mkWorld [RxData 9000 [5]; RxData 9000 [0]] [TxRoom 0 1] []
                        0 ENONE [] [])))
  /\ io_cost (10 * 1000) (mkWorld [RxData 9000 [5]; RxData 9000 [0]]
                                  [TxRoom 0 1] [] 0 ENONE [] [])
       (snd (safe_write_with_timeout [5; 1; 0] 10
               (mkWorld [RxData 9000 [5]; RxData 9000 [0]] [TxRoom 0 1] []
                        0 ENONE [] []))).
Proof.
  split; [lia|].
  apply (framed_io_polls_use_full_timeout 2 [5; 1; 0] 10
           (mkWorld [RxData 9000 [5]; RxData 9000 [0]] [TxRoom 0 1] []
                    0 ENONE [] [])).
  lia.
Defined.

Lemma next_proxy_after_validation_witness :
  post_validation demo_after
  /\ (let '(r, x') := next_proxy demo_after in
      r = next_active_spec demo_after
      /\ (forall i, r = Some i ->
           exists p, nth_error (proxy_list demo_after) i = Some p
                     /\ validated p = true /\ is_active p = true)
      /\ (r = None
          <-> forall p, In p (proxy_list demo_after) -> is_active p = false)
      /\ current_proxy x'
         = match r with Some i => Some i | None => current_proxy demo_after end
      /\ proxy_list x' = proxy_list demo_after).
Proof.
  split; [exact demo_post_validation|].
  exact (next_proxy_after_validation demo_after demo_post_validation).
Defined.

Lemma sweep_leaves_validated_proxies_witness :
  exists r x' w',
    demo_sweep = Some ((r, x'), w')
    /\ ((r = -1 /\ x' = demo_pool)
        \/ (0 <= r
            /\ Forall validated_ok (proxy_list x')
            /\ r = Zlength_ (proxy_list x')
            /\ proxy_count x' = Zlength_ (proxy_list x')))
    /\ (proxy_list demo_pool = [] -> r = -1)
    /\ (proxy_list demo_pool <> [] ->
        proxy_count demo_pool = Zlength_ (proxy_list demo_pool) -> r <> -1).
Proof.
  unfold demo_sweep.
  destruct (check_and_validate_proxies (fun _ => None) (fun _ => (0, None))
              "irc.libera.chat" 6667 5000 10 demo_net demo_pool quiet_world)
    as [[[r x'] w']|] eqn:E; [|vm_compute in E; discriminate].
  exists r, x', w'. split; [reflexivity|].
  exact (sweep_leaves_validated_proxies _ _ _ _ _ _ _ _ _ _ _ _ E).
Defined.

Lemma next_proxy_round_robin_witness :
  List.length (proxy_list demo_pool) = 3%nat
  /\ (1 <= 3)%nat
  /\ current_proxy demo_pool = None
  /\ (let '(rs, x') := next_proxy_n 3 demo_pool in
      rs = map Some (seq 0 3)
      /\ NoDup rs
      /\ (forall i, (i < 3)%nat -> In (Some i) rs)
      /\ fst (next_proxy x') = hd None rs).
Proof.
  split; [reflexivity|]. split; [lia|]. split; [reflexivity|].
  apply (next_proxy_round_robin demo_pool 3); [reflexivity|lia|reflexivity].
Defined.

Lemma worker_time_per_proxy_witness :
  exists r w',
    validate_proxy (fun _ => None) slow_resolver fresh_plain_proxy
                   socks4_only 5000 "irc.libera.chat" 6667
                   stats_zero quiet_world = Some (r, w')
    /\ clock w' - clock quiet_world = 7010
    /\ worker_cost (Zlength_ (attempt_order fresh_plain_proxy)) 5000
         (socks4_attempts (attempt_order fresh_plain_proxy)
          * resolver_ms (fun _ => None) slow_resolver "irc.libera.chat")
         quiet_world w'.
Proof.
  destruct (validate_proxy (fun _ => None) slow_resolver fresh_plain_proxy
              socks4_only 5000 "irc.libera.chat" 6667
              stats_zero quiet_world) as [[r w']|] eqn:E;
    [|vm_compute in E; discriminate].
  exists r, w'. split; [reflexivity|].
  split.
  { pose proof E as E'. vm_compute in E'. injection E' as _ Ew.
    rewrite <- Ew. reflexivity. }
  exact (proj1 (worker_time_per_proxy _ _ _ _ _ _ _ _ _ _ _ E)).
Defined.

Lemma parse_proxy_line_scenarios_witness :
  literal_resolver "198.51.100.4" "1080" AF_UNSPEC
  = Some (mkAddrinfo AF_INET (mkSockaddr 2 1080))
  /\ literal_resolver "2001:db8::1" "1080" AF_INET6
     = Some (mkAddrinfo AF_INET6 (mkSockaddr 1 1080))
  /\ parse_proxy_line literal_resolver "socks5://u:p@198.51.100.4:1080"
                      PROXY_HTTP
     = Some (mkProxy "198.51.100.4" 1080 (Some "u") (Some "p") PROXY_SOCKS5
                     PROXY_NONE false false false false 0 (mkSockaddr 2 1080)
                     sockaddr_zero)
  /\ parse_proxy_line literal_resolver "[2001:db8::1]:1080:alice:s3cret"
                      PROXY_HTTP
     = Some (mkProxy "2001:db8::1" 1080 (Some "alice") (Some "s3cret")
                     PROXY_HTTP PROXY_NONE true false false false 0
                     sockaddr_zero (mkSockaddr 1 1080))
  /\ (forall line,
        skip_space line = EmptyString
        \/ deref (skip_space line) = "#"%char ->
        parse_proxy_line literal_resolver line PROXY_HTTP = None).
Proof.
  split; [vm_compute; reflexivity|].
  split; [vm_compute; reflexivity|].
  apply (parse_proxy_line_scenarios literal_resolver PROXY_HTTP
           (mkSockaddr 2 1080) (mkSockaddr 1 1080));
    vm_compute; reflexivity.
Defined.

Lemma save_validated_proxies_lines_witness :
  Forall (fun p => type p = detected_type p)
         [mark_validated fresh_socks5_proxy PROXY_SOCKS5 12]
  /\ cat (map (fun p => canonical_line (type p) p)
              [mark_validated fresh_socks5_proxy PROXY_SOCKS5 12])
     = cat (map (fun p => canonical_line (detected_type p) p)
                [mark_validated fresh_socks5_proxy PROXY_SOCKS5 12]).
Proof.
  assert (H : Forall (fun p => type p = detected_type p)
                     [mark_validated fresh_socks5_proxy PROXY_SOCKS5 12]).
  { constructor; [reflexivity|constructor]. }
  split; [exact H|].
  exact (proj2 (save_validated_proxies_lines
                  (fun _ => true) "validated.txt"
                  (mkXaddress
                     [mark_validated fresh_socks5_proxy PROXY_SOCKS5 12]
                     None 1 PROXY_NONE None 0)) H).
Defined.

Lemma socks5_connect_no_auth_bytes_witness :
  has_credentials None None = false
  /\ strlen "example.org" <= 255
  /\ exists w',
       socks5_connect "example.org" 6667 None None socks5_fixture
       = Some (0, w')
       /\ sent w'
          = (sent socks5_fixture ++ [5; 1; 0]
             ++ ([5; 1; 0; 3; strlen "example.org"]
                 ++ bytes_of_string "example.org"
                 ++ [port_hi 6667; port_lo 6667]))%list
       /\ rx w' = []
       /\ console w' = console socks5_fixture.
Proof.
  split; [reflexivity|].
  split; [vm_compute; discriminate|].
  apply (proj1 socks5_connect_no_auth_bytes "example.org" 6667 None None
           socks5_fixture 0 4096 0 4096 [] 5 5 [0; 0; 0; 0; 0; 0] []);
    try reflexivity; try lia; vm_compute; discriminate.
Defined.

Lemma http_connect_status_witness :
  exists w1 buf w2,
    strlen (http_request "example.org" 443 (Some "a") (Some "b")) <= 2047
    /\ safe_write_with_timeout
         (bytes_of_string
            (http_request "example.org" 443 (Some "a") (Some "b")))
         HANDSHAKE_TIMEOUT_SEC (http_fixture "HTTP/1.1 200 OK")
       = (Zlength_
            (bytes_of_string
               (http_request "example.org" 443 (Some "a") (Some "b"))), w1)
    /\ http_read_response 2047 [] w1 = Some ((true, buf), w2)
    /\ (http_connect "example.org" 443 (Some "a") (Some "b")
                     (http_fixture "HTTP/1.1 200 OK") = Some (0, w2)
        <-> http_starts_ok buf = true /\ http_status buf = 200)
    /\ (http_starts_ok buf = true -> http_status buf <> 200 ->
        http_connect "example.org" 443 (Some "a") (Some "b")
                     (http_fixture "HTTP/1.1 200 OK")
        = Some (-1, err_printf (ErrHttpStatus (http_status buf)) w2)).
Proof.
  eexists. eexists. eexists.
  assert (Hlen :
    strlen (http_request "example.org" 443 (Some "a") (Some "b")) <= 2047)
    by (vm_compute; discriminate).
  split; [exact Hlen|].
  split; [vm_compute; reflexivity|].
  split; [vm_compute; reflexivity|].
  eapply (proj1 http_connect_status "example.org" 443 (Some "a") (Some "b")
            (http_fixture "HTTP/1.1 200 OK")).
  - exact Hlen.
  - vm_compute. reflexivity.
  - vm_compute. reflexivity.
Defined.

(** * Further properties of the code *)

(** ** White space and timeouts *)

Lemma skip_space_head :
  forall s, skip_space s = EmptyString \/ isspace (deref (skip_space s)) = false.
Proof.
  induction s as [|c r IH]; simpl; [auto|].
  destruct (isspace c) eqn:E; [exact IH|]. right. simpl. exact E.
Qed.

Lemma skip_space_fixed :
  forall s, isspace (deref s) = false -> skip_space s = s.
Proof.
  intros [|c r] H; simpl in *; [reflexivity|]. rewrite H. reflexivity.
Qed.

Lemma chop_space_keeps_head :
  forall s,
    isspace (deref s) = false ->
    deref (chop_space s) = deref s.
Proof.
  intros [|c r] H; simpl in *; [reflexivity|].
  destruct (chop_space r); [rewrite H|]; reflexivity.
Qed.

Lemma chop_space_last :
  forall s,
    chop_space s = EmptyString \/ isspace (str_last (chop_space s)) = false.
Proof.
  induction s as [|c r IH]; simpl; [auto|].
  destruct (chop_space r) as [|c' r'] eqn:E.
  - destruct (isspace c) eqn:Hc; [auto|]. right. simpl. exact Hc.
  - right. destruct IH as [IH|IH]; [discriminate|]. exact IH.
Qed.

Lemma chop_space_fixed :
  forall s,
    s = EmptyString \/ isspace (str_last s) = false -> chop_space s = s.
Proof.
  induction s as [|c r IH]; intros H; simpl; [reflexivity|].
  destruct H as [H|H]; [discriminate|].
  destruct r as [|c' r'].
  - simpl in *. rewrite H. reflexivity.
  - rewrite IH; [reflexivity|]. right. exact H.
Qed.

Lemma isspace_NUL : isspace NUL = false.
Proof. reflexivity. Qed.

(** X1.  [trim_whitespace] leaves a string that neither starts nor ends with
    white space, and trimming such a string again changes nothing. *)
Theorem trim_whitespace_idempotent :
  forall s,
    isspace (deref (trim_whitespace s)) = false
    /\ isspace (str_last (trim_whitespace s)) = false
    /\ trim_whitespace (trim_whitespace s) = trim_whitespace s.
Proof.
  intros s. unfold trim_whitespace.
  assert (Hh : isspace (deref (skip_space s)) = false).
  { destruct (skip_space_head s) as [E|E]; [rewrite E; reflexivity|exact E]. }
  assert (H1 : isspace (deref (chop_space (skip_space s))) = false).
  { rewrite chop_space_keeps_head; assumption. }
  assert (H2 : isspace (str_last (chop_space (skip_space s))) = false).
  { destruct (chop_space_last (skip_space s)) as [E|E];
      [rewrite E; reflexivity|exact E]. }
  split; [exact H1|]. split; [exact H2|].
  rewrite (skip_space_fixed _ H1).
  apply chop_space_fixed. right. exact H2.
Qed.

(** X2.  [clamp_timeout_ms] always returns a value between 100 and 60000
    milliseconds, leaves a value of that range as it is, and replaces a
    setting that is zero or negative by the clamped fallback. *)
Theorem clamp_timeout_ms_range :
  forall timeout_ms fallback_ms,
    PROXY_MIN_TIMEOUT_MS <= clamp_timeout_ms timeout_ms fallback_ms
      <= PROXY_MAX_TIMEOUT_MS
    /\ (PROXY_MIN_TIMEOUT_MS <= timeout_ms <= PROXY_MAX_TIMEOUT_MS ->
        clamp_timeout_ms timeout_ms fallback_ms = timeout_ms)
    /\ (timeout_ms <= 0 ->
        clamp_timeout_ms timeout_ms fallback_ms
        = Z.max PROXY_MIN_TIMEOUT_MS (Z.min PROXY_MAX_TIMEOUT_MS fallback_ms)).
Proof.
  intros t f. unfold clamp_timeout_ms, PROXY_MIN_TIMEOUT_MS,
    PROXY_MAX_TIMEOUT_MS. cbv zeta.
  assert (Hlo : forall a, (if a <? 100 then 100 else a) = Z.max 100 a).
  { intros a. destruct (a <? 100) eqn:E;
      [apply Z.ltb_lt in E|apply Z.ltb_ge in E]; lia. }
  assert (Hhi : forall a, (if 60000 <? a then 60000 else a) = Z.min 60000 a).
  { intros a. destruct (60000 <? a) eqn:E;
      [apply Z.ltb_lt in E|apply Z.ltb_ge in E]; lia. }
  rewrite Hlo, Hhi.
  destruct (t <=? 0) eqn:E0;
    [apply Z.leb_le in E0|apply Z.leb_gt in E0]; lia.
Qed.

Lemma clamp_timeout_ms_range_witness :
  PROXY_MIN_TIMEOUT_MS <= 5000 <= PROXY_MAX_TIMEOUT_MS
  /\ clamp_timeout_ms 5000 7000 = 5000
  /\ clamp_timeout_ms (-3) 7000 = 7000.
Proof.
  split; [unfold PROXY_MIN_TIMEOUT_MS, PROXY_MAX_TIMEOUT_MS; lia|].
  split.
  - apply (proj1 (proj2 (clamp_timeout_ms_range 5000 7000))).
    unfold PROXY_MIN_TIMEOUT_MS, PROXY_MAX_TIMEOUT_MS; lia.
  - rewrite (proj2 (proj2 (clamp_timeout_ms_range (-3) 7000))); [|lia].
    reflexivity.
Defined.

(** ** Line parser *)

Lemma nonempty_Some :
  forall s u, nonempty s = true -> s = Some u -> is_empty u = false.
Proof.
  intros s u H E. subst s. simpl in H. apply negb_true_iff in H. exact H.
Qed.

Lemma pick_nonempty :
  forall a b u,
    (if nonempty a then a else if nonempty b then b else None) = Some u ->
    is_empty u = false.
Proof.
  intros a b u H.
  destruct (nonempty a) eqn:Ea; [exact (nonempty_Some a u Ea H)|].
  destruct (nonempty b) eqn:Eb; [exact (nonempty_Some b u Eb H)|].
  discriminate.
Qed.

(** X3.  Every record that [parse_proxy_line] returns has a host that is not
    empty and a port between 1 and 65535; a user name or a password that is
    set is not empty; the type is the default of the caller or one of the
    four schemes; the validation fields are clear; and of the two addresses
    the one that [is_ipv6] does not select is zero. *)
Theorem parse_proxy_line_well_formed :
  forall getaddrinfo line default_type p,
    parse_proxy_line getaddrinfo line default_type = Some p ->
    is_empty (host p) = false
    /\ 1 <= port p <= 65535
    /\ (forall u, username p = Some u -> is_empty u = false)
    /\ (forall pw, password p = Some pw -> is_empty pw = false)
    /\ (type p = default_type \/ type p = PROXY_HTTP \/ type p = PROXY_HTTPS
        \/ type p = PROXY_SOCKS4 \/ type p = PROXY_SOCKS5)
    /\ detected_type p = PROXY_NONE
    /\ validated p = false /\ is_active p = false /\ has_auth p = false
    /\ last_rtt_ms p = 0
    /\ (if is_ipv6 p then addr p else addr6 p) = sockaddr_zero.
Proof.
  intros g line t p H. unfold parse_proxy_line in H.
  destruct (is_empty (c_str line)); [discriminate|].
  destruct (is_empty (trim_whitespace (line_buffer line))
            || Ascii.eqb (deref (trim_whitespace (line_buffer line))) "#");
    [discriminate|].
  cbv zeta in H.
  match type of H with
  | (if is_empty ?peeled then _ else _) = _ =>
      set (work0 := peeled) in H; destruct (is_empty work0); [discriminate|]
  end.
  match type of H with
  | match ?sch with _ => _ end = _ =>
      assert (Hty : fst sch = t \/ fst sch = PROXY_HTTP
                    \/ fst sch = PROXY_HTTPS \/ fst sch = PROXY_SOCKS4
                    \/ fst sch = PROXY_SOCKS5);
      [|destruct sch as [ptype work1]]
  end.
  { destruct (strstr work0 "://") as [i|]; [|left; reflexivity].
    destruct (split_at i 3 work0) as [scheme rest]. cbn [fst].
    repeat match goal with
           | |- context [if ?c then _ else _] => destruct c
           end; tauto. }
  cbn [fst] in Hty.
  match type of H with
  | match ?cr with _ => _ end = _ =>
      destruct cr as [[prefix_user prefix_pass] work2]
  end.
  destruct (is_empty work2); [discriminate|].
  match type of H with
  | match ?tks with _ => _ end = _ => destruct tks as [tk|]; [|discriminate]
  end.
  destruct (is_empty (host_token tk) || is_empty (port_token tk)) eqn:Eh;
    [discriminate|].
  apply orb_false_iff in Eh. destruct Eh as [Eh _].
  destruct (strtol (port_token tk)) as [pt endptr].
  destruct (negb (is_empty (skip_space endptr)) || (pt <=? 0) || (65535 <? pt))
    eqn:Ep; [discriminate|].
  apply orb_false_iff in Ep. destruct Ep as [Ep Ehi].
  apply orb_false_iff in Ep. destruct Ep as [_ Elo].
  apply Z.leb_gt in Elo. apply Z.ltb_ge in Ehi.
  match type of H with
  | match ?r with _ => _ end = _ =>
      destruct r as [[fam a]|]; [|discriminate]
  end.
  destruct fam; inversion H; subst p; cbn;
    (repeat split; try reflexivity; try assumption; try lia;
     try (intros u Hu; eapply pick_nonempty; exact Hu)).
Qed.

Lemma parse_proxy_line_well_formed_witness :
  exists p,
    parse_proxy_line literal_resolver " 192.0.2.3:1080:testuser:testpass  "
                     PROXY_HTTP = Some p
    /\ is_empty (host p) = false
    /\ 1 <= port p <= 65535
    /\ (forall u, username p = Some u -> is_empty u = false)
    /\ (forall pw, password p = Some pw -> is_empty pw = false)
    /\ (type p = PROXY_HTTP \/ type p = PROXY_HTTP \/ type p = PROXY_HTTPS
        \/ type p = PROXY_SOCKS4 \/ type p = PROXY_SOCKS5)
    /\ detected_type p = PROXY_NONE
    /\ validated p = false /\ is_active p = false /\ has_auth p = false
    /\ last_rtt_ms p = 0
    /\ (if is_ipv6 p then addr p else addr6 p) = sockaddr_zero.
Proof.
  destruct (parse_proxy_line literal_resolver
              " 192.0.2.3:1080:testuser:testpass  " PROXY_HTTP)
    as [p|] eqn:E; [|vm_compute in E; discriminate].
  exists p. split; [reflexivity|].
  exact (parse_proxy_line_well_formed _ _ _ _ E).
Defined.

Lemma line_buffer_plain :
  forall s n,
    no_eol s = true ->
    (String.length s <= n)%nat ->
    cut_crlf (str_take n (c_str s)) = s.
Proof.
  induction s as [|c r IH]; intros n Hs Hn; simpl in *.
  - destruct n; reflexivity.
  - apply andb_prop in Hs. destruct Hs as [Hc Hr].
    apply negb_true_iff in Hc. apply orb_false_iff in Hc.
    destruct Hc as [Hc Hcr]. apply orb_false_iff in Hc.
    destruct Hc as [Hnul Hlf].
    rewrite Hnul. destruct n as [|k]; [lia|]. simpl.
    rewrite Hlf, Hcr. simpl. rewrite IH; [reflexivity|exact Hr|lia].
Qed.

Lemma line_buffer_cut :
  forall s c rest n,
    no_eol s = true ->
    (String.length s <= n)%nat ->
    c = LF \/ c = CR ->
    cut_crlf (str_take n (c_str (s ++ String c rest))) = s.
Proof.
  induction s as [|d r IH]; intros c rest n Hs Hn Hc; simpl in *.
  - assert (Hnul : Ascii.eqb c NUL = false)
      by (destruct Hc; subst c; reflexivity).
    rewrite Hnul. destruct n as [|k]; [reflexivity|]. simpl.
    destruct Hc; subst c; reflexivity.
  - apply andb_prop in Hs. destruct Hs as [Hd Hr].
    apply negb_true_iff in Hd. apply orb_false_iff in Hd.
    destruct Hd as [Hd Hcr]. apply orb_false_iff in Hd.
    destruct Hd as [Hnul Hlf].
    rewrite Hnul. destruct n as [|k]; [lia|]. simpl.
    rewrite Hlf, Hcr. simpl. rewrite IH; [reflexivity|exact Hr|lia|exact Hc].
Qed.

(** X4.  What follows the first line break of a line is never read: a line
    of at most 511 characters without NUL, followed by LF or CR and by any
    text, parses as the line alone. *)
Theorem parse_proxy_line_stops_at_line_break :
  forall getaddrinfo default_type s c rest,
    no_eol s = true ->
    (String.length s <= 511)%nat ->
    c = LF \/ c = CR ->
    parse_proxy_line getaddrinfo (s ++ String c rest) default_type
    = parse_proxy_line getaddrinfo s default_type.
Proof.
  intros g t s c rest Hs Hn Hc.
  unfold parse_proxy_line, line_buffer.
  change (MAX_PROXY_LINE - 1)%nat with 511%nat.
  rewrite (line_buffer_cut s c rest 511 Hs Hn Hc).
  rewrite (line_buffer_plain s 511 Hs Hn).
  destruct s as [|d r].
  - simpl. destruct Hc; subst c; reflexivity.
  - simpl in Hs. apply andb_prop in Hs. destruct Hs as [Hd _].
    apply negb_true_iff in Hd. apply orb_false_iff in Hd.
    destruct Hd as [Hd _]. apply orb_false_iff in Hd. destruct Hd as [Hnul _].
    cbn [append c_str]. rewrite Hnul. reflexivity.
Qed.

Lemma parse_proxy_line_stops_at_line_break_witness :
  no_eol "socks5://u:p@198.51.100.4:1080" = true
  /\ (String.length "socks5://u:p@198.51.100.4:1080" <= 511)%nat
  /\ parse_proxy_line literal_resolver
       ("socks5://u:p@198.51.100.4:1080" ++ String CR "10.0.0.1:1") PROXY_NONE
     = parse_proxy_line literal_resolver "socks5://u:p@198.51.100.4:1080"
                        PROXY_NONE.
Proof.
  split; [reflexivity|]. split; [simpl; lia|].
  apply (parse_proxy_line_stops_at_line_break literal_resolver PROXY_NONE
           "socks5://u:p@198.51.100.4:1080" CR "10.0.0.1:1");
    [reflexivity|simpl; lia|right; reflexivity].
Defined.

(** ** Pool *)

(** X5.  What [load_proxies] leaves does not depend on what the pool held
    before, only on the file: loading the same file from two different
    states gives the same result and the same list, and loading it a second
    time changes nothing at all. *)
Theorem load_proxies_idempotent :
  forall getaddrinfo fopen_r filename default_type x y,
    fst (load_proxies getaddrinfo fopen_r filename default_type x)
    = fst (load_proxies getaddrinfo fopen_r filename default_type y)
    /\ (fopen_r filename <> None ->
        proxy_list (snd (load_proxies getaddrinfo fopen_r filename
                                      default_type x))
        = proxy_list (snd (load_proxies getaddrinfo fopen_r filename
                                        default_type y)))
    /\ load_proxies getaddrinfo fopen_r filename default_type
         (snd (load_proxies getaddrinfo fopen_r filename default_type x))
       = load_proxies getaddrinfo fopen_r filename default_type x.
Proof.
  intros g fo f t x y.
  assert (Hopen : forall content z,
    fo f = Some content ->
    load_proxies g fo f t z
    = let ps := parsed_proxies g t
                  (fgets_lines EmptyString (MAX_PROXY_LINE - 1) content) in
      if 0 <? Zlength_ ps
      then (Zlength_ ps,
            mkXaddress ps None (Zlength_ ps) t (Some f)
                       (proxy_loader_concurrency z))
      else (0, mkXaddress ps None (Zlength_ ps) (proxy_default_type z)
                          (proxy_file z) (proxy_loader_concurrency z))).
  { intros content z Ef. unfold load_proxies. rewrite Ef.
    rewrite load_lines_spec. cbv zeta.
    unfold del_proxy_all, set_pool.
    cbn [proxy_list current_proxy proxy_count proxy_default_type proxy_file
         proxy_loader_concurrency app].
    replace (0 + Zlength_ (parsed_proxies g t
               (fgets_lines EmptyString (MAX_PROXY_LINE - 1) content)))
      with (Zlength_ (parsed_proxies g t
               (fgets_lines EmptyString (MAX_PROXY_LINE - 1) content)))
      by lia.
    reflexivity. }
  destruct (fo f) as [content|] eqn:Ef.
  - rewrite !(Hopen content _ eq_refl). cbv zeta.
    destruct (0 <? Zlength_ (parsed_proxies g t
                (fgets_lines EmptyString (MAX_PROXY_LINE - 1) content)));
      cbn [fst snd proxy_list proxy_default_type proxy_file
           proxy_loader_concurrency];
      repeat split; reflexivity.
  - unfold load_proxies. rewrite Ef. cbn [fst snd].
    split; [reflexivity|]. split; [congruence|reflexivity].
Qed.

Lemma load_proxies_idempotent_witness :
  (fun f : string => Some ("198.51.100.4:1080" ++ LFs ++ "# none" ++ LFs))
    "proxies.txt" <> None
  /\ proxy_list
       (snd (load_proxies literal_resolver
               (fun _ => Some ("198.51.100.4:1080" ++ LFs ++ "# none" ++ LFs))
               "proxies.txt" PROXY_SOCKS5 demo_pool))
     = proxy_list
         (snd (load_proxies literal_resolver
                 (fun _ => Some ("198.51.100.4:1080" ++ LFs ++ "# none" ++ LFs))
                 "proxies.txt" PROXY_SOCKS5
                 (mkXaddress [] None 0 PROXY_NONE None 0))).
Proof.
  split; [discriminate|].
  apply (proj1 (proj2 (load_proxies_idempotent literal_resolver
           (fun _ => Some ("198.51.100.4:1080" ++ LFs ++ "# none" ++ LFs))
           "proxies.txt" PROXY_SOCKS5 demo_pool
           (mkXaddress [] None 0 PROXY_NONE None 0)))).
  discriminate.
Defined.

Lemma same_pool_eq :
  forall x y, same_pool x y -> current_proxy x = current_proxy y -> x = y.
Proof.
  intros [l1 c1 n1 t1 f1 k1] [l2 c2 n2 t2 f2 k2] (H1 & H2 & H3 & H4 & H5) H6.
  simpl in *. subst. reflexivity.
Qed.

Lemma next_proxy_frame : forall x, same_pool (snd (next_proxy x)) x.
Proof.
  intros x. unfold next_proxy, same_pool.
  destruct (proxy_list x) eqn:E; simpl; rewrite ?E; repeat split; reflexivity.
Qed.

Lemma next_proxy_n_frame : forall n x, same_pool (snd (next_proxy_n n x)) x.
Proof.
  induction n as [|n IH]; intros x; simpl.
  - unfold same_pool. repeat split; reflexivity.
  - pose proof (next_proxy_frame x) as H1.
    destruct (next_proxy x) as [r x1]. simpl in H1.
    pose proof (IH x1) as H2.
    destruct (next_proxy_n n x1) as [rs x2]. simpl in *.
    unfold same_pool in *. intuition congruence.
Qed.

Lemma next_proxy_n_app :
  forall a b x,
    next_proxy_n (a + b) x
    = let '(r1, x1) := next_proxy_n a x in
      let '(r2, x2) := next_proxy_n b x1 in
      ((r1 ++ r2)%list, x2).
Proof.
  induction a as [|a IH]; intros b x; simpl.
  - destruct (next_proxy_n b x). reflexivity.
  - destruct (next_proxy x) as [r x1]. rewrite IH.
    destruct (next_proxy_n a x1) as [r1 x2].
    destruct (next_proxy_n b x2) as [r2 x3]. reflexivity.
Qed.

(** X6.  From a cursor that designates a node, as many calls of
    [next_proxy] as the pool has proxies return every node exactly once and
    leave the pool, cursor included, in the state it was in. *)
Theorem next_proxy_full_cycle :
  forall x c,
    current_proxy x = Some c ->
    (c < List.length (proxy_list x))%nat ->
    let '(rs, x') := next_proxy_n (List.length (proxy_list x)) x in
    Permutation.Permutation rs
      (map Some (seq 0 (List.length (proxy_list x))))
    /\ x' = x.
Proof.
  intros x c Hc Hlt.
  set (k := List.length (proxy_list x)) in *.
  assert (Hne : proxy_list x <> []).
  { intro E. unfold k in Hlt. rewrite E in Hlt. simpl in Hlt. lia. }
  assert (Hk : seq 0 k = (seq 0 (S c) ++ seq (S c) (k - 1 - c))%list).
  { rewrite <- seq_app. f_equal. lia. }
  rewrite Hk.
  replace (next_proxy_n k x)
    with (next_proxy_n ((k - 1 - c) + S c) x) by (f_equal; lia).
  rewrite next_proxy_n_app.
  destruct (next_proxy_n_from_cursor (k - 1 - c) x c Hc) as (H1 & H2 & H3);
    [fold k; lia|].
  pose proof (next_proxy_n_frame (k - 1 - c) x) as Hf0.
  destruct (next_proxy_n (k - 1 - c) x) as [r1 x1].
  simpl in H1, H2, H3, Hf0.
  cbn [next_proxy_n].
  destruct (next_proxy_wraps x1 (c + (k - 1 - c))%nat H2) as [H4 H5];
    [rewrite H3; exact Hne|rewrite H3; fold k; lia|].
  pose proof (next_proxy_frame x1) as Hf1.
  destruct (next_proxy x1) as [r x2]. simpl in H4, H5, Hf1.
  destruct (next_proxy_n_from_cursor c x2 O H5) as (H6 & H7 & H8).
  { destruct Hf1 as [Hl _]. rewrite Hl, H3. fold k. lia. }
  pose proof (next_proxy_n_frame c x2) as Hf2.
  destruct (next_proxy_n c x2) as [r2 x3]. simpl in H6, H7, H8, Hf2.
  subst r1 r r2. split.
  - rewrite map_app.
    change (Some O :: map Some (seq 1 c)) with (map Some (seq 0 (S c))).
    apply Permutation.Permutation_app_comm.
  - apply same_pool_eq.
    + unfold same_pool in *. intuition congruence.
    + rewrite H7, Hc. reflexivity.
Qed.

Lemma next_proxy_full_cycle_witness :
  current_proxy (mkXaddress (proxy_list demo_pool) (Some 1%nat) 3 PROXY_NONE
                            None 0) = Some 1%nat
  /\ (1 < 3)%nat
  /\ (let '(rs, x') :=
        next_proxy_n 3 (mkXaddress (proxy_list demo_pool) (Some 1%nat) 3
                                   PROXY_NONE None 0) in
      Permutation.Permutation rs (map Some (seq 0 3))
      /\ x' = mkXaddress (proxy_list demo_pool) (Some 1%nat) 3 PROXY_NONE
                         None 0).
Proof.
  split; [reflexivity|]. split; [lia|].
  apply (next_proxy_full_cycle
           (mkXaddress (proxy_list demo_pool) (Some 1%nat) 3 PROXY_NONE None 0)
           1%nat); [reflexivity|simpl; lia].
Defined.

Lemma nth_error_remove :
  forall (l : list proxy) i j,
    nth_error (firstn i l ++ skipn (S i) l) j
    = if Nat.ltb j i then nth_error l j else nth_error l (S j).
Proof.
  induction l as [|p l IH]; intros i j.
  - rewrite firstn_nil, skipn_nil. simpl.
    destruct (Nat.ltb j i); destruct j; reflexivity.
  - destruct i as [|i].
    + simpl. reflexivity.
    + destruct j as [|j]; [reflexivity|].
      cbn [firstn skipn app nth_error]. rewrite IH.
      change (Nat.ltb (S j) (S i)) with (Nat.ltb j i). reflexivity.
Qed.

Lemma length_remove :
  forall (l : list proxy) i,
    (i < List.length l)%nat ->
    List.length (firstn i l ++ skipn (S i) l) = (List.length l - 1)%nat.
Proof.
  intros l i Hi. rewrite length_app, length_firstn, length_skipn. lia.
Qed.

(** X7.  [remove_proxy_from_list] on a node of the pool shortens the list and
    the count by one and keeps the cursor meaningful: a cursor on another
    node stays on that very node, a cursor on the removed node moves to the
    node that followed it, or to the head of what is left when it was the
    last one, and is unset only when the pool becomes empty. *)
Theorem remove_proxy_from_list_cursor :
  forall x i,
    (i < List.length (proxy_list x))%nat ->
    cursor_ok x ->
    let x' := remove_proxy_from_list i x in
    List.length (proxy_list x') = (List.length (proxy_list x) - 1)%nat
    /\ proxy_count x' = proxy_count x - 1
    /\ cursor_ok x'
    /\ (forall c, current_proxy x = Some c -> c <> i ->
        exists c', current_proxy x' = Some c'
                   /\ nth_error (proxy_list x') c'
                      = nth_error (proxy_list x) c)
    /\ (current_proxy x = Some i ->
        (S i < List.length (proxy_list x))%nat ->
        exists c', current_proxy x' = Some c'
                   /\ nth_error (proxy_list x') c'
                      = nth_error (proxy_list x) (S i))
    /\ (current_proxy x = Some i ->
        (List.length (proxy_list x) <= S i)%nat ->
        current_proxy x' = match proxy_list x' with
                           | [] => None
                           | _ :: _ => Some O
                           end)
    /\ (current_proxy x = None -> current_proxy x' = None).
Proof.
  intros x i Hi Hok. unfold remove_proxy_from_list.
  apply Nat.ltb_lt in Hi. rewrite Hi. apply Nat.ltb_lt in Hi.
  unfold set_pool, cursor_ok in *.
  cbn [proxy_list current_proxy proxy_count].
  pose proof (length_remove (proxy_list x) i Hi) as Hlen.
  split; [exact Hlen|]. split; [reflexivity|].
  destruct (current_proxy x) as [c|] eqn:Hc.
  - destruct (Nat.eqb c i) eqn:Eci.
    + apply Nat.eqb_eq in Eci. subst c.
      destruct (Nat.ltb (S i) (List.length (proxy_list x))) eqn:Es.
      * apply Nat.ltb_lt in Es.
        split; [rewrite Hlen; lia|].
        split; [intros c E Hne; inversion E; congruence|].
        split.
        { intros _ _. exists i. split; [reflexivity|].
          rewrite nth_error_remove, Nat.ltb_irrefl. reflexivity. }
        split; [intros _ Hge; lia|discriminate].
      * apply Nat.ltb_ge in Es.
        split.
        { destruct (firstn i (proxy_list x) ++ skipn (S i) (proxy_list x))%list;
            simpl; [exact I|lia]. }
        split; [intros c E Hne; inversion E; congruence|].
        split; [intros _ Hlt; lia|].
        split; [intros _ _; reflexivity|discriminate].
    + apply Nat.eqb_neq in Eci.
      destruct (Nat.ltb i c) eqn:Eic.
      * apply Nat.ltb_lt in Eic.
        split; [rewrite Hlen; lia|].
        split.
        { intros c0 E _. inversion E; subst c0. exists (c - 1)%nat.
          split; [reflexivity|]. rewrite nth_error_remove.
          replace (Nat.ltb (c - 1) i) with false
            by (symmetry; apply Nat.ltb_ge; lia).
          f_equal. lia. }
        split; [intros E; inversion E; congruence|].
        split; [intros E; inversion E; congruence|discriminate].
      * apply Nat.ltb_ge in Eic.
        split; [rewrite Hlen; lia|].
        split.
        { intros c0 E _. inversion E; subst c0. exists c.
          split; [reflexivity|]. rewrite nth_error_remove.
          replace (Nat.ltb c i) with true
            by (symmetry; apply Nat.ltb_lt; lia).
          reflexivity. }
        split; [intros E; inversion E; congruence|].
        split; [intros E; inversion E; congruence|discriminate].
  - split; [exact I|].
    split; [discriminate|]. split; [discriminate|].
    split; [discriminate|reflexivity].
Qed.

Lemma remove_proxy_from_list_cursor_witness :
  (1 < List.length (proxy_list demo_pool))%nat
  /\ cursor_ok (mkXaddress (proxy_list demo_pool) (Some 2%nat) 3 PROXY_NONE
                           None 0)
  /\ List.length
       (proxy_list
          (remove_proxy_from_list 1
             (mkXaddress (proxy_list demo_pool) (Some 2%nat) 3 PROXY_NONE
                         None 0)))
     = (3 - 1)%nat.
Proof.
  split; [simpl; lia|]. split; [unfold cursor_ok; simpl; lia|].
  apply (remove_proxy_from_list_cursor
           (mkXaddress (proxy_list demo_pool) (Some 2%nat) 3 PROXY_NONE None 0)
           1%nat); unfold cursor_ok; simpl; lia.
Defined.

(** ** Sweep *)

Lemma remove_keeps_cursor_ok :
  forall x i,
    (i < List.length (proxy_list x))%nat ->
    cursor_ok x -> cursor_ok (remove_proxy_from_list i x).
Proof.
  intros x i Hi Hok. unfold remove_proxy_from_list.
  apply Nat.ltb_lt in Hi. rewrite Hi. apply Nat.ltb_lt in Hi.
  unfold set_pool, cursor_ok in *. cbn [proxy_list current_proxy].
  pose proof (length_remove (proxy_list x) i Hi) as Hlen.
  destruct (current_proxy x) as [c|]; [|exact I].
  destruct (Nat.eqb c i) eqn:Eci.
  - apply Nat.eqb_eq in Eci. subst c.
    destruct (Nat.ltb (S i) (List.length (proxy_list x))) eqn:Es.
    + apply Nat.ltb_lt in Es. rewrite Hlen. lia.
    + destruct (firstn i (proxy_list x) ++ skipn (S i) (proxy_list x))%list;
        simpl; [exact I|lia].
  - apply Nat.eqb_neq in Eci.
    destruct (Nat.ltb i c) eqn:Eic.
    + apply Nat.ltb_lt in Eic. rewrite Hlen. lia.
    + apply Nat.ltb_ge in Eic. rewrite Hlen. lia.
Qed.

Lemma remove_unvalidated_cursor_ok :
  forall todo pre x,
    proxy_list x = (pre ++ todo)%list ->
    cursor_ok x ->
    cursor_ok (remove_unvalidated todo (List.length pre) x).
Proof.
  induction todo as [|p rest IH]; intros pre x Hl Hok; simpl; [exact Hok|].
  destruct (validated p).
  - specialize (IH (pre ++ [p])%list x).
    rewrite length_app in IH. simpl in IH.
    replace (List.length pre + 1)%nat with (S (List.length pre)) in IH by lia.
    apply IH; [rewrite <- app_assoc; exact Hl|exact Hok].
  - destruct (remove_proxy_from_list_at pre p rest x Hl) as [H1 _].
    apply IH; [exact H1|].
    apply remove_keeps_cursor_ok; [|exact Hok].
    rewrite Hl, length_app. simpl. lia.
Qed.

Lemma validate_proxy_identity :
  forall inet_pton4 gethostbyname p net timeout_ms test_host test_port s w
         p' s' w',
    validate_proxy inet_pton4 gethostbyname p net timeout_ms test_host
                   test_port s w = Some ((p', s'), w') ->
    same_identity p p'.
Proof.
  intros ip gh p net tmo h pt s w p' s' w' H.
  unfold validate_proxy in H. bind_inv H.
  destruct a as [[detected keep] rtt].
  destruct (keep && negb (proxy_type_eqb detected PROXY_NONE));
    apply ret_Some in H; destruct H as [H _]; inversion H; subst;
    unfold same_identity; simpl; repeat split; reflexivity.
Qed.

Lemma run_workers_identity :
  forall inet_pton4 gethostbyname items idx net timeout_ms test_host
         test_port s w items' s' w',
    run_workers inet_pton4 gethostbyname items idx net timeout_ms test_host
                test_port s w = Some ((items', s'), w') ->
    Forall2 same_identity items items'.
Proof.
  intros ip gh. induction items as [|p rest IH];
    intros idx net tmo h pt s w items' s' w' H; simpl in H.
  - apply ret_Some in H. destruct H as [H _]. inversion H. constructor.
  - bind_inv H. destruct a as [p1 s1].
    bind_inv H. destruct a as [rest1 s2].
    apply ret_Some in H. destruct H as [H _]. inversion H; subst.
    constructor.
    + eapply validate_proxy_identity. exact Hm.
    + eapply IH. exact Hm0.
Qed.

Lemma mark_failed_identity : forall p, same_identity p (mark_failed p).
Proof. intros p. unfold same_identity. simpl. repeat split; reflexivity. Qed.

Lemma Forall2_map_l :
  forall (f : proxy -> proxy) (R : proxy -> proxy -> Prop) l l',
    (forall p q, R (f p) q -> R p q) ->
    Forall2 R (map f l) l' -> Forall2 R l l'.
Proof.
  intros f R l. induction l as [|p l IH]; intros l' Hf H; simpl in H;
    inversion H; subst; constructor; auto.
Qed.

(** The sweep, once the first tests are passed, in one equation. *)
Lemma sweep_shape :
  forall inet_pton4 gethostbyname test_host test_port timeout_ms created net
         x w r x' w',
    check_and_validate_proxies inet_pton4 gethostbyname test_host test_port
                               timeout_ms created net x w
    = Some ((r, x'), w') ->
    r <> -1 ->
    exists items,
      Forall2 same_identity (proxy_list x) items
      /\ x' = remove_unvalidated items 0
                (set_pool x items (current_proxy x) (proxy_count x)).
Proof.
  intros ip gh h pt tmo created net x w r x' w' H Hr.
  unfold check_and_validate_proxies in H.
  destruct (proxy_list x) as [|p0 l0] eqn:Hl.
  { apply ret_Some in H. destruct H as [H _]. inversion H. congruence. }
  destruct (proxy_count x <=? 0).
  { apply ret_Some in H. destruct H as [H _]. inversion H. congruence. }
  destruct (negb (proxy_count x =? Zlength_ (p0 :: l0))); [discriminate|].
  bind_inv H. destruct a as [items s].
  apply ret_Some in H. destruct H as [H _]. inversion H; subst r x'. clear H.
  exists items. split; [|reflexivity].
  match type of Hm with
  | (if ?c then _ else _) _ = _ => destruct c
  end.
  - apply run_workers_identity in Hm.
    apply (Forall2_map_l mark_failed); [|exact Hm].
    intros p q (H1 & H2 & H3 & H4 & H5 & H6 & H7).
    unfold same_identity. simpl in *. repeat split; assumption.
  - apply ret_Some in Hm. destruct Hm as [Hm _]. inversion Hm; subst.
    change (mark_failed p0 :: map mark_failed l0)
      with (map mark_failed (p0 :: l0)).
    generalize (p0 :: l0). intros l. induction l; simpl; constructor;
      [apply mark_failed_identity|assumption].
Qed.

(** X8.  A sweep that ran adds no proxy, reorders none and rewrites neither
    host, port, credentials nor address of any: the pool it leaves is the
    old list, in the old order, with the proxies that did not pass taken
    out. *)
Theorem sweep_keeps_order_and_identity :
  forall inet_pton4 gethostbyname test_host test_port timeout_ms created net
         x w r x' w',
    check_and_validate_proxies inet_pton4 gethostbyname test_host test_port
                               timeout_ms created net x w
    = Some ((r, x'), w') ->
    r <> -1 ->
    exists items,
      Forall2 same_identity (proxy_list x) items
      /\ proxy_list x' = filter validated items.
Proof.
  intros ip gh h pt tmo created net x w r x' w' H Hr.
  destruct (sweep_shape _ _ _ _ _ _ _ _ _ _ _ _ H Hr) as (items & Hid & Hx).
  exists items. split; [exact Hid|]. subst x'.
  destruct (remove_unvalidated_spec items []
              (set_pool x items (current_proxy x) (proxy_count x)) eq_refl)
    as [H1 _].
  exact H1.
Qed.

(** X9.  A sweep never leaves a dangling cursor: when the cursor was unset or
    on a node of the pool before, it is unset or on a node of the pool
    afterwards. *)
Theorem sweep_keeps_cursor_ok :
  forall inet_pton4 gethostbyname test_host test_port timeout_ms created net
         x w r x' w',
    check_and_validate_proxies inet_pton4 gethostbyname test_host test_port
                               timeout_ms created net x w
    = Some ((r, x'), w') ->
    cursor_ok x ->
    cursor_ok x'.
Proof.
  intros ip gh h pt tmo created net x w r x' w' H Hok.
  destruct (Z.eq_dec r (-1)) as [Hr|Hr].
  - destruct (sweep_outcome _ _ _ _ _ _ _ _ _ _ _ _ H)
      as [[[_ E]|(Hpos & _)] _]; [subst x'; exact Hok|lia].
  - destruct (sweep_shape _ _ _ _ _ _ _ _ _ _ _ _ H Hr) as (items & Hid & Hx).
    subst x'.
    apply (remove_unvalidated_cursor_ok items []); [reflexivity|].
    unfold cursor_ok, set_pool in *. cbn [current_proxy proxy_list].
    destruct (current_proxy x); [|exact I].
    rewrite <- (Forall2_length Hid). exact Hok.
Qed.

Lemma sweep_keeps_order_and_identity_witness :
  exists r x' w',
    demo_sweep = Some ((r, x'), w')
    /\ r <> -1
    /\ exists items,
         Forall2 same_identity (proxy_list demo_pool) items
         /\ proxy_list x' = filter validated items.
Proof.
  unfold demo_sweep.
  destruct (check_and_validate_proxies (fun _ => None) (fun _ => (0, None))
              "irc.libera.chat" 6667 5000 10 demo_net demo_pool quiet_world)
    as [[[r x'] w']|] eqn:E; [|vm_compute in E; discriminate].
  assert (Hr : r <> -1).
  { vm_compute in E. inversion E. discriminate. }
  exists r, x', w'. split; [reflexivity|]. split; [exact Hr|].
  exact (sweep_keeps_order_and_identity _ _ _ _ _ _ _ _ _ _ _ _ E Hr).
Defined.

Lemma sweep_keeps_cursor_ok_witness :
  exists r x' w',
    demo_sweep = Some ((r, x'), w')
    /\ cursor_ok demo_pool
    /\ cursor_ok x'.
Proof.
  unfold demo_sweep.
  destruct (check_and_validate_proxies (fun _ => None) (fun _ => (0, None))
              "irc.libera.chat" 6667 5000 10 demo_net demo_pool quiet_world)
    as [[[r x'] w']|] eqn:E; [|vm_compute in E; discriminate].
  exists r, x', w'. split; [reflexivity|].
  assert (Hok : cursor_ok demo_pool) by exact I.
  split; [exact Hok|].
  exact (sweep_keeps_cursor_ok _ _ _ _ _ _ _ _ _ _ _ _ E Hok).
Defined.

Lemma open_poll_loop_rtt :
  forall evs timeout_ms start_ms w rtt w',
    clock w - start_ms >= 0 ->
    open_poll_loop evs timeout_ms start_ms w = (Some rtt, w') ->
    rtt = clock w' - start_ms /\ 0 <= rtt <= timeout_ms.
Proof.
  induction evs as [|ev rest IH]; intros tmo start w rtt w' Hs H;
    cbn [open_poll_loop] in H.
  - destruct (tmo - (clock w - start) <=? 0); discriminate.
  - destruct (tmo - (clock w - start) <=? 0) eqn:E; [discriminate|].
    apply Z.leb_gt in E.
    pose proof (poll_delay_nonneg ev) as Hd.
    destruct (tmo - (clock w - start) <? poll_delay ev) eqn:Hw;
      [discriminate|].
    apply Z.ltb_ge in Hw.
    destruct ev as [d hit so|d e]; cbn [poll_delay] in *.
    + destruct hit.
      * destruct so as [err|]; [|discriminate].
        destruct (negb (err =? 0)); [discriminate|].
        inversion H; subst. simpl. split; [reflexivity|lia].
      * apply IH in H; [exact H|simpl; lia].
    + destruct (is_EINTR e); [|discriminate].
      apply IH in H; [exact H|simpl; lia].
Qed.

Lemma open_proxy_socket_within_timeout_aux :
  forall a timeout_ms w,
    let '(r, w') := open_proxy_socket a timeout_ms w in
    forall rtt, r = Some rtt -> 0 <= rtt <= Z.max 0 timeout_ms.
Proof.
  intros a tmo w. unfold open_proxy_socket.
  destruct (a_conn a) as [e|e|e| |evs]; try (intros rtt Hr; discriminate).
  - intros rtt Hr. inversion Hr. lia.
  - destruct (open_poll_loop evs tmo (clock w) w) as [r1 w1] eqn:El.
    intros rtt Hr. subst r1.
    apply open_poll_loop_rtt in El; [|lia]. lia.
Qed.

(** X10.  [open_proxy_socket] keeps to its timeout: whether it succeeds or
    not it lasts at most [timeout_ms], it makes no poll of the framed I/O,
    and the round trip time it reports on success is the time it took,
    between 0 and [timeout_ms]. *)
Theorem open_proxy_socket_within_timeout :
  forall a timeout_ms w,
    let '(r, w') := open_proxy_socket a timeout_ms w in
    polls w' = polls w
    /\ clock w <= clock w' <= clock w + Z.max 0 timeout_ms
    /\ (forall rtt, r = Some rtt ->
        rtt = clock w' - clock w
        /\ 0 <= rtt <= Z.max 0 timeout_ms
        /\ rx w' = a_rx a /\ tx w' = a_tx a /\ sent w' = []).
Proof.
  intros a tmo w.
  pose proof (open_proxy_socket_cost a tmo w) as Hc.
  destruct (open_proxy_socket a tmo w) as [r w'] eqn:E.
  cbv zeta in Hc. cbn [snd] in Hc. destruct Hc as (Hp & Hl & Hu).
  split; [exact Hp|]. split; [lia|].
  intros rtt Hr. subst r. unfold open_proxy_socket in E.
  destruct (a_conn a) as [e|e|e| |evs]; try discriminate.
  - inversion E; subst. simpl. repeat split; try reflexivity; lia.
  - destruct (open_poll_loop evs tmo (clock w) w) as [r1 w1] eqn:El.
    inversion E; subst.
    apply open_poll_loop_rtt in El; [|lia].
    simpl. repeat split; try reflexivity; lia.
Qed.

Lemma try_order_result :
  forall inet_pton4 gethostbyname order i net p timeout_ms test_host
         test_port rtt0 w detected keep rtt w',
    try_order inet_pton4 gethostbyname order i net p timeout_ms test_host
              test_port rtt0 w = Some ((detected, keep, rtt), w') ->
    (keep = true -> In detected order /\ 0 <= rtt <= Z.max 0 timeout_ms)
    /\ (keep = false -> detected = PROXY_NONE).
Proof.
  intros ip gh order.
  induction order as [|t rest IH];
    intros i net p tmo h pt rtt0 w detected keep rtt w' H;
    cbn [try_order] in H.
  - apply ret_Some in H. destruct H as [H _]. inversion H; subst.
    split; [discriminate|reflexivity].
  - bind_inv H. unfold lift in Hm. inversion Hm as [E]. clear Hm.
    pose proof (open_proxy_socket_within_timeout_aux (net i) tmo w) as Hs.
    rewrite E in Hs.
    destruct a as [rtt1|].
    + bind_inv H. destruct (a =? 0).
      * apply ret_Some in H. destruct H as [H _]. inversion H; subst.
        split; [|discriminate]. intros _. split; [left; reflexivity|].
        apply (Hs rtt eq_refl).
      * apply IH in H. destruct H as [H1 H2]. split; [|exact H2].
        intros Hk. destruct (H1 Hk) as [Hin Hrtt]. split; [right|]; assumption.
    + apply ret_Some in H. destruct H as [H _]. inversion H; subst.
      split; [discriminate|reflexivity].
Qed.

Lemma attempt_order_no_NONE :
  forall p t, In t (attempt_order p) -> t <> PROXY_NONE.
Proof.
  intros p t H. unfold attempt_order in H.
  destruct (type p) eqn:E; simpl in H; intuition (subst; discriminate).
Qed.

(** X11.  What a worker records on a proxy.  Host, port, credentials and
    address are never touched.  A proxy that passes gets a detected type
    taken from its attempt order (its declared type when it has one, else
    SOCKS5, SOCKS4 or HTTP), the same value in [type], [has_auth] set exactly
    when both credentials are present and not empty, and the connect time of
    the successful attempt, which lies between 0 and the sweep timeout.  A
    proxy that fails gets every validation field cleared and keeps its
    type. *)
Theorem validate_proxy_record :
  forall inet_pton4 gethostbyname p net timeout_ms test_host test_port s w
         p' s' w',
    validate_proxy inet_pton4 gethostbyname p net timeout_ms test_host
                   test_port s w = Some ((p', s'), w') ->
    same_identity p p'
    /\ (validated p' = true ->
        In (detected_type p') (attempt_order p)
        /\ type p' = detected_type p'
        /\ is_active p' = true
        /\ has_auth p' = has_credentials (username p) (password p)
        /\ 0 <= last_rtt_ms p' <= Z.max 0 timeout_ms)
    /\ (validated p' = false -> p' = mark_failed p)
    /\ (type p <> PROXY_NONE -> validated p' = true -> type p' = type p).
Proof.
  intros ip gh p net tmo h pt s w p' s' w' H.
  split; [eapply validate_proxy_identity; exact H|].
  unfold validate_proxy in H. bind_inv H.
  destruct a as [[detected keep] rtt].
  apply try_order_result in Hm. destruct Hm as [Hk _].
  destruct (keep && negb (proxy_type_eqb detected PROXY_NONE)) eqn:E;
    apply ret_Some in H; destruct H as [H _]; inversion H; subst p' s'.
  - apply andb_prop in E. destruct E as [E _]. destruct (Hk E) as [Hin Hrtt].
    split; [intros _; simpl; repeat split; try assumption; lia|].
    split; [simpl; discriminate|].
    intros Hty _. simpl. unfold attempt_order in Hin.
    destruct (type p); simpl in Hin; intuition congruence.
  - split; [simpl; discriminate|].
    split; [reflexivity|]. simpl. discriminate.
Qed.

Lemma validate_proxy_record_witness :
  exists r w',
    validate_proxy (fun _ => None) (fun _ => (0, None)) fresh_socks5_proxy
                   (fun _ => granting_socks5) 5000 "irc.libera.chat" 6667
                   stats_zero quiet_world = Some (r, w')
    /\ same_identity fresh_socks5_proxy (fst r)
    /\ (type fresh_socks5_proxy <> PROXY_NONE -> validated (fst r) = true ->
        type (fst r) = type fresh_socks5_proxy).
Proof.
  destruct (validate_proxy (fun _ => None) (fun _ => (0, None)) fresh_socks5_proxy
              (fun _ => granting_socks5) 5000 "irc.libera.chat" 6667
              stats_zero quiet_world) as [[[p' s'] w']|] eqn:E;
    [|vm_compute in E; discriminate].
  exists (p', s'), w'. split; [reflexivity|].
  pose proof (validate_proxy_record _ _ _ _ _ _ _ _ _ _ _ _ E) as H.
  cbn [fst]. split; [apply H|apply H].
Defined.

Lemma validate_proxy_counts :
  forall inet_pton4 gethostbyname p net timeout_ms test_host test_port s w
         p' s' w',
    validate_proxy inet_pton4 gethostbyname p net timeout_ms test_host
                   test_port s w = Some ((p', s'), w') ->
    working s' + removed s' = working s + removed s + 1
    /\ socks5_count s' + socks4_count s' + http_count s' - working s'
       = socks5_count s + socks4_count s + http_count s - working s
    /\ working s <= working s' /\ removed s <= removed s'.
Proof.
  intros ip gh p net tmo h pt s w p' s' w' H.
  unfold validate_proxy in H. bind_inv H.
  destruct a as [[detected keep] rtt].
  destruct (keep && negb (proxy_type_eqb detected PROXY_NONE)) eqn:E;
    apply ret_Some in H; destruct H as [H _]; inversion H; subst p' s'.
  - apply andb_prop in E. destruct E as [_ E].
    destruct detected; try discriminate; simpl; lia.
  - simpl. lia.
Qed.

(** X12.  The counters of the summary add up: after the workers have gone
    through [n] proxies, working plus removed has grown by [n], and the three
    protocol counters together have grown by as much as working. *)
Theorem run_workers_counters :
  forall inet_pton4 gethostbyname items idx net timeout_ms test_host
         test_port s w items' s' w',
    run_workers inet_pton4 gethostbyname items idx net timeout_ms test_host
                test_port s w = Some ((items', s'), w') ->
    working s' + removed s' = working s + removed s + Zlength_ items
    /\ socks5_count s' + socks4_count s' + http_count s' - working s'
       = socks5_count s + socks4_count s + http_count s - working s
    /\ removed s' - removed s
       = Zlength_ (filter (fun p => negb (validated p)) items').
Proof.
  intros ip gh. induction items as [|p rest IH];
    intros idx net tmo h pt s w items' s' w' H; simpl in H.
  - apply ret_Some in H. destruct H as [H _]. inversion H; subst.
    unfold Zlength_; simpl. lia.
  - bind_inv H. destruct a as [p1 s1].
    bind_inv H. destruct a as [rest1 s2].
    apply ret_Some in H. destruct H as [H _]. inversion H; subst.
    pose proof (validate_proxy_counts _ _ _ _ _ _ _ _ _ _ _ _ Hm)
      as (Ha & Hb & Hc & Hd).
    pose proof (validate_proxy_outcome _ _ _ _ _ _ _ _ _ _ _ _ Hm)
      as [_ Hw].
    apply IH in Hm0. destruct Hm0 as (He & Hf & Hg).
    unfold Zlength_ in *. cbn [filter]. simpl List.length.
    destruct (validated p1); cbn [negb List.length];
      rewrite ?Nat2Z.inj_succ; lia.
Qed.

Lemma run_workers_counters_witness :
  exists r w',
    run_workers (fun _ => None) (fun _ => (0, None))
                (map mark_failed (proxy_list demo_pool)) 0 demo_net 5000
                "irc.libera.chat" 6667 stats_zero quiet_world = Some (r, w')
    /\ working (snd r) + removed (snd r)
       = working stats_zero + removed stats_zero
         + Zlength_ (map mark_failed (proxy_list demo_pool)).
Proof.
  destruct (run_workers (fun _ => None) (fun _ => (0, None))
              (map mark_failed (proxy_list demo_pool)) 0 demo_net 5000
              "irc.libera.chat" 6667 stats_zero quiet_world)
    as [[[items' s'] w']|] eqn:E; [|vm_compute in E; discriminate].
  exists (items', s'), w'. split; [reflexivity|].
  exact (proj1 (run_workers_counters _ _ _ _ _ _ _ _ _ _ _ _ _ E)).
Defined.

(** ** Framed I/O: what is read and what is written *)

Lemma rx_bytes_later : forall t ev, rx_bytes (rx_later t ev) = rx_bytes ev.
Proof. intros t []; reflexivity. Qed.

Lemma firstn_S_nil :
  forall (l : list Z) k, firstn (S k) l = [] -> l = [].
Proof. intros [|a l] k H; [reflexivity|discriminate]. Qed.

Ltac fin :=
  repeat split; try reflexivity; try assumption; try lia;
  try (left; reflexivity); try (right; reflexivity); try (right; assumption).

Lemma safe_read_loop_stream :
  forall evs count t total buf w,
    total = Zlength_ buf ->
    let '(n, buf', evs', w') := safe_read_loop evs count t total buf w in
    (buf ++ rx_stream evs = buf' ++ rx_stream evs')%list
    /\ Zlength_ buf' <= Z.max count total
    /\ (n = -1 \/ n = Zlength_ buf')
    /\ (count <= 0 -> n = total /\ buf' = buf)
    /\ tx w' = tx w /\ sent w' = sent w /\ console w' = console w.
Proof.
  induction evs as [|ev rest IH]; intros count t total buf w Ht;
    cbn [safe_read_loop].
  - destruct (count <=? total) eqn:Ec.
    + apply Z.leb_le in Ec. subst total.
      fin.
    + apply Z.leb_gt in Ec. pose proof (Zle_0_nat (List.length buf)).
      unfold Zlength_ in *.
      destruct (t <? 0); simpl; fin.
  - destruct (count <=? total) eqn:Ec.
    + apply Z.leb_le in Ec. subst total.
      fin.
    + apply Z.leb_gt in Ec.
      assert (Hb : 0 <= Zlength_ buf) by (unfold Zlength_; lia).
      destruct (t <? 0).
      { simpl. fin. }
      destruct (t * 1000 <? rx_delay ev).
      { cbn [rx_stream flat_map]. rewrite rx_bytes_later. simpl.
        fin. }
      destruct ev as [d bytes|d|d e|d e].
      * destruct (firstn (Z.to_nat (count - total)) bytes) as [|b got] eqn:Hg.
        { replace (Z.to_nat (count - total))
            with (S (Z.to_nat (count - total) - 1)) in Hg by lia.
          apply firstn_S_nil in Hg. subst bytes. simpl.
          destruct (0 <? total); fin. }
        assert (Hlen : Zlength_ (b :: got) <= count - total).
        { rewrite <- Hg. unfold Zlength_. rewrite length_firstn. lia. }
        assert (Hsplit :
          bytes = ((b :: got) ++ skipn (Z.to_nat (count - total)) bytes)%list).
        { rewrite <- Hg. symmetry. apply firstn_skipn. }
        destruct (skipn (Z.to_nat (count - total)) bytes) as [|b' more] eqn:Hk.
        -- specialize (IH count t (total + Zlength_ (b :: got))
                          (buf ++ b :: got)%list
                          (tick (note_poll w (t * 1000))
                                (rx_delay (RxData d bytes)))).
           destruct (safe_read_loop rest count t
                       (total + Zlength_ (b :: got)) (buf ++ b :: got)%list
                       (tick (note_poll w (t * 1000))
                             (rx_delay (RxData d bytes))))
             as [[[n buf'] evs'] w'].
           destruct IH as (H1 & H2 & H3 & H4 & H5 & H6 & H7).
           { unfold Zlength_ in *. rewrite length_app, Nat2Z.inj_add. lia. }
           cbn [rx_stream flat_map rx_bytes].
           rewrite Hsplit, app_nil_r.
           split; [rewrite <- H1, <- app_assoc; reflexivity|].
           split; [lia|]. split; [exact H3|].
           split; [intros Hc; lia|].
           simpl in H5, H6, H7. auto.
        -- cbn [rx_stream flat_map rx_bytes]. rewrite Hsplit at 1.
           split; [rewrite <- !app_assoc; reflexivity|].
           unfold Zlength_ in *. rewrite length_app, Nat2Z.inj_add.
           split; [lia|]. split; [right; lia|].
           split; [intros Hc; lia|]. simpl. auto.
      * simpl. destruct (0 <? total); fin.
      * destruct (is_EINTR e).
        -- specialize (IH count t total buf
                          (set_errno
                             (tick (note_poll w (t * 1000))
                                   (rx_delay (RxSelectFail d e))) e) Ht).
           destruct (safe_read_loop rest count t total buf _)
             as [[[n buf'] evs'] w'].
           destruct IH as (H1 & H2 & H3 & H4 & H5 & H6 & H7).
           simpl in *. auto 10.
        -- simpl. fin.
      * destruct (is_EAGAIN e).
        -- specialize (IH count t total buf
                          (set_errno
                             (tick (note_poll w (t * 1000))
                                   (rx_delay (RxReadFail d e))) e) Ht).
           destruct (safe_read_loop rest count t total buf _)
             as [[[n buf'] evs'] w'].
           destruct IH as (H1 & H2 & H3 & H4 & H5 & H6 & H7).
           simpl in *. auto 10.
        -- simpl. fin.
Qed.

(** X13.  [safe_read_with_timeout] loses no byte and invents none: the bytes
    it returns followed by the bytes left in the socket are the bytes that
    were in the socket.  It never returns more than [count] bytes, and its
    result is -1 or the number of bytes in the buffer; it writes nothing. *)
Theorem safe_read_keeps_the_stream :
  forall count timeout_sec w,
    let '((n, buf), w') := safe_read_with_timeout count timeout_sec w in
    rx_stream (rx w) = (buf ++ rx_stream (rx w'))%list
    /\ Zlength_ buf <= Z.max 0 count
    /\ (n = -1 \/ n = Zlength_ buf)
    /\ tx w' = tx w /\ sent w' = sent w /\ console w' = console w.
Proof.
  intros count t w. unfold safe_read_with_timeout.
  pose proof (safe_read_loop_stream (rx w) count t 0 [] w eq_refl) as H.
  destruct (safe_read_loop (rx w) count t 0 [] w) as [[[n buf] evs] w'].
  destruct H as (H1 & H2 & H3 & H4 & H5 & H6 & H7).
  simpl in H1. simpl.
  repeat split; try assumption. lia.
Qed.

Lemma firstn_firstn_skipn :
  forall (l : list Z) a b,
    (firstn a l ++ firstn b (skipn a l))%list = firstn (a + b) l.
Proof.
  induction l as [|x l IH]; intros a b.
  - rewrite skipn_nil, !firstn_nil. reflexivity.
  - destruct a as [|a]; [reflexivity|]. simpl. rewrite IH. reflexivity.
Qed.

Lemma skipn_skipn_add :
  forall (l : list Z) a b, skipn b (skipn a l) = skipn (a + b) l.
Proof.
  induction l as [|x l IH]; intros a b.
  - rewrite !skipn_nil. reflexivity.
  - destruct a as [|a]; [reflexivity|]. simpl. apply IH.
Qed.

Lemma safe_write_loop_sent :
  forall evs data t total w,
    0 <= total <= Zlength_ data ->
    let '(n, evs', w') := safe_write_loop evs data t total w in
    (n = -1 \/ n = Zlength_ data)
    /\ (exists k,
          (Z.to_nat total <= k <= List.length data)%nat
          /\ sent w'
             = (sent w ++ firstn (k - Z.to_nat total)
                                 (skipn (Z.to_nat total) data))%list
          /\ (n <> -1 -> k = List.length data))
    /\ rx w' = rx w /\ console w' = console w.
Proof.
  induction evs as [|ev rest IH]; intros data t total w Ht;
    cbn [safe_write_loop].
  - destruct (Zlength_ data <=? total) eqn:Ec.
    + apply Z.leb_le in Ec. split; [right; lia|].
      split; [|split; reflexivity].
      exists (Z.to_nat total). rewrite Nat.sub_diag, firstn_0, app_nil_r.
      unfold Zlength_ in *. repeat split; try lia.
    + apply Z.leb_gt in Ec.
      assert (Hstay : exists k,
        (Z.to_nat total <= k <= List.length data)%nat
        /\ sent w = (sent w ++ firstn (k - Z.to_nat total)
                                      (skipn (Z.to_nat total) data))%list
        /\ (-1 <> -1 -> k = List.length data)).
      { exists (Z.to_nat total). rewrite Nat.sub_diag, firstn_0, app_nil_r.
        unfold Zlength_ in *. repeat split; try lia. }
      destruct (t <? 0); simpl; (split; [left; reflexivity|]);
        (split; [exact Hstay|split; reflexivity]).
  - assert (Hstay : exists k,
      (Z.to_nat total <= k <= List.length data)%nat
      /\ sent w = (sent w ++ firstn (k - Z.to_nat total)
                                    (skipn (Z.to_nat total) data))%list
      /\ (total <> -1 -> Zlength_ data <= total -> k = List.length data)).
    { exists (Z.to_nat total). rewrite Nat.sub_diag, firstn_0, app_nil_r.
      unfold Zlength_ in *. repeat split; try lia. }
    destruct (Zlength_ data <=? total) eqn:Ec.
    + apply Z.leb_le in Ec. split; [right; lia|].
      split; [|split; reflexivity].
      destruct Hstay as (k & H1 & H2 & H3). exists k.
      split; [exact H1|]. split; [exact H2|]. intros Hn. apply H3; lia.
    + apply Z.leb_gt in Ec.
      assert (Hfail : exists k,
        (Z.to_nat total <= k <= List.length data)%nat
        /\ sent w = (sent w ++ firstn (k - Z.to_nat total)
                                      (skipn (Z.to_nat total) data))%list
        /\ (-1 <> -1 -> k = List.length data)).
      { destruct Hstay as (k & H1 & H2 & _). exists k.
        split; [exact H1|]. split; [exact H2|]. intros Hn. congruence. }
      destruct (t <? 0).
      { simpl. split; [left; reflexivity|].
        split; [exact Hfail|split; reflexivity]. }
      destruct (t * 1000 <? tx_delay ev).
      { simpl. split; [left; reflexivity|].
        split; [exact Hfail|split; reflexivity]. }
      destruct ev as [d room|d e|d e].
      * destruct (Z.min room (Zlength_ data - total) <=? 0) eqn:En.
        { simpl. split; [left; reflexivity|].
          split; [exact Hfail|split; reflexivity]. }
        apply Z.leb_gt in En.
        set (n := Z.min room (Zlength_ data - total)) in *.
        specialize (IH data t (total + n)
                       (push_sent
                          (tick (note_poll w (t * 1000))
                                (tx_delay (TxRoom d room)))
                          (firstn (Z.to_nat n)
                                  (skipn (Z.to_nat total) data)))).
        destruct (safe_write_loop rest data t (total + n) _)
          as [[r evs'] w'].
        destruct IH as (H1 & (k & Hk & Hs & Hd) & H3 & H4); [lia|].
        split; [exact H1|]. split; [|simpl in H3, H4; auto].
        exists k. split; [lia|]. split; [|exact Hd].
        rewrite Hs. cbn [sent push_sent]. rewrite <- app_assoc. f_equal.
        replace (Z.to_nat (total + n))
          with (Z.to_nat total + Z.to_nat n)%nat by lia.
        rewrite <- skipn_skipn_add.
        rewrite firstn_firstn_skipn. f_equal. lia.
      * destruct (is_EINTR e).
        -- specialize (IH data t total
                          (set_errno
                             (tick (note_poll w (t * 1000))
                                   (tx_delay (TxSelectFail d e))) e) Ht).
           destruct (safe_write_loop rest data t total _) as [[r evs'] w'].
           simpl in IH. exact IH.
        -- simpl. split; [left; reflexivity|].
           split; [exact Hfail|split; reflexivity].
      * destruct (is_EAGAIN e).
        -- specialize (IH data t total
                          (set_errno
                             (tick (note_poll w (t * 1000))
                                   (tx_delay (TxWriteFail d e))) e) Ht).
           destruct (safe_write_loop rest data t total _) as [[r evs'] w'].
           simpl in IH. exact IH.
        -- simpl. split; [left; reflexivity|].
           split; [exact Hfail|split; reflexivity].
Qed.

(** X14.  [safe_write_with_timeout] returns -1 or the full count, never a
    short count.  What it has handed to the socket is always a prefix of the
    data, in order, and the whole data when it returns the count; it reads
    nothing. *)
Theorem safe_write_sends_a_prefix :
  forall data timeout_sec w,
    let '(n, w') := safe_write_with_timeout data timeout_sec w in
    (n = -1 \/ n = Zlength_ data)
    /\ (exists k, sent w' = (sent w ++ firstn k data)%list)
    /\ (n = Zlength_ data -> sent w' = (sent w ++ data)%list)
    /\ rx w' = rx w /\ console w' = console w.
Proof.
  intros data t w. unfold safe_write_with_timeout.
  pose proof (safe_write_loop_sent (tx w) data t 0 w) as H.
  destruct (safe_write_loop (tx w) data t 0 w) as [[n evs] w'].
  destruct H as (H1 & (k & Hk & Hs & Hd) & H3 & H4).
  { unfold Zlength_. lia. }
  simpl in Hs. rewrite Nat.sub_0_r in Hs.
  split; [exact H1|]. cbn [sent rx console set_tx].
  split; [exists k; exact Hs|].
  split; [|auto].
  intros Hn. rewrite Hs. rewrite Hd; [rewrite firstn_all; reflexivity|].
  unfold Zlength_ in Hn. lia.
Qed.

Lemma safe_write_sends_a_prefix_witness :
  fst (safe_write_with_timeout [5; 1; 0] 10
         (mkWorld [] [TxRoom 3 2; TxRoom 4 8] [] 0 ENONE [] []))
  = Zlength_ [5; 1; 0]
  /\ sent (snd (safe_write_with_timeout [5; 1; 0] 10
                  (mkWorld [] [TxRoom 3 2; TxRoom 4 8] [] 0 ENONE [] [])))
     = ([] ++ [5; 1; 0])%list.
Proof.
  assert (E : fst (safe_write_with_timeout [5; 1; 0] 10
                     (mkWorld [] [TxRoom 3 2; TxRoom 4 8] [] 0 ENONE [] []))
              = Zlength_ [5; 1; 0]) by (vm_compute; reflexivity).
  split; [exact E|].
  pose proof (safe_write_sends_a_prefix [5; 1; 0] 10
                (mkWorld [] [TxRoom 3 2; TxRoom 4 8] [] 0 ENONE [] [])) as H.
  destruct (safe_write_with_timeout [5; 1; 0] 10
              (mkWorld [] [TxRoom 3 2; TxRoom 4 8] [] 0 ENONE [] []))
    as [n w'].
  cbn [fst snd] in *. apply H. exact E.
Defined.

Lemma open_proxy_socket_within_timeout_witness :
  let '(r, w') :=
    open_proxy_socket
      (mkAttempt (ConnInProgress [PollFail 40 EINTR; PollReady 80 true (Some 0)])
                 [] [])
      500 quiet_world in
  r = Some 120
  /\ (forall rtt, r = Some rtt ->
      rtt = clock w' - clock quiet_world
      /\ 0 <= rtt <= Z.max 0 500
      /\ rx w' = [] /\ tx w' = [] /\ sent w' = []).
Proof.
  pose proof (open_proxy_socket_within_timeout
    (mkAttempt (ConnInProgress [PollFail 40 EINTR; PollReady 80 true (Some 0)])
               [] []) 500 quiet_world) as H.
  destruct (open_proxy_socket
    (mkAttempt (ConnInProgress [PollFail 40 EINTR; PollReady 80 true (Some 0)])
               [] []) 500 quiet_world) as [r w'] eqn:E.
  split; [vm_compute in E; inversion E; reflexivity|].
  apply H.
Defined.

(** ** Handshakes *)

Lemma handshake_timeout_nonneg : 0 <= HANDSHAKE_TIMEOUT_SEC.
Proof. unfold HANDSHAKE_TIMEOUT_SEC. lia. Qed.

Lemma socks5_greeting_pos :
  forall u p, 0 < Zlength_ (socks5_greeting u p) <= 4.
Proof.
  intros u p. unfold socks5_greeting, Zlength_.
  destruct (has_credentials u p); simpl; lia.
Qed.

(** X15.  When the server answers the greeting with a version other than 5,
    or with a method other than 0 and 2 (0xFF, no acceptable method,
    included), [socks5_connect] returns -1, reports it, and has written
    nothing but the greeting: neither the credentials nor the request leave
    the client. *)
Theorem socks5_connect_refused_method :
  forall dest_host dest_port u p w d1 k1 txrest d3 v m rxrest,
    tx w = TxRoom d1 k1 :: txrest ->
    4 <= k1 ->
    0 <= d1 <= 10000 ->
    rx w = RxData d3 [v; m] :: rxrest ->
    0 <= d3 <= 10000 ->
    v <> 5 \/ (m <> 0 /\ m <> 2) ->
    exists w',
      socks5_connect dest_host dest_port u p w = Some (-1, w')
      /\ sent w' = (sent w ++ socks5_greeting u p)%list
      /\ console w'
         = (console w
            ++ [if v =? 5 then ErrSocks5NoMethod else ErrSocks5Version v])%list.
Proof.
  intros h pt u p w d1 k1 txrest d3 v m rxrest Htx Hk1 Hd1 Hrx Hd3 Hbad.
  pose proof handshake_timeout_nonneg as Ht.
  assert (Hms : HANDSHAKE_TIMEOUT_SEC * 1000 = 10000) by reflexivity.
  pose proof (socks5_greeting_pos u p) as Hg.
  unfold socks5_connect. step.
  rewrite (safe_write_one_room (socks5_greeting u p) d1 k1 txrest
             HANDSHAKE_TIMEOUT_SEC w Ht);
    [ | lia | lia | lia | exact Htx ].
  rewrite Z.eqb_refl. cbn [negb]. cbv iota. step.
  match goal with |- context [safe_read_with_timeout 2 _ ?w1] =>
    rewrite (safe_read_prefix 2 [v; m] [] d3 rxrest
               HANDSHAKE_TIMEOUT_SEC w1 Ht);
    [ | reflexivity | lia | lia | exact Hrx ]
  end.
  cbv iota beta.
  change (negb (2 =? 2)) with false. cbv iota.
  change (byte_at [v; m] 0) with v. change (byte_at [v; m] 1) with m.
  destruct (v =? 5) eqn:Ev.
  - apply Z.eqb_eq in Ev. cbn [negb]. cbv iota.
    destruct Hbad as [Hbad|[Hm0 Hm2]]; [congruence|].
    replace (m =? 2) with false by (symmetry; apply Z.eqb_neq; exact Hm2).
    replace (m =? 0) with false by (symmetry; apply Z.eqb_neq; exact Hm0).
    cbn [negb]. cbv iota.
    eexists. split; [reflexivity|]. split; reflexivity.
  - cbn [negb]. cbv iota.
    eexists. split; [reflexivity|]. split; reflexivity.
Qed.

Lemma socks5_connect_refused_method_witness :
  exists w',
    socks5_connect "example.org" 6667 (Some "u") (Some "p")
      (mkWorld [RxData 5 [5; 255]] [TxRoom 0 4096] [] 0 ENONE [] [])
    = Some (-1, w')
    /\ sent w' = ([] ++ socks5_greeting (Some "u") (Some "p"))%list
    /\ console w'
       = ([] ++ [if 5 =? 5 then ErrSocks5NoMethod else ErrSocks5Version 5])%list.
Proof.
  apply (socks5_connect_refused_method "example.org" 6667 (Some "u") (Some "p")
           (mkWorld [RxData 5 [5; 255]] [TxRoom 0 4096] [] 0 ENONE [] [])
           0 4096 [] 5 5 255 []);
    try reflexivity; lia.
Defined.

Lemma socks5_request_length :
  forall h pt, Zlength_ (socks5_request h pt) = 7 + strlen h.
Proof.
  intros h pt. pose proof (length_bytes_of_string h) as Hb.
  unfold socks5_request, Zlength_ in *.
  rewrite length_app, length_app. simpl List.length. lia.
Qed.

Lemma strlen_nonneg : forall s, 0 <= strlen s.
Proof. intros s. unfold strlen. lia. Qed.

(** The tunnel part of the SOCKS5 handshake against a server that grants
    the request with an IPv4 bound address. *)
Lemma socks5_tunnel_run :
  forall h pt w d2 k2 txrest d4 tail rxrest,
    strlen h <= 505 ->
    tx w = TxRoom d2 k2 :: txrest ->
    7 + strlen h <= k2 ->
    0 <= d2 <= 10000 ->
    rx w = RxData d4 ([5; 0; 0; 1] ++ tail) :: rxrest ->
    List.length tail = 6%nat ->
    0 <= d4 <= 10000 ->
    exists w',
      socks5_tunnel h pt w = Some (0, w')
      /\ sent w' = (sent w ++ socks5_request h pt)%list
      /\ rx w' = rxrest
      /\ console w' = console w.
Proof.
  intros h pt w d2 k2 txrest d4 tail rxrest Hh Htx Hk2 Hd2 Hrx Htail Hd4.
  pose proof handshake_timeout_nonneg as Ht.
  assert (Hms : HANDSHAKE_TIMEOUT_SEC * 1000 = 10000) by reflexivity.
  pose proof (socks5_request_length h pt) as Hreq.
  pose proof (strlen_nonneg h) as Hpos.
  unfold socks5_tunnel.
  replace (512 <? 7 + strlen h) with false by (symmetry; apply Z.ltb_ge; lia).
  step.
  rewrite (safe_write_one_room (socks5_request h pt) d2 k2 txrest
             HANDSHAKE_TIMEOUT_SEC w Ht);
    [ | lia | lia | lia | exact Htx ].
  rewrite Z.eqb_refl. cbn [negb]. cbv iota. step.
  match goal with |- context [safe_read_with_timeout 4 _ ?w1] =>
    rewrite (safe_read_prefix 4 [5;0;0;1] tail d4 rxrest
               HANDSHAKE_TIMEOUT_SEC w1 Ht);
    [ | reflexivity | lia | lia | exact Hrx ]
  end.
  cbv iota beta.
  change (4 <? 4) with false.
  change (negb (byte_at [5; 0; 0; 1] 1 =? 0)) with false.
  change (byte_at [5; 0; 0; 1] 3) with 1.
  cbv iota.
  unfold socks5_drain.
  change (1 =? 1) with true. cbv iota.
  unfold bind at 1, ret at 1. cbv iota beta.
  change (negb true) with false. change (0 <? 6) with true.
  change (256 <? 6) with false. cbv iota. step.
  destruct tail as [|t0 tail']; [discriminate|].
  match goal with |- context [safe_read_with_timeout 6 _ ?w1] =>
    rewrite (safe_read_prefix 6 (t0 :: tail') [] 0 rxrest
               HANDSHAKE_TIMEOUT_SEC w1 Ht);
    [ | unfold Zlength_; rewrite Htail; reflexivity | lia | lia
      | rewrite app_nil_r; reflexivity ]
  end.
  cbv iota beta. change (negb (6 =? 6)) with false. cbv iota.
  unfold ret. eexists. split; [reflexivity|].
  cbn [sent rx console]. repeat split; reflexivity.
Qed.

Lemma socks5_auth_length :
  forall u p, Zlength_ (socks5_auth u p) = 3 + strlen u + strlen p.
Proof.
  intros u p. pose proof (length_bytes_of_string u) as Hu.
  pose proof (length_bytes_of_string p) as Hp.
  unfold socks5_auth, Zlength_ in *.
  cbn [app List.length]. rewrite !length_app. cbn [app List.length]. lia.
Qed.

(** X16.  With credentials, against a server that chooses method 2, the
    client writes the greeting [05 02 00 02] and then the sub-negotiation of
    RFC 1929, [01 ulen user plen pass].  When the server answers with status
    0 and then grants the request, the request follows and the result is 0;
    when it answers with another status the result is -1, the failure is
    reported, and the request is never written. *)
Theorem socks5_connect_with_auth :
  forall dest_host dest_port u p w d1 k1 d2 k2 txrest d3 d4 ver status rxrest,
    is_empty u = false ->
    is_empty p = false ->
    strlen u <= 255 ->
    strlen p <= 255 ->
    3 + strlen u + strlen p <= 512 ->
    tx w = TxRoom d1 k1 :: TxRoom d2 k2 :: txrest ->
    4 <= k1 ->
    3 + strlen u + strlen p <= k2 ->
    0 <= d1 <= 10000 ->
    0 <= d2 <= 10000 ->
    rx w = RxData d3 [5; 2] :: RxData d4 [ver; status] :: rxrest ->
    0 <= d3 <= 10000 ->
    0 <= d4 <= 10000 ->
    (status <> 0 ->
     exists w',
       socks5_connect dest_host dest_port (Some u) (Some p) w = Some (-1, w')
       /\ sent w'
          = (sent w ++ [5; 2; 0; 2]
             ++ ([1; strlen u] ++ bytes_of_string u
                 ++ [strlen p] ++ bytes_of_string p))%list
       /\ console w' = (console w ++ [ErrSocks5AuthFailed])%list)
    /\ (status = 0 ->
        forall d5 k3 txrest' d6 tail rxrest',
          strlen dest_host <= 505 ->
          txrest = TxRoom d5 k3 :: txrest' ->
          7 + strlen dest_host <= k3 ->
          0 <= d5 <= 10000 ->
          rxrest = RxData d6 ([5; 0; 0; 1] ++ tail) :: rxrest' ->
          List.length tail = 6%nat ->
          0 <= d6 <= 10000 ->
          exists w',
            socks5_connect dest_host dest_port (Some u) (Some p) w
            = Some (0, w')
            /\ sent w'
               = (sent w ++ [5; 2; 0; 2]
                  ++ ([1; strlen u] ++ bytes_of_string u
                      ++ [strlen p] ++ bytes_of_string p)
                  ++ socks5_request dest_host dest_port)%list
            /\ console w' = console w).
Proof.
  intros h pt u p w d1 k1 d2 k2 txrest d3 d4 ver status rxrest
         Hu Hp Hul Hpl Hfit Htx Hk1 Hk2 Hd1 Hd2 Hrx Hd3 Hd4.
  pose proof handshake_timeout_nonneg as Ht.
  assert (Hms : HANDSHAKE_TIMEOUT_SEC * 1000 = 10000) by reflexivity.
  pose proof (socks5_auth_length u p) as Hauth.
  pose proof (strlen_nonneg u) as Hu0. pose proof (strlen_nonneg p) as Hp0.
  assert (Hcred : has_credentials (Some u) (Some p) = true).
  { unfold has_credentials. rewrite Hu, Hp. reflexivity. }
  assert (Hrun :
    socks5_connect h pt (Some u) (Some p) w
    = (if negb (status =? 0) then log ErrSocks5AuthFailed ;;; ret (-1)
       else socks5_tunnel h pt)
        (mkWorld rxrest txrest
           (sent w ++ [5; 2; 0; 2] ++ socks5_auth u p)%list
           (clock w + Z.max 0 d1 + Z.max 0 d3 + Z.max 0 d2 + Z.max 0 d4)
           (errno w) (console w)
           (polls w
            ++ [mkPoll 10000 (clock w)]
            ++ [mkPoll 10000 (clock w + Z.max 0 d1)]
            ++ [mkPoll 10000 (clock w + Z.max 0 d1 + Z.max 0 d3)]
            ++ [mkPoll 10000
                  (clock w + Z.max 0 d1 + Z.max 0 d3 + Z.max 0 d2)])%list)).
  { unfold socks5_connect, socks5_greeting. rewrite Hcred. step.
    rewrite (safe_write_one_room [5;2;0;2] d1 k1 (TxRoom d2 k2 :: txrest)
               HANDSHAKE_TIMEOUT_SEC w Ht);
      [ | reflexivity | exact Hk1 | lia | exact Htx ].
    change (negb (Zlength_ [5; 2; 0; 2] =? Zlength_ [5; 2; 0; 2])) with false.
    cbv iota. step.
    match goal with |- context [safe_read_with_timeout 2 _ ?w1] =>
      rewrite (safe_read_prefix 2 [5;2] [] d3
                 (RxData d4 [ver; status] :: rxrest)
                 HANDSHAKE_TIMEOUT_SEC w1 Ht);
      [ | reflexivity | lia | lia | exact Hrx ]
    end.
    cbv iota beta.
    change (negb (2 =? 2)) with false.
    change (negb (byte_at [5; 2] 0 =? 5)) with false.
    change (byte_at [5; 2] 1 =? 2) with true.
    cbv iota.
    replace (512 <? 3 + strlen u + strlen p) with false
      by (symmetry; apply Z.ltb_ge; lia).
    step.
    match goal with |- context [safe_write_with_timeout _ _ ?w1] =>
      rewrite (safe_write_one_room (socks5_auth u p) d2 k2 txrest
                 HANDSHAKE_TIMEOUT_SEC w1 Ht);
      [ | lia | lia | lia | reflexivity ]
    end.
    rewrite Z.eqb_refl. cbn [negb]. cbv iota. step.
    match goal with |- context [safe_read_with_timeout 2 _ ?w1] =>
      rewrite (safe_read_prefix 2 [ver; status] [] d4 rxrest
                 HANDSHAKE_TIMEOUT_SEC w1 Ht);
      [ | reflexivity | lia | lia | reflexivity ]
    end.
    cbv iota beta.
    change (negb (2 =? 2)) with false. cbv iota.
    change (byte_at [ver; status] 1) with status.
    rewrite Hms. cbn [rx tx sent clock errno console polls].
    rewrite <- !app_assoc. reflexivity. }
  assert (Hbytes : socks5_auth u p
                   = ([1; strlen u] ++ bytes_of_string u
                      ++ [strlen p] ++ bytes_of_string p)%list).
  { unfold socks5_auth. rewrite !Z.mod_small by lia. reflexivity. }
  split.
  - intros Hs. rewrite Hrun.
    replace (status =? 0) with false by (symmetry; apply Z.eqb_neq; exact Hs).
    cbn [negb]. cbv iota. eexists. split; [reflexivity|].
    cbn [sent console err_printf]. rewrite Hbytes. split; reflexivity.
  - intros Hs d5 k3 txrest' d6 tail rxrest' Hh Etx Hk3 Hd5 Erx Htail Hd6.
    rewrite Hrun. subst status. cbn [Z.eqb negb]. cbv iota.
    match goal with |- context [socks5_tunnel h pt ?w1] =>
      destruct (socks5_tunnel_run h pt w1 d5 k3 txrest' d6 tail rxrest')
        as (w' & Hrun' & Hsent & _ & Hcons);
      [ exact Hh | exact Etx | exact Hk3 | exact Hd5 | exact Erx | exact Htail
      | exact Hd6 | ]
    end.
    exists w'. split; [exact Hrun'|].
    rewrite Hsent, Hcons. cbn [sent console]. rewrite Hbytes.
    split; [rewrite <- !app_assoc; reflexivity|reflexivity].
Qed.

Lemma socks5_connect_with_auth_witness :
  exists w',
    socks5_connect "example.org" 6667 (Some "alice") (Some "s3cret")
      (mkWorld [RxData 5 [5; 2]; RxData 5 [1; 0];
                RxData 5 ([5; 0; 0; 1] ++ [0; 0; 0; 0; 0; 0])]
               [TxRoom 0 4096; TxRoom 0 4096; TxRoom 0 4096] [] 0 ENONE [] [])
    = Some (0, w')
    /\ sent w'
       = ([] ++ [5; 2; 0; 2]
          ++ ([1; strlen "alice"] ++ bytes_of_string "alice"
              ++ [strlen "s3cret"] ++ bytes_of_string "s3cret")
          ++ socks5_request "example.org" 6667)%list
    /\ console w' = [].
Proof.
  refine (proj2 (socks5_connect_with_auth "example.org" 6667 "alice" "s3cret"
           (mkWorld [RxData 5 [5; 2]; RxData 5 [1; 0];
                     RxData 5 ([5; 0; 0; 1] ++ [0; 0; 0; 0; 0; 0])]
                    [TxRoom 0 4096; TxRoom 0 4096; TxRoom 0 4096] [] 0 ENONE
                    [] [])
           0 4096 0 4096 [TxRoom 0 4096] 5 5 1 0
           [RxData 5 ([5; 0; 0; 1] ++ [0; 0; 0; 0; 0; 0])]
           _ _ _ _ _ _ _ _ _ _ _ _ _)
           eq_refl 0 4096 [] 5 [0; 0; 0; 0; 0; 0] [] _ _ _ _ _ _ _);
    try reflexivity; try lia; try (vm_compute; discriminate).
Defined.

Lemma socks4_resolve_run :
  forall inet_pton4 gethostbyname dest_host w,
    exists w1,
      socks4_resolve inet_pton4 gethostbyname dest_host w
      = Some (match inet_pton4 dest_host with
              | Some a => Some a
              | None => snd (gethostbyname dest_host)
              end, w1)
      /\ tx w1 = tx w /\ rx w1 = rx w /\ sent w1 = sent w
      /\ console w1 = console w /\ polls w1 = polls w.
Proof.
  intros inet gh h w. unfold socks4_resolve.
  destruct (inet h); eexists; (split; [reflexivity|]); repeat split.
Qed.

(** X17.  [socks4_connect] on a destination that resolves writes exactly
    [04 01 port_hi port_lo ip userid 00] (the user id only when it is set and
    not empty) and reads eight bytes; it returns 0 exactly when the first
    two are 0 and 90, and otherwise returns -1 and reports the second
    byte. *)
Theorem socks4_connect_run :
  forall inet_pton4 gethostbyname dest_host dest_port userid w ip d1 k1
         txrest d2 b0 b1 r rxrest,
    (match inet_pton4 dest_host with
     | Some a => Some a
     | None => snd (gethostbyname dest_host)
     end) = Some ip ->
    List.length ip = 4%nat ->
    Zlength_ (opt_bytes userid) <= 503 ->
    tx w = TxRoom d1 k1 :: txrest ->
    9 + Zlength_ (opt_bytes userid) <= k1 ->
    0 <= d1 <= 10000 ->
    rx w = RxData d2 (b0 :: b1 :: r) :: rxrest ->
    List.length r = 6%nat ->
    0 <= d2 <= 10000 ->
    exists w',
      socks4_connect inet_pton4 gethostbyname dest_host dest_port userid w
      = Some ((if (b0 =? 0) && (b1 =? 90) then 0 else -1), w')
      /\ sent w'
         = (sent w ++ [4; 1; port_hi dest_port; port_lo dest_port] ++ ip
            ++ (if nonempty userid then opt_bytes userid else []) ++ [0])%list
      /\ console w'
         = (console w
            ++ (if (b0 =? 0) && (b1 =? 90) then []
                else [ErrSocks4Rejected b1]))%list.
Proof.
  intros inet gh h pt uid w0 ip d1 k1 txrest d2 b0 b1 r rxrest
         Hres Hip Hul Htx Hk1 Hd1 Hrx Hr Hd2.
  pose proof handshake_timeout_nonneg as Ht.
  assert (Hms : HANDSHAKE_TIMEOUT_SEC * 1000 = 10000) by reflexivity.
  destruct (socks4_resolve_run inet gh h w0)
    as (w & Hrun & Etx & Erx & Esent & Econs & _).
  unfold socks4_connect. unfold bind at 1. rewrite Hrun, Hres.
  rewrite <- Etx in Htx. rewrite <- Erx in Hrx.
  rewrite <- Esent, <- Econs.
  unfold socks4_exchange.
  replace (nonempty uid && (503 <? Zlength_ (opt_bytes uid))) with false
    by (symmetry; apply andb_false_iff; right; apply Z.ltb_ge; exact Hul).
  assert (Hreq : Zlength_ (socks4_request ip pt uid)
                 = 9 + Zlength_ (if nonempty uid then opt_bytes uid else [])).
  { unfold socks4_request, Zlength_. rewrite firstn_all2 by lia.
    cbn [app List.length]. rewrite !length_app. cbn [List.length]. lia. }
  assert (Hu : 0 <= Zlength_ (if nonempty uid then opt_bytes uid else [])
               <= Zlength_ (opt_bytes uid)).
  { unfold Zlength_. destruct (nonempty uid); simpl; lia. }
  step.
  rewrite (safe_write_one_room (socks4_request ip pt uid) d1 k1 txrest
             HANDSHAKE_TIMEOUT_SEC w Ht);
    [ | lia | lia | lia | exact Htx ].
  rewrite Z.eqb_refl. cbn [negb]. cbv iota. step.
  match goal with |- context [safe_read_with_timeout 8 _ ?w1] =>
    rewrite (safe_read_prefix 8 (b0 :: b1 :: r) [] d2 rxrest
               HANDSHAKE_TIMEOUT_SEC w1 Ht);
    [ | unfold Zlength_; cbn [List.length]; rewrite Hr; reflexivity | lia
      | lia | rewrite app_nil_r; exact Hrx ]
  end.
  cbv iota beta. change (negb (8 =? 8)) with false. cbv iota.
  change (byte_at (b0 :: b1 :: r) 0) with b0.
  change (byte_at (b0 :: b1 :: r) 1) with b1.
  assert (Hsent : socks4_request ip pt uid
                  = ([4; 1; port_hi pt; port_lo pt] ++ ip
                     ++ (if nonempty uid then opt_bytes uid else [])
                     ++ [0])%list).
  { unfold socks4_request. rewrite firstn_all2 by lia. reflexivity. }
  destruct (b0 =? 0); destruct (b1 =? 90); cbn [negb orb andb]; cbv iota;
    eexists; (split; [reflexivity|]);
    cbn [sent console err_printf]; rewrite Hsent;
    rewrite ?app_nil_r; split; reflexivity.
Qed.

Lemma socks4_connect_run_witness :
  exists w',
    socks4_connect (fun _ => Some [192; 0; 2; 1]) (fun _ => (0, None))
      "192.0.2.1" 6667 (Some "bob")
      (mkWorld [RxData 5 [0; 90; 0; 0; 0; 0; 0; 0]] [TxRoom 0 64] [] 0 ENONE
               [] [])
    = Some ((if (0 =? 0) && (90 =? 90) then 0 else -1), w')
    /\ sent w'
       = ([] ++ [4; 1; port_hi 6667; port_lo 6667] ++ [192; 0; 2; 1]
          ++ (if nonempty (Some "bob") then opt_bytes (Some "bob") else [])
          ++ [0])%list
    /\ console w'
       = ([] ++ (if (0 =? 0) && (90 =? 90) then []
                 else [ErrSocks4Rejected 90]))%list.
Proof.
  apply (socks4_connect_run (fun _ => Some [192; 0; 2; 1]) (fun _ => (0, None))
           "192.0.2.1" 6667 (Some "bob")
           (mkWorld [RxData 5 [0; 90; 0; 0; 0; 0; 0; 0]] [TxRoom 0 64] [] 0
                    ENONE [] [])
           [192; 0; 2; 1] 0 64 [] 5 0 90 [0; 0; 0; 0; 0; 0] []);
    try reflexivity; try lia; vm_compute; discriminate.
Defined.

(** ** Base64 of the credentials ([http_connect]) *)

Lemma in_byte_range : forall z, is_byte z -> In z byte_range.
Proof.
  intros z [H0 H1]. unfold byte_range.
  replace z with (Z.of_nat (Z.to_nat z)) by lia.
  apply in_map. apply in_seq. lia.
Qed.

Lemma in_sextet_range : forall z, 0 <= z < 64 -> In z sextet_range.
Proof.
  intros z [H0 H1]. unfold sextet_range.
  replace z with (Z.of_nat (Z.to_nat z)) by lia.
  apply in_map. apply in_seq. lia.
Qed.

Lemma b64_alphabet_checked :
  forallb (fun i => (b64_index (b64 i) =? i) && negb (b64 i =? PAD)
                    && existsb (Z.eqb (b64 i)) (bytes_of_string base64))
          sextet_range = true.
Proof. vm_compute. reflexivity. Qed.

Lemma b64_index_b64 :
  forall i, 0 <= i < 64 ->
    b64_index (b64 i) = i /\ b64 i <> PAD
    /\ In (b64 i) (bytes_of_string base64).
Proof.
  intros i Hi.
  pose proof (proj1 (forallb_forall _ _) b64_alphabet_checked i
                (in_sextet_range i Hi)) as H.
  cbv beta in H. apply andb_prop in H. destruct H as [H H3].
  apply andb_prop in H. destruct H as [H1 H2].
  apply Z.eqb_eq in H1. apply negb_true_iff in H2. apply Z.eqb_neq in H2.
  apply existsb_exists in H3. destruct H3 as (c & Hc & Ec).
  apply Z.eqb_eq in Ec. subst c. auto.
Qed.

Lemma b64_bits_checked :
  forallb
    (fun a =>
       (Z.shiftr a 2 =? a / 4) && (Z.land a 63 =? a mod 64)
       && forallb
            (fun b =>
               (Z.lor (Z.shiftl (Z.land a 3) 4) (Z.shiftr b 4)
                =? (a mod 4) * 16 + b / 16)
               && (Z.lor (Z.shiftl (Z.land a 15) 2) (Z.shiftr b 6)
                   =? (a mod 16) * 4 + b / 64))
            (0 :: byte_range))
    byte_range = true.
Proof. vm_compute. reflexivity. Qed.

Lemma b64_bits :
  forall a b, is_byte a -> is_byte b ->
    Z.shiftr a 2 = a / 4
    /\ Z.land a 63 = a mod 64
    /\ Z.lor (Z.shiftl (Z.land a 3) 4) (Z.shiftr b 4) = (a mod 4) * 16 + b / 16
    /\ Z.lor (Z.shiftl (Z.land a 15) 2) (Z.shiftr b 6)
       = (a mod 16) * 4 + b / 64.
Proof.
  intros a b Ha Hb.
  pose proof (proj1 (forallb_forall _ _) b64_bits_checked a
                (in_byte_range a Ha)) as H.
  cbv beta in H. apply andb_prop in H. destruct H as [H H3].
  apply andb_prop in H. destruct H as [H1 H2].
  pose proof (proj1 (forallb_forall _ _) H3 b
                (or_intror (in_byte_range b Hb))) as H4.
  cbv beta in H4. apply andb_prop in H4. destruct H4 as [H4 H5].
  apply Z.eqb_eq in H1, H2, H4, H5. auto.
Qed.

Lemma is_byte_0 : is_byte 0.
Proof. unfold is_byte. lia. Qed.

Lemma list_ind3 :
  forall (P : list Z -> Prop),
    P [] -> (forall a, P [a]) -> (forall a b, P [a; b]) ->
    (forall a b c l, P l -> P (a :: b :: c :: l)) ->
    forall l, P l.
Proof.
  intros P H0 H1 H2 H3 l.
  assert (H : P l /\ (forall a, P (a :: l)) /\ (forall a b, P (a :: b :: l))).
  { induction l as [|x l (IH0 & IH1 & IH2)].
    - auto.
    - split; [apply IH1|]. split; [intros a; apply IH2|].
      intros a b. apply H3. exact IH0. }
  apply H.
Qed.

Lemma b64_encode_triple :
  forall a b c l,
    b64_encode (a :: b :: c :: l)
    = ([b64 (Z.shiftr a 2);
        b64 (Z.lor (Z.shiftl (Z.land a 3) 4) (Z.shiftr b 4));
        b64 (Z.lor (Z.shiftl (Z.land b 15) 2) (Z.shiftr c 6));
        b64 (Z.land c 63)] ++ b64_encode l)%list.
Proof. reflexivity. Qed.

Lemma sextets :
  forall a b, is_byte a -> is_byte b ->
    0 <= a / 4 < 64 /\ 0 <= a mod 64 < 64
    /\ 0 <= (a mod 4) * 16 + b / 16 < 64
    /\ 0 <= (a mod 16) * 4 + b / 64 < 64.
Proof.
  unfold is_byte. intros a b Ha Hb.
  pose proof (Z.mod_pos_bound a 4). pose proof (Z.mod_pos_bound a 16).
  pose proof (Z.mod_pos_bound a 64).
  assert (0 <= a / 4 < 64)
    by (split; [apply Z.div_pos; lia|apply Z.div_lt_upper_bound; lia]).
  assert (0 <= b / 16 < 16)
    by (split; [apply Z.div_pos; lia|apply Z.div_lt_upper_bound; lia]).
  assert (0 <= b / 64 < 4)
    by (split; [apply Z.div_pos; lia|apply Z.div_lt_upper_bound; lia]).
  lia.
Qed.

Lemma b64_char :
  forall i, 0 <= i < 64 ->
    b64 i = PAD \/ In (b64 i) (bytes_of_string base64).
Proof. intros i Hi. right. apply b64_index_b64. exact Hi. Qed.

(** X18.  The text that [http_connect] puts after [Basic] has four
    characters for every three bytes of the credentials, a last partial
    group included, and consists of characters of the alphabet and of the pad
    character [=]. *)
Theorem b64_encode_shape :
  forall cs,
    Forall is_byte cs ->
    Zlength_ (b64_encode cs) = 4 * ((Zlength_ cs + 2) / 3)
    /\ Forall (fun c => c = PAD \/ In c (bytes_of_string base64))
              (b64_encode cs).
Proof.
  intros cs. induction cs as [|a|a b|a b c l IH] using list_ind3; intros Hb.
  - split; [reflexivity|constructor].
  - inversion Hb as [|? ? Ha _]; subst.
    destruct (b64_bits a 0 Ha is_byte_0) as (E1 & _ & E2 & _).
    destruct (sextets a 0 Ha is_byte_0) as (R1 & _ & R2 & _).
    split; [reflexivity|].
    cbn [b64_encode]. rewrite E1, E2.
    apply Forall_cons; [apply b64_char; exact R1|].
    apply Forall_cons; [apply b64_char; exact R2|].
    apply Forall_cons; [left; reflexivity|].
    apply Forall_cons; [left; reflexivity|]. apply Forall_nil.
  - inversion Hb as [|? ? Ha Hb']; subst.
    inversion Hb' as [|? ? Hb2 _]; subst.
    destruct (b64_bits a b Ha Hb2) as (E1 & _ & E2 & _).
    destruct (b64_bits b 0 Hb2 is_byte_0) as (_ & _ & _ & E3).
    destruct (sextets a b Ha Hb2) as (R1 & _ & R2 & _).
    destruct (sextets b 0 Hb2 is_byte_0) as (_ & _ & _ & R3).
    split; [reflexivity|].
    cbn [b64_encode]. rewrite E1, E2, E3.
    apply Forall_cons; [apply b64_char; exact R1|].
    apply Forall_cons; [apply b64_char; exact R2|].
    apply Forall_cons; [apply b64_char; exact R3|].
    apply Forall_cons; [left; reflexivity|]. apply Forall_nil.
  - inversion Hb as [|? ? Ha Hb']; subst.
    inversion Hb' as [|? ? Hb2 Hb'']; subst.
    inversion Hb'' as [|? ? Hc Hl]; subst.
    destruct (IH Hl) as [IH1 IH2].
    destruct (b64_bits a b Ha Hb2) as (E1 & _ & E2 & _).
    destruct (b64_bits b c Hb2 Hc) as (_ & _ & _ & E3).
    destruct (b64_bits c 0 Hc is_byte_0) as (_ & E4 & _ & _).
    destruct (sextets a b Ha Hb2) as (R1 & _ & R2 & _).
    destruct (sextets b c Hb2 Hc) as (_ & _ & _ & R3).
    destruct (sextets c 0 Hc is_byte_0) as (_ & R4 & _ & _).
    rewrite b64_encode_triple. split.
    + unfold Zlength_ in *. rewrite length_app. cbn [List.length].
      rewrite Nat2Z.inj_add, IH1.
      replace (Z.of_nat (S (S (S (List.length l)))) + 2)
        with ((Z.of_nat (List.length l) + 2) + 1 * 3) by lia.
      rewrite Z.div_add by lia. simpl Z.of_nat. lia.
    + apply Forall_app. split; [|exact IH2].
      rewrite E1, E2, E3, E4.
      apply Forall_cons; [apply b64_char; exact R1|].
      apply Forall_cons; [apply b64_char; exact R2|].
      apply Forall_cons; [apply b64_char; exact R3|].
      apply Forall_cons; [apply b64_char; exact R4|]. apply Forall_nil.
Qed.
Lemma PAD_eqb_refl : (PAD =? PAD) = true.
Proof. reflexivity. Qed.

Lemma digit_split :
  forall x y k, 0 < k -> 0 <= y < k ->
    (x * k + y) / k = x /\ (x * k + y) mod k = y.
Proof.
  intros x y k Hk Hy. split.
  - rewrite Z.div_add_l by lia. rewrite Z.div_small by lia. lia.
  - rewrite Z.add_comm, Z_mod_plus_full. apply Z.mod_small. lia.
Qed.

Lemma sextets_join :
  forall a b, is_byte a -> is_byte b ->
    (a / 4) * 4 + ((a mod 4) * 16 + b / 16) / 16 = a
    /\ (((a mod 4) * 16 + b / 16) mod 16) * 16
       + ((b mod 16) * 4 + 0 / 64) / 4 = b
    /\ forall c, is_byte c ->
         (((a mod 4) * 16 + b / 16) mod 16) * 16
         + ((b mod 16) * 4 + c / 64) / 4 = b
         /\ (((b mod 16) * 4 + c / 64) mod 4) * 64 + c mod 64 = c.
Proof.
  unfold is_byte. intros a b Ha Hb.
  assert (Hb16 : 0 <= b / 16 < 16)
    by (split; [apply Z.div_pos; lia|apply Z.div_lt_upper_bound; lia]).
  destruct (digit_split (a mod 4) (b / 16) 16 ltac:(lia) Hb16) as [D1 M1].
  rewrite D1, M1.
  pose proof (Z.div_mod a 4 ltac:(lia)).
  pose proof (Z.div_mod b 16 ltac:(lia)).
  assert (A : forall c, is_byte c ->
            ((b mod 16) * 4 + c / 64) / 4 = b mod 16
            /\ ((b mod 16) * 4 + c / 64) mod 4 = c / 64).
  { unfold is_byte. intros c Hc.
    apply digit_split; [lia|].
    split; [apply Z.div_pos; lia|apply Z.div_lt_upper_bound; lia]. }
  split; [lia|]. split.
  - destruct (A 0 is_byte_0) as [D2 _]. rewrite D2. lia.
  - intros c Hc. destruct (A c Hc) as [D2 M2]. rewrite D2, M2.
    pose proof (Z.div_mod c 64 ltac:(lia)). lia.
Qed.

Lemma b64_decode_group :
  forall c1 c2 c3 c4 rest,
    b64_decode (c1 :: c2 :: c3 :: c4 :: rest)
    = ((b64_index c1 * 4 + b64_index c2 / 16
        :: (if c3 =? PAD then []
            else (b64_index c2 mod 16) * 16 + b64_index c3 / 4
                 :: (if c4 =? PAD then []
                     else [(b64_index c3 mod 4) * 64 + b64_index c4])))
       ++ b64_decode rest)%list.
Proof. reflexivity. Qed.

Lemma b64_decode_encode :
  forall cs, Forall is_byte cs -> b64_decode (b64_encode cs) = cs.
Proof.
  intros cs. induction cs as [|a|a b|a b c l IH] using list_ind3; intros Hb.
  - reflexivity.
  - inversion Hb as [|? ? Ha _]; subst.
    destruct (b64_bits a 0 Ha is_byte_0) as (E1 & _ & E2 & _).
    destruct (sextets a 0 Ha is_byte_0) as (R1 & _ & R2 & _).
    destruct (sextets_join a 0 Ha is_byte_0) as (J1 & _).
    destruct (b64_index_b64 _ R1) as (I1 & _).
    destruct (b64_index_b64 _ R2) as (I2 & _).
    cbn [b64_encode]. rewrite E1, E2, b64_decode_group.
    rewrite I1, I2, PAD_eqb_refl, J1. reflexivity.
  - inversion Hb as [|? ? Ha Hb']; subst.
    inversion Hb' as [|? ? Hb2 _]; subst.
    destruct (b64_bits a b Ha Hb2) as (E1 & _ & E2 & _).
    destruct (b64_bits b 0 Hb2 is_byte_0) as (_ & _ & _ & E3).
    destruct (sextets a b Ha Hb2) as (R1 & _ & R2 & _).
    destruct (sextets b 0 Hb2 is_byte_0) as (_ & _ & _ & R3).
    destruct (sextets_join a b Ha Hb2) as (J1 & J2 & _).
    destruct (b64_index_b64 _ R1) as (I1 & _).
    destruct (b64_index_b64 _ R2) as (I2 & _).
    destruct (b64_index_b64 _ R3) as (I3 & P3 & _).
    apply Z.eqb_neq in P3.
    cbn [b64_encode]. rewrite E1, E2, E3, b64_decode_group.
    rewrite I1, I2, I3, P3, PAD_eqb_refl, J1, J2. reflexivity.
  - inversion Hb as [|? ? Ha Hb']; subst.
    inversion Hb' as [|? ? Hb2 Hb'']; subst.
    inversion Hb'' as [|? ? Hc Hl]; subst.
    destruct (b64_bits a b Ha Hb2) as (E1 & _ & E2 & _).
    destruct (b64_bits b c Hb2 Hc) as (_ & _ & _ & E3).
    destruct (b64_bits c 0 Hc is_byte_0) as (_ & E4 & _ & _).
    destruct (sextets a b Ha Hb2) as (R1 & _ & R2 & _).
    destruct (sextets b c Hb2 Hc) as (_ & _ & _ & R3).
    destruct (sextets c 0 Hc is_byte_0) as (_ & R4 & _ & _).
    destruct (sextets_join a b Ha Hb2) as (J1 & _ & J).
    destruct (J c Hc) as (J2 & J3).
    destruct (b64_index_b64 _ R1) as (I1 & _).
    destruct (b64_index_b64 _ R2) as (I2 & _).
    destruct (b64_index_b64 _ R3) as (I3 & P3 & _).
    destruct (b64_index_b64 _ R4) as (I4 & P4 & _).
    apply Z.eqb_neq in P3. apply Z.eqb_neq in P4.
    rewrite b64_encode_triple, E1, E2, E3, E4.
    cbn [app]. rewrite b64_decode_group.
    rewrite I1, I2, I3, I4, P3, P4, J1, J2, J3, (IH Hl). reflexivity.
Qed.

Lemma bytes_of_string_bytes : forall s, Forall is_byte (bytes_of_string s).
Proof.
  intros s. unfold bytes_of_string. apply Forall_forall. intros z Hz.
  apply in_map_iff in Hz. destruct Hz as (c & Ec & _). subst z.
  pose proof (nat_ascii_bounded c). unfold is_byte. lia.
Qed.

Lemma b64_encode_shape_witness :
  Forall is_byte (bytes_of_string "a:b")
  /\ Zlength_ (b64_encode (bytes_of_string "a:b"))
     = 4 * ((Zlength_ (bytes_of_string "a:b") + 2) / 3).
Proof.
  split; [apply bytes_of_string_bytes|].
  apply (b64_encode_shape (bytes_of_string "a:b")).
  apply bytes_of_string_bytes.
Defined.

Lemma b64_is_byte : forall i, is_byte (b64 i).
Proof.
  intros i. unfold b64, byte_at.
  destruct (nth_in_or_default (Z.to_nat i) (bytes_of_string base64) 0)
    as [H|H].
  - exact (proj1 (Forall_forall _ _) (bytes_of_string_bytes base64) _ H).
  - rewrite H. exact is_byte_0.
Qed.

Lemma b64_encode_bytes : forall cs, Forall is_byte (b64_encode cs).
Proof.
  assert (Hpad : is_byte PAD) by (unfold is_byte, PAD; lia).
  intros cs. induction cs as [|a|a b|a b c l IH] using list_ind3.
  - constructor.
  - cbn [b64_encode].
    repeat (apply Forall_cons; [first [apply b64_is_byte|exact Hpad]|]).
    apply Forall_nil.
  - cbn [b64_encode].
    repeat (apply Forall_cons; [first [apply b64_is_byte|exact Hpad]|]).
    apply Forall_nil.
  - rewrite b64_encode_triple. apply Forall_app. split; [|exact IH].
    repeat (apply Forall_cons; [apply b64_is_byte|]). apply Forall_nil.
Qed.

Lemma bytes_of_string_of_bytes :
  forall l, Forall is_byte l -> bytes_of_string (string_of_bytes l) = l.
Proof.
  intros l H. induction H as [|z l Hz Hl IH]; [reflexivity|].
  unfold bytes_of_string, string_of_bytes in *.
  cbn [map string_of_list_ascii list_ascii_of_string].
  rewrite IH. unfold is_byte in Hz.
  rewrite nat_ascii_embedding by lia. f_equal. lia.
Qed.

Lemma string_of_bytes_of_string :
  forall s, string_of_bytes (bytes_of_string s) = s.
Proof.
  induction s as [|c r IH]; [reflexivity|].
  unfold bytes_of_string, string_of_bytes in *.
  cbn [map string_of_list_ascii list_ascii_of_string].
  rewrite IH, Nat2Z.id, ascii_nat_embedding. reflexivity.
Qed.

Lemma bytes_of_string_app :
  forall a b,
    bytes_of_string (a ++ b) = (bytes_of_string a ++ bytes_of_string b)%list.
Proof.
  induction a as [|c a IH]; intros b; [reflexivity|].
  unfold bytes_of_string in *. cbn [append list_ascii_of_string map app].
  rewrite IH. reflexivity.
Qed.

Lemma str_app_inv_head :
  forall a b c : string, a ++ b = a ++ c -> b = c.
Proof.
  induction a as [|x a IH]; intros b c H; [exact H|].
  cbn [append] in H. injection H as H. exact (IH _ _ H).
Qed.

Lemma http_credentials_short :
  forall u p,
    (String.length (u ++ ":" ++ p) <= 255)%nat ->
    http_credentials u p = u ++ ":" ++ p.
Proof.
  intros u p. unfold http_credentials. generalize (u ++ ":" ++ p).
  generalize 255%nat. intros n s. revert n.
  induction s as [|c r IH]; intros n H; [destruct n; reflexivity|].
  destruct n as [|k]; [simpl in H; lia|].
  cbn [str_take]. rewrite IH; [reflexivity|simpl in H; lia].
Qed.

(** X19.  The value of the header that [http_connect] writes decodes, with
    the decoder of RFC 4648, to the credentials as the code keeps them: the
    first 255 characters of [user:pass], which is all of it when it has at
    most 255 characters. *)
Theorem basic_header_decodes_to_the_credentials :
  forall u p,
    exists v,
      http_auth_header u p = "Proxy-Authorization: Basic " ++ v ++ CRLF
      /\ b64_decode (bytes_of_string v)
         = bytes_of_string (str_take 255 (u ++ ":" ++ p))
      /\ ((String.length (u ++ ":" ++ p) <= 255)%nat ->
          b64_decode (bytes_of_string v) = bytes_of_string (u ++ ":" ++ p)).
Proof.
  intros u p.
  exists (string_of_bytes
            (b64_encode (bytes_of_string (http_credentials u p)))).
  split; [reflexivity|].
  rewrite (bytes_of_string_of_bytes _ (b64_encode_bytes _)).
  rewrite (b64_decode_encode _ (bytes_of_string_bytes _)).
  split; [reflexivity|].
  intros H. rewrite (http_credentials_short u p H). reflexivity.
Qed.

(** X20.  Credentials of at most 255 characters are told apart by the
    header: two calls that write the same header were given the same
    [user:pass]. *)
Theorem basic_header_injective :
  forall u p u' p',
    (String.length (u ++ ":" ++ p) <= 255)%nat ->
    (String.length (u' ++ ":" ++ p') <= 255)%nat ->
    http_auth_header u p = http_auth_header u' p' ->
    u ++ ":" ++ p = u' ++ ":" ++ p'.
Proof.
  intros u p u' p' H1 H2 H. unfold http_auth_header in H.
  apply str_app_inv_head in H.
  apply (f_equal bytes_of_string) in H.
  rewrite !bytes_of_string_app in H. apply app_inv_tail in H.
  rewrite !(bytes_of_string_of_bytes _ (b64_encode_bytes _)) in H.
  rewrite (http_credentials_short u p H1) in H.
  rewrite (http_credentials_short u' p' H2) in H.
  apply (f_equal b64_decode) in H.
  rewrite !(b64_decode_encode _ (bytes_of_string_bytes _)) in H.
  apply (f_equal string_of_bytes) in H.
  rewrite !string_of_bytes_of_string in H. exact H.
Qed.

Lemma basic_header_decodes_to_the_credentials_witness :
  exists v,
    http_auth_header "user" "pass"
    = "Proxy-Authorization: Basic " ++ v ++ CRLF
    /\ b64_decode (bytes_of_string v) = bytes_of_string "user:pass".
Proof.
  destruct (basic_header_decodes_to_the_credentials "user" "pass")
    as (v & H1 & _ & H3).
  exists v. split; [exact H1|]. apply H3. simpl. lia.
Defined.

Lemma basic_header_injective_witness :
  http_auth_header "a" "b:c" = http_auth_header "a:b" "c"
  /\ "a" ++ ":" ++ "b:c" = "a:b" ++ ":" ++ "c".
Proof.
  assert (H : http_auth_header "a" "b:c" = http_auth_header "a:b" "c")
    by reflexivity.
  split; [exact H|].
  apply (basic_header_injective "a" "b:c" "a:b" "c");
    [simpl; lia|simpl; lia|exact H].
Defined.

(** ** Saving and loading again *)

Lemma port_text_checked : forallb port_text_ok port_range = true.
Proof. vm_compute. reflexivity. Qed.

Lemma in_z_upto :
  forall n lo x, lo <= x < lo + Z.of_nat n -> In x (z_upto n lo).
Proof.
  induction n as [|k IH]; intros lo x H; [lia|].
  cbn [z_upto]. destruct (Z.eq_dec lo x) as [E|E]; [left; exact E|].
  right. apply IH. lia.
Qed.

Lemma in_port_range : forall n, 1 <= n <= 65535 -> In n port_range.
Proof.
  intros n Hn. unfold port_range. apply in_z_upto. lia.
Qed.

Lemma port_text :
  forall n, 1 <= n <= 65535 ->
    strtol (fmt_d n) = (n, EmptyString)
    /\ token (fmt_d n) = true
    /\ isdigit (deref (fmt_d n)) = true.
Proof.
  intros n Hn.
  pose proof (proj1 (forallb_forall _ _) port_text_checked n
                (in_port_range n Hn)) as H.
  unfold port_text_ok in H.
  destruct (strtol (fmt_d n)) as [v e].
  apply andb_prop in H. destruct H as [H H4].
  apply andb_prop in H. destruct H as [H H3].
  apply andb_prop in H. destruct H as [H1 H2].
  apply Z.eqb_eq in H1. subst v.
  destruct e; [|discriminate]. auto.
Qed.

Lemma token_char_facts :
  forall c, token_char c = true ->
    isspace c = false /\ Ascii.eqb c NUL = false
    /\ Ascii.eqb c ":" = false /\ Ascii.eqb c "@" = false
    /\ Ascii.eqb c "[" = false.
Proof.
  intros c H. unfold token_char in H. apply negb_true_iff in H.
  apply orb_false_iff in H. destruct H as [H H5].
  apply orb_false_iff in H. destruct H as [H H4].
  apply orb_false_iff in H. destruct H as [H H3].
  apply orb_false_iff in H. destruct H as [H1 H2].
  auto.
Qed.

Lemma token_app :
  forall s t, token (s ++ t) = token s && token t.
Proof.
  induction s as [|c r IH]; intros t; simpl; [reflexivity|].
  rewrite IH, andb_assoc. reflexivity.
Qed.

Lemma token_strchr :
  forall s, token s = true ->
    strchr s ":" = None /\ strchr s "@" = None /\ strrchr s "@" = None.
Proof.
  induction s as [|c r IH]; intros H; simpl in *; [auto|].
  apply andb_prop in H. destruct H as [Hc Hr].
  destruct (token_char_facts c Hc) as (_ & _ & H1 & H2 & _).
  destruct (IH Hr) as (I1 & I2 & I3).
  rewrite H1, H2, I1, I2, I3. auto.
Qed.

Lemma token_edges :
  forall s, token s = true ->
    isspace (deref s) = false /\ isspace (str_last s) = false
    /\ Ascii.eqb (deref s) "[" = false.
Proof.
  induction s as [|c r IH]; intros H; [repeat split; reflexivity|].
  simpl in H. apply andb_prop in H. destruct H as [Hc Hr].
  destruct (token_char_facts c Hc) as (H0 & _ & _ & _ & H4).
  destruct (IH Hr) as (_ & I2 & _).
  split; [exact H0|]. split; [|exact H4].
  destruct r; [exact H0|exact I2].
Qed.

Lemma token_no_eol : forall s, token s = true -> no_eol s = true.
Proof.
  induction s as [|c r IH]; intros H; simpl in *; [reflexivity|].
  apply andb_prop in H. destruct H as [Hc Hr].
  rewrite (IH Hr), andb_true_r.
  destruct (token_char_facts c Hc) as (H0 & H1 & _).
  rewrite H1. unfold isspace in H0.
  destruct (Ascii.eqb c LF) eqn:E1.
  { apply Ascii.eqb_eq in E1. subst c. discriminate. }
  destruct (Ascii.eqb c CR) eqn:E2.
  { apply Ascii.eqb_eq in E2. subst c. discriminate. }
  reflexivity.
Qed.

Lemma no_eol_app :
  forall s t, no_eol (s ++ t) = no_eol s && no_eol t.
Proof.
  induction s as [|c r IH]; intros t; simpl; [reflexivity|].
  rewrite IH, andb_assoc. reflexivity.
Qed.

Lemma strchr_app :
  forall s c t,
    strchr s c = None -> strchr (s ++ String c t) c = Some (String.length s).
Proof.
  induction s as [|d r IH]; intros c t H; simpl in *.
  - rewrite Ascii.eqb_refl. reflexivity.
  - destruct (Ascii.eqb d c); [discriminate|].
    destruct (strchr r c) eqn:E; [discriminate|].
    rewrite (IH c t E). reflexivity.
Qed.

Lemma strchr_app_none :
  forall s t c,
    strchr s c = None -> strchr t c = None -> strchr (s ++ t) c = None.
Proof.
  induction s as [|d r IH]; intros t c Hs Ht; simpl in *; [exact Ht|].
  destruct (Ascii.eqb d c); [discriminate|].
  destruct (strchr r c) eqn:E; [discriminate|].
  rewrite (IH t c E Ht). reflexivity.
Qed.

Lemma strrchr_app :
  forall s c t,
    strrchr t c = None -> strrchr (s ++ String c t) c = Some (String.length s).
Proof.
  induction s as [|d r IH]; intros c t H; simpl.
  - rewrite H, Ascii.eqb_refl. reflexivity.
  - rewrite (IH c t H). reflexivity.
Qed.

Lemma strrchr_app_none :
  forall s t c,
    strrchr s c = None -> strrchr t c = None -> strrchr (s ++ t) c = None.
Proof.
  induction s as [|d r IH]; intros t c Hs Ht; simpl in *; [exact Ht|].
  destruct (strrchr r c) eqn:E; [discriminate|].
  rewrite (IH t c E Ht). exact Hs.
Qed.

Lemma split_at_app :
  forall s k m t,
    String.length m = k ->
    split_at (String.length s) k (s ++ m ++ t) = (s, t).
Proof.
  intros s k m t Hk. unfold split_at. f_equal.
  - induction s as [|c r IH]; simpl.
    + destruct (m ++ t); reflexivity.
    + rewrite IH. reflexivity.
  - induction s as [|c r IH]; simpl.
    + subst k. clear. induction m as [|c r IH]; simpl; [|exact IH].
      destruct t; reflexivity.
    + exact IH.
Qed.

Lemma deref_app :
  forall s t, is_empty s = false -> deref (s ++ t) = deref s.
Proof. intros [|c r] t H; [discriminate|reflexivity]. Qed.

Lemma str_last_app :
  forall s t, is_empty t = false -> str_last (s ++ t) = str_last t.
Proof.
  induction s as [|c r IH]; intros t H; [reflexivity|].
  simpl. rewrite (IH t H).
  destruct (r ++ t) eqn:E; [|reflexivity].
  destruct r; destruct t; discriminate.
Qed.

Lemma is_empty_app :
  forall s t, is_empty (s ++ t) = is_empty s && is_empty t.
Proof. intros [|c r] t; reflexivity. Qed.

Lemma trim_whitespace_fixed :
  forall s,
    isspace (deref s) = false -> isspace (str_last s) = false ->
    trim_whitespace s = s.
Proof.
  intros s H1 H2. unfold trim_whitespace.
  rewrite (skip_space_fixed s H1). apply chop_space_fixed. right. exact H2.
Qed.

Lemma token_trim :
  forall s, token s = true -> trim_whitespace s = s.
Proof.
  intros s H. destruct (token_edges s H) as (H1 & H2 & _).
  apply trim_whitespace_fixed; assumption.
Qed.

Lemma length_append_ :
  forall a b : string,
    String.length (a ++ b) = (String.length a + String.length b)%nat.
Proof.
  induction a as [|x a IH]; intros b; simpl; [reflexivity|].
  rewrite IH. reflexivity.
Qed.

Lemma plain_tokens_host_port :
  forall h ps,
    token h = true -> token ps = true ->
    is_empty h = false -> is_empty ps = false ->
    plain_tokens (h ++ ":" ++ ps)
    = Some (mkTokens h ps None None false).
Proof.
  intros h ps Hh Hp Eh Ep. unfold plain_tokens.
  destruct (token_strchr h Hh) as (Hc & _).
  destruct (token_strchr ps Hp) as (Hpc & _).
  cbn [split_colon].
  change (h ++ ":" ++ ps) with (h ++ String ":" ps).
  rewrite (strchr_app h ":" ps Hc).
  change (h ++ String ":" ps) with (h ++ ":" ++ ps).
  rewrite (split_at_app h 1 ":" ps eq_refl).
  rewrite Hpc.
  rewrite (token_trim h Hh), (token_trim ps Hp), Eh, Ep.
  reflexivity.
Qed.

Lemma scheme_facts :
  forall t, t <> PROXY_NONE ->
    exists name,
      scheme_of t = name ++ "://"
      /\ token name = true /\ is_empty name = false
      /\ Ascii.eqb (deref name) "#" = false
      /\ (forall rest,
            strstr (name ++ "://" ++ rest) "://" = Some (String.length name))
      /\ (forall dt,
            (if x_strcasecmp name "http" =? 0 then PROXY_HTTP
             else if x_strcasecmp name "https" =? 0 then PROXY_HTTPS
             else if x_strcasecmp name "socks4" =? 0 then PROXY_SOCKS4
             else if x_strcasecmp name "socks5" =? 0 then PROXY_SOCKS5
             else dt) = t)
      /\ (forall rest, is_empty (c_str (name ++ rest)) = false).
Proof.
  intros t Ht. destruct t; [congruence| | | |].
  - exists "http". repeat split; try reflexivity.
    intros [|c r]; reflexivity.
  - exists "https". repeat split; try reflexivity.
    intros [|c r]; reflexivity.
  - exists "socks4". repeat split; try reflexivity.
    intros [|c r]; reflexivity.
  - exists "socks5". repeat split; try reflexivity.
    intros [|c r]; reflexivity.
Qed.

Lemma parse_saved_text :
  forall g dt t name cred h n a,
    (forall rest,
       strstr (name ++ "://" ++ rest) "://" = Some (String.length name)) ->
    (forall dt,
       (if x_strcasecmp name "http" =? 0 then PROXY_HTTP
        else if x_strcasecmp name "https" =? 0 then PROXY_HTTPS
        else if x_strcasecmp name "socks4" =? 0 then PROXY_SOCKS4
        else if x_strcasecmp name "socks5" =? 0 then PROXY_SOCKS5
        else dt) = t) ->
    (forall rest, is_empty (c_str (name ++ rest)) = false) ->
    token name = true -> is_empty name = false ->
    Ascii.eqb (deref name) "#" = false ->
    token h = true -> is_empty h = false ->
    1 <= n <= 65535 ->
    match cred with
    | Some (u, pw) =>
        token u = true /\ token pw = true
        /\ is_empty u = false /\ is_empty pw = false
    | None => True
    end ->
    (String.length
       (name ++ "://"
        ++ (match cred with
            | Some (u, pw) => u ++ ":" ++ pw ++ "@"
            | None => ""
            end) ++ h ++ ":" ++ fmt_d n) <= 511)%nat ->
    g h (fmt_d n) AF_UNSPEC = Some (mkAddrinfo AF_INET a) ->
    parse_proxy_line g
      (name ++ "://"
       ++ (match cred with
           | Some (u, pw) => u ++ ":" ++ pw ++ "@"
           | None => ""
           end) ++ h ++ ":" ++ fmt_d n ++ LFs) dt
    = Some (mkProxy h n (option_map fst cred) (option_map snd cred) t
                    PROXY_NONE false false false false 0 a sockaddr_zero).
Proof.
  intros g dt t name cred h n a Hstr Hty Hnz Hname Ename Hhash Hh Eh Hn
         Hcred Hlen Hg.
  destruct (port_text n Hn) as (Hps & Tps & Dps).
  set (ps := fmt_d n) in *.
  assert (Eps : is_empty ps = false).
  { destruct ps; [discriminate|reflexivity]. }
  set (cr := match cred with
             | Some (u, pw) => u ++ ":" ++ pw ++ "@"
             | None => ""
             end) in *.
  set (hp := h ++ ":" ++ ps).
  assert (Thp_edges : isspace (str_last hp) = false
                      /\ is_empty hp = false
                      /\ isspace (deref hp) = false
                      /\ Ascii.eqb (deref hp) "[" = false
                      /\ no_eol hp = true
                      /\ strrchr hp "@" = None).
  { unfold hp.
    destruct (token_edges h Hh) as (A1 & A2 & A3).
    destruct (token_edges ps Tps) as (B1 & B2 & B3).
    split.
    { rewrite str_last_app by reflexivity.
      change (":" ++ ps) with (String ":" ps).
      destruct ps; [discriminate|]. exact B2. }
    split; [rewrite is_empty_app, Eh; reflexivity|].
    split; [rewrite deref_app by exact Eh; exact A1|].
    split; [rewrite deref_app by exact Eh; exact A3|].
    split.
    { rewrite !no_eol_app, (token_no_eol h Hh), (token_no_eol ps Tps).
      reflexivity. }
    apply strrchr_app_none; [apply token_strchr; exact Hh|].
    apply (strrchr_app_none ":" ps); [reflexivity|].
    apply token_strchr; exact Tps. }
  destruct Thp_edges as (L1 & L2 & L3 & L4 & L5 & L6).
  set (body := cr ++ hp).
  assert (Hbody : isspace (deref body) = false
                  /\ isspace (str_last body) = false
                  /\ is_empty body = false /\ no_eol body = true).
  { unfold body. split.
    { unfold cr. destruct cred as [[u pw]|]; [|exact L3].
      destruct Hcred as (Tu & Tpw & Eu & Epw).
      rewrite !str_app_assoc. rewrite deref_app by exact Eu.
      apply token_edges; exact Tu. }
    split; [rewrite str_last_app by exact L2; exact L1|].
    split; [rewrite is_empty_app, L2, andb_false_r; reflexivity|].
    rewrite no_eol_app, L5, andb_true_r.
    unfold cr. destruct cred as [[u pw]|]; [|reflexivity].
    destruct Hcred as (Tu & Tpw & Eu & Epw).
    rewrite !no_eol_app, (token_no_eol u Tu), (token_no_eol pw Tpw).
    reflexivity. }
  destruct Hbody as (B1 & B2 & B3 & B4).
  set (W := name ++ "://" ++ body).
  assert (Eline :
    name ++ "://" ++ cr ++ h ++ ":" ++ ps ++ LFs = W ++ String LF "").
  { unfold W, body, hp, LFs. rewrite !str_app_assoc. reflexivity. }
  assert (Hlen' : (String.length W <= 511)%nat).
  { unfold W, body, hp. exact Hlen. }
  assert (HW : no_eol W = true /\ is_empty W = false
               /\ isspace (deref W) = false /\ isspace (str_last W) = false
               /\ Ascii.eqb (deref W) "[" = false
               /\ Ascii.eqb (deref W) "#" = false).
  { unfold W. destruct (token_edges name Hname) as (A1 & A2 & A3).
    split.
    { rewrite !no_eol_app, (token_no_eol name Hname), B4. reflexivity. }
    split; [rewrite is_empty_app, Ename; reflexivity|].
    split; [rewrite deref_app by exact Ename; exact A1|].
    split.
    { rewrite str_last_app; [rewrite str_last_app by exact B3; exact B2|].
      reflexivity. }
    rewrite !deref_app by exact Ename. auto. }
  destruct HW as (W1 & W2 & W3 & W4 & W5 & W6).
  rewrite Eline. unfold parse_proxy_line.
  unfold W at 1. rewrite str_app_assoc, Hnz. fold W.
  unfold line_buffer. change (MAX_PROXY_LINE - 1)%nat with 511%nat.
  rewrite (line_buffer_cut W LF "" 511 W1 Hlen' (or_introl eq_refl)).
  rewrite (trim_whitespace_fixed W W3 W4).
  rewrite W2, W5, W6. cbv zeta. rewrite !andb_false_r. cbn [andb orb].
  cbv iota. rewrite W2.
  unfold W at 1. rewrite Hstr.
  unfold W at 1. rewrite (split_at_app name 3 "://" body eq_refl).
  rewrite Hty, (trim_whitespace_fixed body B1 B2).
  assert (Hcr :
    match strrchr body "@" with
    | Some i =>
        let '(before, after) := split_at i 1 body in
        if is_empty (trim_whitespace before)
        then (None, None, trim_whitespace after)
        else
          match strchr (trim_whitespace before) ":" with
          | Some j =>
              let '(u, p) := split_at j 1 (trim_whitespace before) in
              (Some (trim_whitespace u), Some (trim_whitespace p),
               trim_whitespace after)
          | None =>
              (Some (trim_whitespace before), None, trim_whitespace after)
          end
    | None => (None, None, trim_whitespace body)
    end = (option_map fst cred, option_map snd cred, hp)).
  { unfold body, cr. destruct cred as [[u pw]|].
    - destruct Hcred as (Tu & Tpw & Eu & Epw).
      destruct (token_edges u Tu) as (U1 & U2 & _).
      destruct (token_edges pw Tpw) as (P1 & P2 & _).
      destruct (token_strchr u Tu) as (Uc & _).
      replace ((u ++ ":" ++ pw ++ "@") ++ hp)
        with ((u ++ ":" ++ pw) ++ String "@" hp)
        by (rewrite !str_app_assoc; reflexivity).
      rewrite (strrchr_app (u ++ ":" ++ pw) "@" hp L6).
      change (String "@" hp) with ("@" ++ hp).
      rewrite (split_at_app (u ++ ":" ++ pw) 1 "@" hp eq_refl).
      assert (Eup : trim_whitespace (u ++ ":" ++ pw) = u ++ ":" ++ pw).
      { apply trim_whitespace_fixed.
        - rewrite deref_app by exact Eu. exact U1.
        - rewrite str_last_app by reflexivity.
          change (":" ++ pw) with (String ":" pw).
          destruct pw; [discriminate|]. exact P2. }
      rewrite Eup, is_empty_app, Eu. cbn [andb].
      change (u ++ ":" ++ pw) with (u ++ String ":" pw).
      rewrite (strchr_app u ":" pw Uc).
      change (u ++ String ":" pw) with (u ++ ":" ++ pw).
      rewrite (split_at_app u 1 ":" pw eq_refl).
      rewrite (token_trim u Tu), (token_trim pw Tpw).
      rewrite (trim_whitespace_fixed hp L3 L1). reflexivity.
    - cbn [append]. rewrite L6, (trim_whitespace_fixed hp L3 L1).
      reflexivity. }
  rewrite Hcr. rewrite L2, L4. unfold hp.
  rewrite (plain_tokens_host_port h ps Hh Tps Eh Eps).
  cbn [host_token port_token suffix_user suffix_pass tok_ipv6].
  rewrite Eh, Eps, Hps. cbn [orb skip_space is_empty negb].
  replace (n <=? 0) with false by (symmetry; apply Z.leb_gt; lia).
  replace (65535 <? n) with false by (symmetry; apply Z.ltb_ge; lia).
  cbn [orb]. fold ps. rewrite Hg.
  f_equal. f_equal.
  - destruct cred as [[u pw]|]; [|reflexivity].
    destruct Hcred as (Tu & Tpw & Eu & Epw).
    cbn [option_map fst nonempty]. rewrite Eu. reflexivity.
  - destruct cred as [[u pw]|]; [|reflexivity].
    destruct Hcred as (Tu & Tpw & Eu & Epw).
    cbn [option_map snd nonempty]. rewrite Epw. reflexivity.
Qed.

Ltac str_len :=
  repeat (first [ rewrite length_append_ in *
                | progress cbn [String.length append] in * ]);
  lia.

Lemma parse_saved_line :
  forall g dt p a,
    saveable p ->
    g (host p) (fmt_d (port p)) AF_UNSPEC = Some (mkAddrinfo AF_INET a) ->
    parse_proxy_line g (saved_line p) dt = Some (reloaded p a).
Proof.
  intros g dt p a (Ht & Eh & Hh & Hn & Hcr & Hlen) Hg.
  destruct (scheme_facts (type p) Ht)
    as (name & Es & Tn & En & Hhash & Hstr & Hty & Hnz).
  assert (Hplain :
    (String.length (scheme_of (type p) ++ host p ++ ":" ++ fmt_d (port p)
                    ++ LFs) <= 511)%nat ->
    parse_proxy_line g
      (scheme_of (type p) ++ host p ++ ":" ++ fmt_d (port p) ++ LFs) dt
    = Some (mkProxy (host p) (port p) None None (type p) PROXY_NONE false
                    false false false 0 a sockaddr_zero)).
  { intros L. rewrite Es, str_app_assoc in *.
    apply (parse_saved_text g dt (type p) name None (host p) (port p) a);
      auto.
    clear - L. unfold LFs in L. str_len. }
  unfold reloaded, saved_line, has_credentials in *.
  destruct (username p) as [u|] eqn:Eu; [|destruct (password p); auto].
  destruct (password p) as [pw|] eqn:Epw; [|auto].
  destruct (Hcr u pw eq_refl eq_refl) as (Tu & Tpw).
  destruct (is_empty u) eqn:Iu; cbn [negb andb] in *; [auto|].
  destruct (is_empty pw) eqn:Ipw; cbn [negb andb] in *; [auto|].
  rewrite Es, str_app_assoc in *.
  pose proof (parse_saved_text g dt (type p) name (Some (u, pw))
                (host p) (port p) a Hstr Hty Hnz Tn En Hhash Hh Eh Hn)
    as H.
  cbn [option_map fst snd] in H.
  rewrite !str_app_assoc in H. apply H; auto.
  clear - Hlen. unfold LFs in Hlen. str_len.
Qed.

Lemma saved_line_shape :
  forall p,
    saveable p ->
    exists body,
      saved_line p = body ++ String LF ""
      /\ no_eol body = true /\ (String.length body < 511)%nat.
Proof.
  intros p (Ht & Eh & Hh & Hn & Hcr & Hlen).
  destruct (scheme_facts (type p) Ht) as (name & Es & Tn & _).
  destruct (port_text (port p) Hn) as (_ & Tps & _).
  assert (Hplain :
    exists body,
      scheme_of (type p) ++ host p ++ ":" ++ fmt_d (port p) ++ LFs
      = body ++ String LF ""
      /\ no_eol body = true
      /\ String.length body
         = (String.length (scheme_of (type p) ++ host p ++ ":"
                           ++ fmt_d (port p) ++ LFs) - 1)%nat).
  { exists (scheme_of (type p) ++ host p ++ ":" ++ fmt_d (port p)).
    split; [unfold LFs; rewrite !str_app_assoc; reflexivity|].
    split.
    - rewrite Es, !no_eol_app, (token_no_eol name Tn),
        (token_no_eol (host p) Hh), (token_no_eol _ Tps). reflexivity.
    - unfold LFs. str_len. }
  unfold saved_line in *.
  destruct (username p) as [u|] eqn:Eu.
  2:{ destruct Hplain as (body & E1 & E2 & E3).
      exists body. rewrite E1. split; [reflexivity|].
      split; [exact E2|]. lia. }
  destruct (password p) as [pw|] eqn:Epw.
  2:{ destruct Hplain as (body & E1 & E2 & E3).
      exists body. rewrite E1. split; [reflexivity|].
      split; [exact E2|]. lia. }
  destruct (negb (is_empty u) && negb (is_empty pw)).
  2:{ destruct Hplain as (body & E1 & E2 & E3).
      exists body. rewrite E1. split; [reflexivity|].
      split; [exact E2|]. lia. }
  destruct (Hcr u pw eq_refl eq_refl) as (Tu & Tpw).
  exists (scheme_of (type p) ++ u ++ ":" ++ pw ++ "@" ++ host p ++ ":"
          ++ fmt_d (port p)).
  split; [unfold LFs; rewrite !str_app_assoc; reflexivity|].
  split.
  - rewrite Es, !no_eol_app, (token_no_eol name Tn), (token_no_eol u Tu),
      (token_no_eol pw Tpw), (token_no_eol (host p) Hh),
      (token_no_eol _ Tps). reflexivity.
  - clear - Hlen. unfold LFs in Hlen. str_len.
Qed.

Lemma no_eol_head :
  forall c r, no_eol (String c r) = true ->
    Ascii.eqb c LF = false /\ no_eol r = true.
Proof.
  intros c r H. simpl in H. apply andb_prop in H. destruct H as [H Hr].
  apply negb_true_iff in H. apply orb_false_iff in H. destruct H as [H _].
  apply orb_false_iff in H. destruct H as [_ H]. auto.
Qed.

Lemma fgets_lines_line :
  forall s acc room rest,
    no_eol s = true ->
    (String.length s < room)%nat ->
    fgets_lines acc room (s ++ String LF rest)
    = (acc ++ s ++ String LF "")
      :: fgets_lines EmptyString (MAX_PROXY_LINE - 1) rest.
Proof.
  induction s as [|c r IH]; intros acc room rest Hs Hr.
  - reflexivity.
  - destruct (no_eol_head c r Hs) as [Hc Hs'].
    cbn [append fgets_lines String.length] in *. rewrite Hc.
    replace (Nat.eqb room 1) with false
      by (symmetry; apply Nat.eqb_neq; lia).
    cbn [orb]. rewrite (IH _ (room - 1)%nat rest Hs') by lia.
    rewrite str_app_assoc. reflexivity.
Qed.

Lemma fgets_lines_saved :
  forall l,
    Forall saveable l ->
    fgets_lines EmptyString (MAX_PROXY_LINE - 1) (cat (map saved_line l))
    = map saved_line l.
Proof.
  intros l H. induction H as [|p l Hp Hl IH]; [reflexivity|].
  destruct (saved_line_shape p Hp) as (body & E1 & E2 & E3).
  cbn [map cat]. rewrite E1, str_app_assoc. cbn [append].
  rewrite (fgets_lines_line body EmptyString _ _ E2)
    by (change (MAX_PROXY_LINE - 1)%nat with 511%nat; exact E3).
  rewrite IH. reflexivity.
Qed.

Lemma save_loop_text :
  forall l out count,
    save_loop l out count
    = (out ++ cat (map saved_line l), count + Zlength_ l).
Proof.
  induction l as [|p l IH]; intros out count; cbn [save_loop map cat].
  - rewrite str_app_nil_r. unfold Zlength_. simpl. f_equal. lia.
  - rewrite IH, str_app_assoc. f_equal. unfold Zlength_.
    cbn [List.length]. lia.
Qed.

Lemma parsed_saved_lines :
  forall g dt l,
    Forall saveable l ->
    Forall (fun p => g (host p) (fmt_d (port p)) AF_UNSPEC
                     = Some (mkAddrinfo AF_INET (addr p))) l ->
    parsed_proxies g dt (map saved_line l)
    = map (fun p => reloaded p (addr p)) l.
Proof.
  intros g dt l Hs Hg. induction Hs as [|p l Hp Hl IH]; [reflexivity|].
  inversion Hg as [|? ? Hgp Hgl]; subst.
  unfold parsed_proxies in *. cbn [map flat_map].
  rewrite (parse_saved_line g dt p (addr p) Hp Hgp), (IH Hgl).
  reflexivity.
Qed.

(** X21.  A line that [save_validated_proxies] writes is read back by
    [parse_proxy_line] as the proxy it was written for: same type, host,
    port and credentials, whatever the default type of the reader.  This
    holds for a proxy with a type, a port in range, and a host and
    credentials free of white space, [:], [@] and the opening bracket, whose
    line has at most 511 characters and whose host resolves to an IPv4
    address. *)
Theorem saved_line_parses_back :
  forall getaddrinfo default_type p a,
    saveable p ->
    getaddrinfo (host p) (fmt_d (port p)) AF_UNSPEC
    = Some (mkAddrinfo AF_INET a) ->
    parse_proxy_line getaddrinfo (saved_line p) default_type
    = Some (reloaded p a).
Proof.
  intros g dt p a Hp Hg. apply parse_saved_line; assumption.
Qed.

(** X22.  Saving a pool of such proxies and loading the file again gives
    the same proxies in the same order, with the validation fields cleared:
    the result of [load_proxies] is the number that
    [save_validated_proxies] returned, the length of the pool. *)
Theorem save_then_load :
  forall getaddrinfo fopen_w fopen_r filename default_type x y n out,
    Forall saveable (proxy_list x) ->
    Forall (fun p => getaddrinfo (host p) (fmt_d (port p)) AF_UNSPEC
                     = Some (mkAddrinfo AF_INET (addr p))) (proxy_list x) ->
    save_validated_proxies fopen_w filename x = (n, Some out) ->
    fopen_r filename = Some out ->
    fst (load_proxies getaddrinfo fopen_r filename default_type y) = n
    /\ n = Zlength_ (proxy_list x)
    /\ proxy_list
         (snd (load_proxies getaddrinfo fopen_r filename default_type y))
       = map (fun p => reloaded p (addr p)) (proxy_list x).
Proof.
  intros g fw fr f dt x y n out Hs Hg Hsave Hopen.
  unfold save_validated_proxies in Hsave.
  destruct (fw f); [|discriminate].
  rewrite save_loop_text in Hsave. cbn [append] in Hsave.
  inversion Hsave; subst n out. clear Hsave.
  unfold load_proxies. rewrite Hopen.
  rewrite (fgets_lines_saved _ Hs), load_lines_spec.
  rewrite (parsed_saved_lines g dt _ Hs Hg).
  cbn [del_proxy_all set_pool proxy_list app].
  unfold Zlength_. rewrite length_map.
  destruct (proxy_list x) as [|p l] eqn:El.
  - cbn. repeat split; reflexivity.
  - replace (0 <? 0 + Z.of_nat (List.length (p :: l))) with true
      by (symmetry; apply Z.ltb_lt; cbn [List.length]; lia).
    cbn [fst snd proxy_list]. repeat split; reflexivity.
Qed.

Lemma saved_line_parses_back_witness :
  parse_proxy_line literal_resolver
    (saved_line (mark_validated
                   (mkProxy "198.51.100.4" 1080 (Some "u") (Some "p")
                            PROXY_NONE PROXY_NONE false false false false 0
                            (mkSockaddr 2 1080) sockaddr_zero)
                   PROXY_SOCKS5 12))
    PROXY_HTTP
  = Some (mkProxy "198.51.100.4" 1080 (Some "u") (Some "p") PROXY_SOCKS5
                  PROXY_NONE false false false false 0 (mkSockaddr 2 1080)
                  sockaddr_zero).
Proof.
  apply (saved_line_parses_back literal_resolver PROXY_HTTP
           (mark_validated
              (mkProxy "198.51.100.4" 1080 (Some "u") (Some "p")
                       PROXY_NONE PROXY_NONE false false false false 0
                       (mkSockaddr 2 1080) sockaddr_zero)
              PROXY_SOCKS5 12)
           (mkSockaddr 2 1080)).
  - split; [discriminate|]. split; [reflexivity|]. split; [reflexivity|].
    split; [simpl; lia|]. split.
    + intros u pw Eu Ep. simpl in Eu, Ep. inversion Eu. inversion Ep.
      split; reflexivity.
    + vm_compute. lia.
  - reflexivity.
Defined.

Lemma save_then_load_witness :
  proxy_list
    (snd (load_proxies literal_resolver
            (fun _ => Some ("socks5://u:p@198.51.100.4:1080" ++ LFs
                            ++ "http://proxy.example.org:8080" ++ LFs))
            "proxies.txt" PROXY_NONE demo_pool))
  = map (fun p => reloaded p (addr p))
        [mkProxy "198.51.100.4" 1080 (Some "u") (Some "p") PROXY_SOCKS5
                 PROXY_SOCKS5 false true true true 12 (mkSockaddr 2 1080)
                 sockaddr_zero;
         mkProxy "proxy.example.org" 8080 None None PROXY_HTTP PROXY_HTTP
                 false true false true 40 (mkSockaddr 2 8080) sockaddr_zero].
Proof.
  eapply (save_then_load literal_resolver (fun _ => true) _ "proxies.txt"
            PROXY_NONE
            (mkXaddress
               [mkProxy "198.51.100.4" 1080 (Some "u") (Some "p")
                        PROXY_SOCKS5 PROXY_SOCKS5 false true true true 12
                        (mkSockaddr 2 1080) sockaddr_zero;
                mkProxy "proxy.example.org" 8080 None None PROXY_HTTP
                        PROXY_HTTP false true false true 40
                        (mkSockaddr 2 8080) sockaddr_zero]
               None 2 PROXY_NONE None 0)
            demo_pool).
  - apply Forall_cons; [|apply Forall_cons; [|apply Forall_nil]];
      (split; [discriminate|]; split; [reflexivity|]; split; [reflexivity|];
       split; [simpl; lia|];
       split;
       [ intros u pw Eu Ep; simpl in Eu, Ep; try discriminate;
         inversion Eu; inversion Ep; split; reflexivity
       | vm_compute; lia ]).
  - apply Forall_cons; [reflexivity|].
    apply Forall_cons; [reflexivity|apply Forall_nil].
  - vm_compute. reflexivity.
  - reflexivity.
Defined.

(** ** What a success means *)

Lemma safe_write_full :
  forall data t w n w',
    safe_write_with_timeout data t w = (n, w') ->
    (n = -1 \/ n = Zlength_ data)
    /\ (n = Zlength_ data -> sent w' = (sent w ++ data)%list)
    /\ rx w' = rx w /\ console w' = console w.
Proof.
  intros data t w n w' H. unfold safe_write_with_timeout in H.
  pose proof (safe_write_loop_sent (tx w) data t 0 w) as L.
  destruct (safe_write_loop (tx w) data t 0 w) as [[n0 evs] w0].
  inversion H; subst n w'. clear H.
  destruct L as (H1 & (k & Hk & Hs & Hd) & H3 & H4).
  { unfold Zlength_. lia. }
  simpl in Hs. rewrite Nat.sub_0_r in Hs.
  split; [exact H1|]. cbn [sent rx console set_tx].
  split; [|auto].
  intros Hn. rewrite Hs. rewrite Hd; [rewrite firstn_all; reflexivity|].
  unfold Zlength_ in Hn. lia.
Qed.

Lemma safe_read_full :
  forall count t w n buf w',
    safe_read_with_timeout count t w = ((n, buf), w') ->
    rx_stream (rx w) = (buf ++ rx_stream (rx w'))%list
    /\ (n = -1 \/ n = Zlength_ buf)
    /\ Zlength_ buf <= Z.max 0 count
    /\ sent w' = sent w /\ console w' = console w.
Proof.
  intros count t w n buf w' H. unfold safe_read_with_timeout in H.
  pose proof (safe_read_loop_stream (rx w) count t 0 [] w eq_refl) as L.
  destruct (safe_read_loop (rx w) count t 0 [] w) as [[[n0 buf0] evs] w0].
  inversion H; subst n buf w'. clear H.
  destruct L as (H1 & H2 & H3 & H4 & H5 & H6 & H7).
  simpl in H1. simpl. repeat split; try assumption. lia.
Qed.

Lemma lift_Some :
  forall {A} (f : world -> A * world) w a w',
    lift f w = Some (a, w') -> f w = (a, w').
Proof. intros A f w a w' H. unfold lift in H. inversion H. reflexivity. Qed.

Lemma failed_is_not_0 :
  forall (m : M unit) w w',
    bind m (fun _ => ret (-1)) w = Some (0, w') -> False.
Proof.
  intros m w w' H. bind_inv H. apply ret_Some in H. destruct H; lia.
Qed.

(** X23.  [socks4_connect] reports success only when the destination
    resolved, the whole request went out, and the proxy answered with eight
    bytes of which the first two are 0 and 90; the eight bytes are all that
    it takes from the socket, and it prints nothing. *)
Theorem socks4_connect_granted :
  forall inet_pton4 gethostbyname dest_host dest_port userid w w',
    socks4_connect inet_pton4 gethostbyname dest_host dest_port userid w
    = Some (0, w') ->
    exists ip reply,
      (match inet_pton4 dest_host with
       | Some a => Some a
       | None => snd (gethostbyname dest_host)
       end) = Some ip
      /\ sent w' = (sent w ++ socks4_request ip dest_port userid)%list
      /\ rx_stream (rx w) = (reply ++ rx_stream (rx w'))%list
      /\ Zlength_ reply = 8
      /\ byte_at reply 0 = 0 /\ byte_at reply 1 = 90
      /\ console w' = console w.
Proof.
  intros inet gh h pt uid w00 w' H. unfold socks4_connect in H.
  bind_inv H. rename a into r0. rename Hm into Hres.
  destruct (socks4_resolve_run inet gh h w00)
    as (wr & Hrun & _ & Erx & Esent & Econs & _).
  rewrite Hrun in Hres. injection Hres as E1 E2. subst wr r0.
  rewrite <- Erx, <- Esent, <- Econs.
  destruct (match inet h with Some a => Some a | None => snd (gh h) end)
    as [ip|]; [|exfalso; exact (failed_is_not_0 _ _ _ H)].
  unfold socks4_exchange in H.
  destruct (nonempty uid && (503 <? Zlength_ (opt_bytes uid)));
    [discriminate|].
  bind_inv H. apply lift_Some in Hm.
  destruct (safe_write_full _ _ _ _ _ Hm) as (_ & Hs & Hrx & Hc).
  destruct (a =? Zlength_ (socks4_request ip pt uid)) eqn:Ea;
    cbn [negb] in H; [|exfalso; exact (failed_is_not_0 _ _ _ H)].
  apply Z.eqb_eq in Ea. specialize (Hs Ea).
  bind_inv H. destruct a0 as [n buf]. apply lift_Some in Hm0.
  destruct (safe_read_full _ _ _ _ _ _ Hm0) as (Hst & Hn & Hle & Hs2 & Hc2).
  destruct (n =? 8) eqn:En; cbn [negb] in H;
    [|exfalso; exact (failed_is_not_0 _ _ _ H)].
  apply Z.eqb_eq in En.
  destruct (negb (byte_at buf 0 =? 0) || negb (byte_at buf 1 =? 90)) eqn:Eb;
    [exfalso; exact (failed_is_not_0 _ _ _ H)|].
  apply ret_Some in H. destruct H as [_ H]. subst w'.
  apply orb_false_iff in Eb. destruct Eb as [E0 E1].
  apply negb_false_iff in E0. apply negb_false_iff in E1.
  apply Z.eqb_eq in E0. apply Z.eqb_eq in E1.
  exists ip, buf. split; [reflexivity|].
  split; [rewrite Hs2; exact Hs|].
  split; [rewrite <- Hrx; exact Hst|].
  split; [lia|]. split; [exact E0|]. split; [exact E1|].
  rewrite Hc2. exact Hc.
Qed.

Lemma socks5_drain_granted :
  forall atyp w w',
    socks5_drain atyp w = Some (0, w') ->
    exists bound,
      rx_stream (rx w) = (bound ++ rx_stream (rx w'))%list
      /\ socks5_bound atyp bound
      /\ sent w' = sent w /\ console w' = console w.
Proof.
  intros atyp w w' H. unfold socks5_drain in H. bind_inv H.
  destruct a as [ok skip].
  assert (Hpre : exists pre,
    rx_stream (rx w) = (pre ++ rx_stream (rx w0))%list
    /\ sent w0 = sent w /\ console w0 = console w
    /\ (ok = true ->
        if atyp =? 1 then pre = [] /\ skip = 6
        else if atyp =? 3 then
          exists alen, pre = [alen] /\ skip = alen + 2
        else if atyp =? 4 then pre = [] /\ skip = 18
        else pre = [] /\ skip = 0)).
  { destruct (atyp =? 1).
    { apply ret_Some in Hm. destruct Hm as [E1 E2]. inversion E1; subst.
      exists []. auto. }
    destruct (atyp =? 3).
    { bind_inv Hm. destruct a as [n alen]. apply lift_Some in Hm0.
      destruct (safe_read_full _ _ _ _ _ _ Hm0) as (Hst & Hn & Hle & Hs & Hc).
      destruct (n =? 1) eqn:En; cbn [negb] in Hm.
      - apply Z.eqb_eq in En. apply ret_Some in Hm.
        destruct Hm as [E1 E2]. inversion E1; subst.
        exists alen. repeat split; try assumption. intros _.
        destruct alen as [|b [|b' r]]; unfold Zlength_ in *;
          cbn [List.length] in *; try lia.
        exists b. split; reflexivity.
      - apply ret_Some in Hm. destruct Hm as [E1 E2]. inversion E1; subst.
        exists alen. repeat split; try assumption. discriminate. }
    destruct (atyp =? 4).
    { apply ret_Some in Hm. destruct Hm as [E1 E2]. inversion E1; subst.
      exists []. auto. }
    apply ret_Some in Hm. destruct Hm as [E1 E2]. inversion E1; subst.
    exists []. auto. }
  destruct Hpre as (pre & Hst & Hs & Hc & Hok).
  destruct ok; cbn [negb] in H;
    [|apply ret_Some in H; destruct H; lia].
  specialize (Hok eq_refl).
  destruct (0 <? skip) eqn:Esk.
  - apply Z.ltb_lt in Esk. bind_inv H. destruct a as [n got].
    apply lift_Some in Hm0.
    destruct (safe_read_full _ _ _ _ _ _ Hm0) as (Hst2 & Hn & Hle & Hs2 & Hc2).
    set (k := if 256 <? skip then 256 else skip) in *.
    assert (Hk : k = Z.min 256 skip).
    { unfold k. destruct (256 <? skip) eqn:E;
        [apply Z.ltb_lt in E|apply Z.ltb_ge in E]; lia. }
    destruct (n =? k) eqn:En; cbn [negb] in H;
      [|apply ret_Some in H; destruct H; lia].
    apply Z.eqb_eq in En. apply ret_Some in H. destruct H as [_ H]. subst w'.
    assert (Hgot : Zlength_ got = k) by lia.
    exists (pre ++ got)%list.
    split; [rewrite Hst, Hst2, app_assoc; reflexivity|].
    split; [|split; congruence].
    unfold socks5_bound.
    destruct (atyp =? 1).
    { destruct Hok as [E1 E2]. subst pre. cbn [app]. lia. }
    destruct (atyp =? 3).
    { destruct Hok as (alen & E1 & E2). subst pre.
      exists alen, got. split; [reflexivity|]. lia. }
    destruct (atyp =? 4).
    { destruct Hok as [E1 E2]. subst pre. cbn [app]. lia. }
    destruct Hok as [E1 E2]. lia.
  - apply Z.ltb_ge in Esk. apply ret_Some in H. destruct H as [_ H].
    subst w'. exists pre.
    split; [exact Hst|]. split; [|split; assumption].
    unfold socks5_bound.
    destruct (atyp =? 1); [destruct Hok; lia|].
    destruct (atyp =? 3).
    { destruct Hok as (alen & E1 & E2). subst pre.
      exists alen, []. split; [reflexivity|]. unfold Zlength_. simpl. lia. }
    destruct (atyp =? 4); [destruct Hok; lia|].
    destruct Hok; assumption.
Qed.

Lemma socks5_tunnel_granted :
  forall dest_host dest_port w w',
    socks5_tunnel dest_host dest_port w = Some (0, w') ->
    exists head bound,
      rx_stream (rx w) = (head ++ bound ++ rx_stream (rx w'))%list
      /\ sent w' = (sent w ++ socks5_request dest_host dest_port)%list
      /\ Zlength_ head = 4 /\ byte_at head 1 = 0
      /\ socks5_bound (byte_at head 3) bound
      /\ console w' = console w.
Proof.
  intros h pt w w' H. unfold socks5_tunnel in H.
  destruct (512 <? 7 + strlen h); [discriminate|].
  bind_inv H. apply lift_Some in Hm.
  destruct (safe_write_full _ _ _ _ _ Hm) as (_ & Hs & Hrx & Hc).
  destruct (a =? Zlength_ (socks5_request h pt)) eqn:Ea;
    cbn [negb] in H; [|exfalso; exact (failed_is_not_0 _ _ _ H)].
  apply Z.eqb_eq in Ea. specialize (Hs Ea).
  bind_inv H. destruct a0 as [n buf]. apply lift_Some in Hm0.
  destruct (safe_read_full _ _ _ _ _ _ Hm0) as (Hst & Hn & Hle & Hs2 & Hc2).
  destruct (n <? 4) eqn:En; [exfalso; exact (failed_is_not_0 _ _ _ H)|].
  apply Z.ltb_ge in En.
  destruct (byte_at buf 1 =? 0) eqn:Eb; cbn [negb] in H;
    [|exfalso; exact (failed_is_not_0 _ _ _ H)].
  apply Z.eqb_eq in Eb.
  destruct (socks5_drain_granted _ _ _ H) as (bound & Hst3 & Hb & Hs3 & Hc3).
  exists buf, bound.
  split; [rewrite <- Hrx, Hst, Hst3; reflexivity|].
  split; [congruence|]. split; [lia|]. split; [exact Eb|].
  split; [exact Hb|]. congruence.
Qed.

(** X24.  [socks5_connect] reports success only when the proxy chose
    "no authentication" or, for a caller with credentials, accepted the user
    name and password; the request went out whole after the greeting; and
    the reply granted it.  What it takes from the socket is the two bytes of
    the method, the two bytes of the authentication when there was one, the
    four bytes of the reply and the bound address; it prints nothing. *)
Theorem socks5_connect_granted :
  forall dest_host dest_port username password w w',
    socks5_connect dest_host dest_port username password w = Some (0, w') ->
    exists method auth_out auth_in head bound,
      rx_stream (rx w)
      = ([5; method] ++ auth_in ++ head ++ bound ++ rx_stream (rx w'))%list
      /\ sent w'
         = (sent w ++ socks5_greeting username password ++ auth_out
            ++ socks5_request dest_host dest_port)%list
      /\ ((method = 0 /\ auth_out = [] /\ auth_in = [])
          \/ (method = 2
              /\ exists u p v,
                   username = Some u /\ password = Some p
                   /\ auth_out = socks5_auth u p /\ auth_in = [v; 0]))
      /\ Zlength_ head = 4 /\ byte_at head 1 = 0
      /\ socks5_bound (byte_at head 3) bound
      /\ console w' = console w.
Proof.
  intros h pt u p w w' H. unfold socks5_connect in H. cbv zeta in H.
  bind_inv H. apply lift_Some in Hm.
  destruct (safe_write_full _ _ _ _ _ Hm) as (_ & Hs & Hrx & Hc).
  destruct (a =? Zlength_ (socks5_greeting u p)) eqn:Ea;
    cbn [negb] in H; [|exfalso; exact (failed_is_not_0 _ _ _ H)].
  apply Z.eqb_eq in Ea. specialize (Hs Ea).
  bind_inv H. destruct a0 as [n buf]. apply lift_Some in Hm0.
  destruct (safe_read_full _ _ _ _ _ _ Hm0) as (Hst & Hn & Hle & Hs2 & Hc2).
  destruct (n =? 2) eqn:En; cbn [negb] in H;
    [|exfalso; exact (failed_is_not_0 _ _ _ H)].
  apply Z.eqb_eq in En.
  assert (Hbuf : exists b0 b1, buf = [b0; b1]).
  { destruct buf as [|b0 [|b1 [|b2 r]]]; unfold Zlength_ in *;
      cbn [List.length] in *; try lia.
    exists b0, b1. reflexivity. }
  destruct Hbuf as (b0 & b1 & Ebuf). subst buf.
  change (byte_at [b0; b1] 0) with b0 in H.
  change (byte_at [b0; b1] 1) with b1 in H.
  destruct (b0 =? 5) eqn:E0; cbn [negb] in H;
    [|exfalso; exact (failed_is_not_0 _ _ _ H)].
  apply Z.eqb_eq in E0. subst b0.
  destruct (b1 =? 2) eqn:E1.
  - apply Z.eqb_eq in E1. subst b1.
    destruct u as [us|]; [|discriminate].
    destruct p as [pw|]; [|discriminate].
    destruct (512 <? 3 + strlen us + strlen pw); [discriminate|].
    bind_inv H. apply lift_Some in Hm1.
    destruct (safe_write_full _ _ _ _ _ Hm1) as (_ & Hs3 & Hrx3 & Hc3).
    destruct (a0 =? Zlength_ (socks5_auth us pw)) eqn:Ea0;
      cbn [negb] in H; [|exfalso; exact (failed_is_not_0 _ _ _ H)].
    apply Z.eqb_eq in Ea0. specialize (Hs3 Ea0).
    bind_inv H. destruct a1 as [n2 buf2]. apply lift_Some in Hm2.
    destruct (safe_read_full _ _ _ _ _ _ Hm2)
      as (Hst4 & Hn4 & Hle4 & Hs4 & Hc4).
    destruct (n2 =? 2) eqn:En2; cbn [negb] in H;
      [|exfalso; exact (failed_is_not_0 _ _ _ H)].
    apply Z.eqb_eq in En2.
    assert (Hbuf : exists v s, buf2 = [v; s]).
    { destruct buf2 as [|c0 [|c1 [|c2 r]]]; unfold Zlength_ in *;
        cbn [List.length] in *; try lia.
      exists c0, c1. reflexivity. }
    destruct Hbuf as (v & s & Ebuf). subst buf2.
    change (byte_at [v; s] 1) with s in H.
    destruct (s =? 0) eqn:Es; cbn [negb] in H;
      [|exfalso; exact (failed_is_not_0 _ _ _ H)].
    apply Z.eqb_eq in Es. subst s.
    destruct (socks5_tunnel_granted _ _ _ _ H)
      as (head & bound & Hst5 & Hs5 & Hh1 & Hh2 & Hb & Hc5).
    exists 2, (socks5_auth us pw), [v; 0], head, bound.
    split.
    { rewrite <- Hrx, Hst, <- Hrx3, Hst4, Hst5. reflexivity. }
    split.
    { rewrite Hs5, Hs4, Hs3, Hs2, Hs, <- !app_assoc. reflexivity. }
    split.
    { right. split; [reflexivity|]. exists us, pw, v. auto. }
    repeat split; try assumption. congruence.
  - destruct (b1 =? 0) eqn:E2; cbn [negb] in H;
      [|exfalso; exact (failed_is_not_0 _ _ _ H)].
    apply Z.eqb_eq in E2. subst b1.
    destruct (socks5_tunnel_granted _ _ _ _ H)
      as (head & bound & Hst5 & Hs5 & Hh1 & Hh2 & Hb & Hc5).
    exists 0, [], [], head, bound.
    split; [rewrite <- Hrx, Hst, Hst5; reflexivity|].
    split; [rewrite Hs5, Hs2, Hs, <- !app_assoc; reflexivity|].
    split; [left; auto|].
    repeat split; try assumption. congruence.
Qed.

Lemma http_read_response_frame :
  forall room buf w buf' w',
    http_read_response room buf w = Some ((true, buf'), w') ->
    exists got,
      buf' = (buf ++ got)%list
      /\ rx_stream (rx w) = (got ++ rx_stream (rx w'))%list
      /\ (List.length got <= room)%nat
      /\ (ends_with_blank_line buf' = true \/ List.length got = room)
      /\ (forall k, (0 < k < List.length got)%nat ->
          ends_with_blank_line (buf ++ firstn k got) = false)
      /\ sent w' = sent w /\ console w' = console w.
Proof.
  induction room as [|room IH]; intros buf w buf' w' H;
    cbn [http_read_response] in H.
  - apply ret_Some in H. destruct H as [E1 E2]. inversion E1; subst.
    exists []. rewrite app_nil_r. cbn [List.length app].
    repeat split; auto. intros k Hk. lia.
  - bind_inv H. destruct a as [n b]. apply lift_Some in Hm.
    destruct (safe_read_full _ _ _ _ _ _ Hm) as (Hst & Hn & Hle & Hs & Hc).
    destruct (n <=? 0) eqn:En.
    { bind_inv H. apply ret_Some in H. destruct H as [E _]. discriminate. }
    apply Z.leb_gt in En.
    assert (Hb : exists x, b = [x]).
    { destruct b as [|x [|y r]]; unfold Zlength_ in *;
        cbn [List.length] in *; try lia.
      exists x. reflexivity. }
    destruct Hb as (x & Eb). subst b.
    destruct (ends_with_blank_line (buf ++ [x])) eqn:Ebl.
    + apply ret_Some in H. destruct H as [E1 E2]. inversion E1; subst.
      exists [x]. cbn [List.length].
      repeat split; auto; try lia; intros k Hk; lia.
    + destruct (IH _ _ _ _ H) as (got & E1 & E2 & E3 & E4 & E5 & E6 & E7).
      exists (x :: got). cbn [List.length].
      split; [rewrite E1, <- app_assoc; reflexivity|].
      split; [rewrite Hst, E2; reflexivity|].
      split; [lia|].
      split; [destruct E4 as [E4|E4]; [left; exact E4|right; lia]|].
      split; [|split; congruence].
      intros k Hk. destruct k as [|k]; [lia|]. cbn [firstn].
      replace (buf ++ x :: firstn k got)%list
        with ((buf ++ [x]) ++ firstn k got)%list
        by (rewrite <- app_assoc; reflexivity).
      destruct k as [|k].
      * rewrite firstn_0, app_nil_r. exact Ebl.
      * apply E5. lia.
Qed.

(** X25.  [http_connect] reports success only when all the bytes of the
    request buffer went out and the response starts with [HTTP/1.] and the
    status that [atoi] reads in it as an [int] is 200.  The bytes of the
    buffer are the request when it has at most 2047 characters; at 2048
    characters the last one is replaced by a NUL.  The response is taken
    from the socket one byte at a time up to the first blank line, or up to
    2047 bytes: what the proxy sends after the blank line is left in the
    socket. *)
Theorem http_connect_granted :
  forall dest_host dest_port username password w w',
    http_connect dest_host dest_port username password w = Some (0, w') ->
    exists resp,
      sent w'
      = (sent w
         ++ http_request_bytes dest_host dest_port username password)%list
      /\ rx_stream (rx w) = (resp ++ rx_stream (rx w'))%list
      /\ (ends_with_blank_line resp = true \/ List.length resp = 2047%nat)
      /\ (forall k, (0 < k < List.length resp)%nat ->
          ends_with_blank_line (firstn k resp) = false)
      /\ http_starts_ok resp = true /\ http_status resp = 200
      /\ console w' = console w
      /\ strlen (http_request dest_host dest_port username password) <= 2048
      /\ (strlen (http_request dest_host dest_port username password) <= 2047
          -> http_request_bytes dest_host dest_port username password
             = bytes_of_string
                 (http_request dest_host dest_port username password)).
Proof.
  intros h pt u p w w' H. unfold http_connect in H. cbv zeta in H.
  destruct (2048 <? strlen (http_request h pt u p)) eqn:Elen;
    [discriminate|].
  apply Z.ltb_ge in Elen.
  bind_inv H. apply lift_Some in Hm.
  destruct (safe_write_full _ _ _ _ _ Hm) as (_ & Hs & Hrx & Hc).
  destruct (a =? Zlength_ (http_request_bytes h pt u p)) eqn:Ea;
    cbn [negb] in H; [|exfalso; exact (failed_is_not_0 _ _ _ H)].
  apply Z.eqb_eq in Ea. specialize (Hs Ea).
  bind_inv H. destruct a0 as [ok buf].
  destruct ok; cbn [negb] in H;
    [|apply ret_Some in H; destruct H; lia].
  destruct (http_read_response_frame _ _ _ _ _ Hm0)
    as (got & E1 & E2 & E3 & E4 & E5 & E6 & E7).
  cbn [app] in E1, E5. subst got.
  unfold http_check_response in H. cbv zeta in H.
  destruct (String.prefix "HTTP/1." (c_str (string_of_bytes buf))) eqn:Ep;
    cbn [negb] in H; [|exfalso; exact (failed_is_not_0 _ _ _ H)].
  destruct (atoi (c_str (string_of_bytes (skipn 9 buf))) =? 200) eqn:E200;
    cbn [negb] in H; [|exfalso; exact (failed_is_not_0 _ _ _ H)].
  apply Z.eqb_eq in E200. apply ret_Some in H. destruct H as [_ H]. subst w'.
  exists buf.
  split; [congruence|]. split; [rewrite <- Hrx; exact E2|].
  split; [exact E4|]. split; [exact E5|].
  split; [exact Ep|]. split; [exact E200|].
  split; [congruence|]. split; [exact Elen|].
  intros Hle. unfold http_request_bytes.
  replace (strlen (http_request h pt u p) =? 2048) with false
    by (symmetry; apply Z.eqb_neq; lia).
  reflexivity.
Qed.

Lemma socks4_connect_granted_witness :
  exists w',
    socks4_connect (fun _ => Some [198; 51; 100; 7]) (fun _ => (0, None))
      "198.51.100.7" 6667 (Some "irc")
      (mkWorld [RxData 5 [0; 90; 0]; RxData 7 [0; 0; 0; 0; 0; 42; 43]]
               [TxRoom 0 6; TxRoom 2 4096] [] 0 ENONE [] [])
    = Some (0, w')
    /\ exists reply,
         [0; 90; 0; 0; 0; 0; 0; 0; 42; 43]
         = (reply ++ rx_stream (rx w'))%list
         /\ Zlength_ reply = 8.
Proof.
  destruct (socks4_connect (fun _ => Some [198; 51; 100; 7]) (fun _ => (0, None))
              "198.51.100.7" 6667 (Some "irc")
              (mkWorld [RxData 5 [0; 90; 0]; RxData 7 [0; 0; 0; 0; 0; 42; 43]]
                       [TxRoom 0 6; TxRoom 2 4096] [] 0 ENONE [] []))
    as [[r w']|] eqn:E; [|vm_compute in E; discriminate].
  assert (Er : 0 = r).
  { pose proof E as E'. vm_compute in E'. injection E' as Er _. exact Er. }
  subst r. exists w'. split; [reflexivity|].
  destruct (socks4_connect_granted _ _ _ _ _ _ _ E)
    as (ip & reply & _ & _ & Hst & Hlen & _).
  exists reply. split; [exact Hst|exact Hlen].
Defined.

Lemma socks5_connect_granted_witness :
  exists w',
    socks5_connect "irc.example.org" 6667 None None
      (mkWorld [RxData 1 [5; 0]; RxData 1 [5; 0; 0; 3];
                RxData 1 [3; 97; 98; 99; 0; 80; 77]]
               [TxRoom 0 4096; TxRoom 0 4096] [] 0 ENONE [] [])
    = Some (0, w')
    /\ exists method auth_in head bound,
         [5; 0; 5; 0; 0; 3; 3; 97; 98; 99; 0; 80; 77]
         = ([5; method] ++ auth_in ++ head ++ bound
            ++ rx_stream (rx w'))%list
         /\ Zlength_ head = 4
         /\ socks5_bound (byte_at head 3) bound.
Proof.
  destruct (socks5_connect "irc.example.org" 6667 None None
              (mkWorld [RxData 1 [5; 0]; RxData 1 [5; 0; 0; 3];
                        RxData 1 [3; 97; 98; 99; 0; 80; 77]]
                       [TxRoom 0 4096; TxRoom 0 4096] [] 0 ENONE [] []))
    as [[r w']|] eqn:E; [|vm_compute in E; discriminate].
  assert (Er : 0 = r).
  { pose proof E as E'. vm_compute in E'. injection E' as Er _. exact Er. }
  subst r. exists w'. split; [reflexivity|].
  destruct (socks5_connect_granted _ _ _ _ _ _ E)
    as (method & auth_out & auth_in & head & bound & Hst & _ & _ & Hh & _
        & Hb & _).
  exists method, auth_in, head, bound. auto.
Defined.

Lemma http_connect_granted_witness :
  exists w',
    http_connect "irc.example.org" 6667 None None
      (mkWorld [RxData 1 (bytes_of_string
                            ("HTTP/1.1 200 OK" ++ CRLF ++ CRLF ++ ":hello"))]
               [TxRoom 0 4096] [] 0 ENONE [] [])
    = Some (0, w')
    /\ exists resp,
         bytes_of_string ("HTTP/1.1 200 OK" ++ CRLF ++ CRLF ++ ":hello")
         = (resp ++ rx_stream (rx w'))%list
         /\ (ends_with_blank_line resp = true
             \/ List.length resp = 2047%nat).
Proof.
  destruct (http_connect "irc.example.org" 6667 None None
              (mkWorld [RxData 1 (bytes_of_string
                                    ("HTTP/1.1 200 OK" ++ CRLF ++ CRLF
                                     ++ ":hello"))]
                       [TxRoom 0 4096] [] 0 ENONE [] []))
    as [[r w']|] eqn:E; [|vm_compute in E; discriminate].
  assert (Er : 0 = r).
  { pose proof E as E'. vm_compute in E'. injection E' as Er _. exact Er. }
  subst r. exists w'. split; [reflexivity|].
  destruct (http_connect_granted _ _ _ _ _ _ E)
    as (resp & _ & Hst & Hend & _).
  exists resp. split; [|exact Hend].
  rewrite <- Hst. cbn [rx rx_stream flat_map rx_bytes].
  rewrite app_nil_r. reflexivity.
Defined.

Lemma try_order_granted :
  forall inet_pton4 gethostbyname order i net p timeout_ms test_host
         test_port rtt0 w detected rtt w',
    try_order inet_pton4 gethostbyname order i net p timeout_ms test_host
              test_port rtt0 w = Some ((detected, true, rtt), w') ->
    exists k w1 w2,
      nth_error order k = Some detected
      /\ open_proxy_socket (net (i + k)%nat) timeout_ms w1 = (Some rtt, w2)
      /\ perform_proxy_handshake inet_pton4 gethostbyname p detected
           test_host test_port w2 = Some (0, w').
Proof.
  intros ip gh order.
  induction order as [|t rest IH];
    intros i net p tmo h pt rtt0 w detected rtt w' H;
    cbn [try_order] in H.
  - apply ret_Some in H. destruct H as [H _]. discriminate.
  - bind_inv H. apply lift_Some in Hm.
    destruct a as [rtt1|];
      [|apply ret_Some in H; destruct H as [H _]; discriminate].
    bind_inv H. destruct (a =? 0) eqn:Ea.
    + apply Z.eqb_eq in Ea. subst a.
      apply ret_Some in H. destruct H as [H Hw]. inversion H; subst.
      exists O, w, w0. rewrite Nat.add_0_r. auto.
    + apply IH in H. destruct H as (k & wa & wb & H1 & H2 & H3).
      exists (S k), wa, wb. rewrite Nat.add_succ_r. auto.
Qed.

(** X26.  A worker never marks a proxy as validated without a granted
    handshake: when [validated] is set, [open_proxy_socket] returned a
    connection for one of the attempts of the order, the handshake of the
    detected type returned 0 on that connection, the connect time recorded
    is the one of that attempt, and the worker stopped there. *)
Theorem validated_means_granted :
  forall inet_pton4 gethostbyname p net timeout_ms test_host test_port s w
         p' s' w',
    validate_proxy inet_pton4 gethostbyname p net timeout_ms test_host
                   test_port s w = Some ((p', s'), w') ->
    validated p' = true ->
    exists k w1 w2,
      nth_error (attempt_order p) k = Some (detected_type p')
      /\ open_proxy_socket (net k) timeout_ms w1
         = (Some (last_rtt_ms p'), w2)
      /\ perform_proxy_handshake inet_pton4 gethostbyname p
           (detected_type p') test_host test_port w2 = Some (0, w').
Proof.
  intros ip gh p net tmo h pt s w p' s' w' H Hv.
  unfold validate_proxy in H. bind_inv H.
  destruct a as [[detected keep] rtt].
  destruct (keep && negb (proxy_type_eqb detected PROXY_NONE)) eqn:E;
    apply ret_Some in H; destruct H as [H Hw]; inversion H; subst p' s' w0;
    [|discriminate].
  apply andb_prop in E. destruct E as [E _]. subst keep.
  apply try_order_granted in Hm.
  destruct Hm as (k & w1 & w2 & H1 & H2 & H3).
  exists k, w1, w2. cbn [detected_type last_rtt_ms mark_validated]. auto.
Qed.

Lemma validated_means_granted_witness :
  exists r w',
    validate_proxy (fun _ => None) (fun _ => (0, None)) fresh_socks5_proxy
                   (fun _ => granting_socks5) 5000 "irc.libera.chat" 6667
                   stats_zero quiet_world = Some (r, w')
    /\ validated (fst r) = true
    /\ exists k w1 w2,
         nth_error (attempt_order fresh_socks5_proxy) k
         = Some (detected_type (fst r))
         /\ open_proxy_socket granting_socks5 5000 w1
            = (Some (last_rtt_ms (fst r)), w2)
         /\ perform_proxy_handshake (fun _ => None) (fun _ => (0, None))
              fresh_socks5_proxy (detected_type (fst r)) "irc.libera.chat"
              6667 w2 = Some (0, w').
Proof.
  destruct (validate_proxy (fun _ => None) (fun _ => (0, None)) fresh_socks5_proxy
              (fun _ => granting_socks5) 5000 "irc.libera.chat" 6667
              stats_zero quiet_world) as [[[p' s'] w']|] eqn:E;
    [|vm_compute in E; discriminate].
  assert (Hv : validated p' = true).
  { pose proof E as E'. vm_compute in E'. injection E' as Ep _ _.
    rewrite <- Ep. reflexivity. }
  exists (p', s'), w'. split; [reflexivity|]. cbn [fst].
  split; [exact Hv|].
  exact (validated_means_granted _ _ _ _ _ _ _ _ _ _ _ _ E Hv).
Defined.

(** X27.  [connect_through_proxy] reports success only for a proxy that is
    given and has a type, after a [connect] that did not fail outright, a
    [select] that found the socket ready within 30 s and [SO_ERROR] equal
    to 0, and a handshake of the type of the proxy that returned 0; an HTTPS
    proxy is negotiated with as an HTTP proxy. *)
Theorem connect_through_proxy_granted :
  forall inet_pton4 gethostbyname p d dest_host dest_port w w',
    connect_through_proxy inet_pton4 gethostbyname p d dest_host dest_port w
    = Some (0, w') ->
    exists q delay hit,
      p = Some q
      /\ type q <> PROXY_NONE
      /\ (forall e, dial_conn d <> DialError e)
      /\ dial_ready d = Some (PollReady delay hit (Some 0))
      /\ delay <= 30000
      /\ perform_proxy_handshake inet_pton4 gethostbyname q (type q)
           dest_host dest_port (tick w (Z.max 0 delay)) = Some (0, w')
      /\ (type q = PROXY_HTTPS ->
          http_connect dest_host dest_port (username q) (password q)
                       (tick w (Z.max 0 delay)) = Some (0, w')).
Proof.
  intros ip gh p d h pt w w' H. unfold connect_through_proxy in H.
  destruct p as [q|]; [|apply ret_Some in H; destruct H; lia].
  assert (Hd : (forall e, dial_conn d <> DialError e)
               /\ bind (lift (dial_wait d))
                       (fun ok =>
                          if negb ok then ret (-1)
                          else match type q with
                               | PROXY_SOCKS4 =>
                                   socks4_connect ip gh h pt (username q)
                               | PROXY_SOCKS5 =>
                                   socks5_connect h pt (username q)
                                                  (password q)
                               | PROXY_HTTP | PROXY_HTTPS =>
                                   http_connect h pt (username q)
                                                (password q)
                               | PROXY_NONE => ret (-1)
                               end) w = Some (0, w')).
  { destruct (dial_conn d) as [| |e].
    - split; [discriminate|exact H].
    - split; [discriminate|exact H].
    - inversion H. }
  clear H. destruct Hd as [Hd H].
  bind_inv H. apply lift_Some in Hm. unfold dial_wait in Hm.
  destruct (dial_ready d) as [ev|] eqn:Er.
  2:{ inversion Hm; subst. apply ret_Some in H. destruct H; lia. }
  destruct (DIAL_TIMEOUT_MS <? poll_delay ev) eqn:Et.
  { inversion Hm; subst. apply ret_Some in H. destruct H; lia. }
  apply Z.ltb_ge in Et.
  destruct ev as [delay hit [err|]|delay e].
  - inversion Hm; subst a w0. clear Hm.
    destruct (err =? 0) eqn:Ee; cbn [negb] in H;
      [|apply ret_Some in H; destruct H; lia].
    apply Z.eqb_eq in Ee. subst err.
    cbn [poll_delay] in *. unfold DIAL_TIMEOUT_MS in Et.
    exists q, delay, hit.
    split; [reflexivity|].
    split.
    { intros E. rewrite E in H. apply ret_Some in H. destruct H; lia. }
    split; [exact Hd|]. split; [reflexivity|]. split; [lia|].
    split.
    { unfold perform_proxy_handshake. destruct (type q); try exact H.
      apply ret_Some in H. destruct H; lia. }
    intros E. rewrite E in H. exact H.
  - inversion Hm; subst. apply ret_Some in H. destruct H; lia.
  - inversion Hm; subst. apply ret_Some in H. destruct H; lia.
Qed.

Lemma connect_through_proxy_granted_witness :
  exists w',
    connect_through_proxy (fun _ => None) (fun _ => (0, None))
      (Some (mark_validated fresh_socks5_proxy PROXY_SOCKS5 12))
      (mkDial DialInProgress (Some (PollReady 40 true (Some 0))))
      "irc.example.org" 6667
      (mkWorld [RxData 1 [5; 0]; RxData 1 [5; 0; 0; 1; 0; 0; 0; 0; 0; 0]]
               [TxRoom 0 4096; TxRoom 0 4096] [] 0 ENONE [] [])
    = Some (0, w')
    /\ exists delay hit,
         Some (PollReady 40 true (Some 0))
         = Some (PollReady delay hit (Some 0))
         /\ delay <= 30000.
Proof.
  destruct (connect_through_proxy (fun _ => None) (fun _ => (0, None))
              (Some (mark_validated fresh_socks5_proxy PROXY_SOCKS5 12))
              (mkDial DialInProgress (Some (PollReady 40 true (Some 0))))
              "irc.example.org" 6667
              (mkWorld [RxData 1 [5; 0];
                        RxData 1 [5; 0; 0; 1; 0; 0; 0; 0; 0; 0]]
                       [TxRoom 0 4096; TxRoom 0 4096] [] 0 ENONE [] []))
    as [[r w']|] eqn:E; [|vm_compute in E; discriminate].
  assert (Er : 0 = r).
  { pose proof E as E'. vm_compute in E'. injection E' as Er _. exact Er. }
  subst r. exists w'. split; [reflexivity|].
  destruct (connect_through_proxy_granted _ _ _ _ _ _ _ _ E)
    as (q & delay & hit & _ & _ & _ & Hr & Hd & _).
  exists delay, hit. split; [exact Hr|exact Hd].
Defined.

(** ** A sweep without workers *)

Lemma filter_unvalidated_mark_failed :
  forall l,
    filter (fun p => negb (validated p)) (map mark_failed l)
    = map mark_failed l.
Proof.
  induction l as [|p l IH]; [reflexivity|].
  cbn [map filter mark_failed validated negb]. rewrite IH. reflexivity.
Qed.

(** X28.  When not a single worker thread can be started, the sweep still
    runs its last loop: every proxy is removed as not validated, the pool is
    left empty with a count of 0 and no cursor, and the result is 0; nothing
    is sent to any proxy. *)
Theorem sweep_without_workers_empties_the_pool :
  forall inet_pton4 gethostbyname test_host test_port timeout_ms created net
         x w,
    proxy_list x <> [] ->
    proxy_count x = Zlength_ (proxy_list x) ->
    cursor_ok x ->
    created <= 0 ->
    exists x',
      check_and_validate_proxies inet_pton4 gethostbyname test_host test_port
                                 timeout_ms created net x w
      = Some ((0, x'), w)
      /\ proxy_list x' = [] /\ proxy_count x' = 0
      /\ current_proxy x' = None.
Proof.
  intros ip gh h pt tmo created net x w Hne Hcnt Hcur Hcr.
  unfold check_and_validate_proxies.
  destruct (proxy_list x) as [|p0 l0] eqn:Hl; [congruence|].
  cbv zeta.
  assert (Hpos : 0 < proxy_count x).
  { rewrite Hcnt. unfold Zlength_. cbn [List.length]. lia. }
  replace (proxy_count x <=? 0) with false by (symmetry; apply Z.leb_gt; lia).
  replace (proxy_count x =? Zlength_ (p0 :: l0)) with true
    by (symmetry; apply Z.eqb_eq; exact Hcnt).
  cbn [negb].
  match goal with
  | |- context [0 <? Z.min ?a (Z.max 0 created)] =>
      replace (0 <? Z.min a (Z.max 0 created)) with false
        by (symmetry; apply Z.ltb_ge; lia)
  end.
  unfold bind, ret.
  set (items := map mark_failed (p0 :: l0)).
  set (x1 := set_pool x items (current_proxy x) (proxy_count x)).
  assert (Hl1 : proxy_list x1 = ([] ++ items)%list) by reflexivity.
  pose proof (remove_unvalidated_spec items [] x1 Hl1) as Hs.
  cbv zeta in Hs. cbn [List.length app] in Hs. destruct Hs as [Hs1 Hs2].
  assert (Hc1 : cursor_ok x1).
  { unfold cursor_ok, x1, items in *. cbn [set_pool current_proxy proxy_list].
    rewrite length_map. rewrite Hl in Hcur. exact Hcur. }
  pose proof (remove_unvalidated_cursor_ok items [] x1 Hl1 Hc1) as Hc2.
  cbn [List.length] in Hc2.
  change (proxy_list x1) with items.
  exists (remove_unvalidated items 0 x1).
  split; [reflexivity|].
  assert (Hf1 : filter validated items = [])
    by (unfold items; apply filter_validated_mark_failed).
  assert (Hf2 : Zlength_ (filter (fun p => negb (validated p)) items)
                = Zlength_ (p0 :: l0)).
  { unfold items. rewrite filter_unvalidated_mark_failed.
    unfold Zlength_. rewrite length_map. reflexivity. }
  rewrite Hf1 in Hs1. rewrite Hf2 in Hs2.
  split; [exact Hs1|]. split.
  - rewrite Hs2. change (proxy_count x1) with (proxy_count x). lia.
  - unfold cursor_ok in Hc2. rewrite Hs1 in Hc2.
    destruct (current_proxy (remove_unvalidated items 0 x1)) as [c|];
      [cbn [List.length] in Hc2; lia|reflexivity].
Qed.

Lemma sweep_without_workers_empties_the_pool_witness :
  exists x',
    check_and_validate_proxies (fun _ => None) (fun _ => (0, None))
      "irc.libera.chat" 6667 5000 0 demo_net demo_pool quiet_world
    = Some ((0, x'), quiet_world)
    /\ proxy_list x' = [] /\ proxy_count x' = 0
    /\ current_proxy x' = None.
Proof.
  apply (sweep_without_workers_empties_the_pool (fun _ => None)
           (fun _ => (0, None)) "irc.libera.chat" 6667 5000 0 demo_net demo_pool
           quiet_world).
  - discriminate.
  - reflexivity.
  - unfold cursor_ok. simpl. exact I.
  - lia.
Defined.
